(** * CloudESSManager: the cloud-side session with one energy-storage station

    A shallow embedding of [APP/Grid_Dut_Mng.py].  The Python object is a
    record of its attributes, every method is a function in a monad that
    threads that record and may raise, and the MQTT client, the console and
    the wall clock are explicit parts of the threaded state.

    Modelling conventions:
    - A decoded payload is a [json] value.  A number is a Python [int] or a
      Python [float]; a [float] is a binary64 value of the Standard Library's
      [SpecFloat], and [+] on numbers converts and rounds as Python does.
    - A [datetime] is its number of microseconds on the time line, and a
      [timedelta] the difference of two of them.
    - [datetime.now()] reads the next value of a clock oracle; the text
      formats [strftime]/[isoformat] are parameters of the development.
    - The MQTT client library is not part of the repository.  What it raises
      is a parameter of the development: [publish_error topic p] is the
      exception that [client.publish(topic, json.dumps(p))] raises, if any,
      and [subscribe_error topic] the one that [client.subscribe(topic)]
      raises.  An accepted message is appended as [(topic, p)] to the outbox
      [published]; each [print] appends one structured line to [console].
    - Of [_on_message], the part that follows the classification of the topic
      and the decoding of the payload is modelled first, as
      [_on_message_event] and [_on_message_response]: the call of the handler
      inside the [try] block.  The callback as a whole, with the remaining
      methods and the attributes only they use, follows in the part on the
      whole object; [connect], which polls a flag set from another thread,
      is left out.
    - Of [APP/Grid_Front.py], [ESSFrontend._get_pcs_status] is modelled; the
      rest of that file and [APP/Test_Cloud.py] drive the Streamlit page. *)

From stdpp Require Import gmap strings list fin_maps.
From Stdlib Require Import SpecFloat.

Open Scope Z_scope.

#[local] Set Warnings "-register-all".

(** ** Decoded JSON and the Python operations applied to it *)

(** A Python [float] is a binary64 value: a [spec_float] of the Standard
    Library in its canonical form ([valid_binary 53 1024]), on which [SFadd 53
    1024] is the addition rounded to nearest, ties to even. *)
#[global] Instance spec_float_eq_dec : EqDecision spec_float.
Proof. solve_decision. Defined.

#[global] Instance spec_float_countable : Countable spec_float.
Proof.
  refine (inj_countable'
    (fun f => match f with
              | S754_zero s => inl (inl s)
              | S754_infinity s => inl (inr s)
              | S754_nan => inr (inl ())
              | S754_finite s m e => inr (inr (s, m, e))
              end)
    (fun x => match x with
              | inl (inl s) => S754_zero s
              | inl (inr s) => S754_infinity s
              | inr (inl _) => S754_nan
              | inr (inr (s, m, e)) => S754_finite s m e
              end) _).
  intros []; reflexivity.
Defined.

(** What [json.loads] returns: a number written without fraction and
    exponent is an [int], any other number a [float], as are the literals
    [NaN], [Infinity] and [-Infinity] that it accepts. *)
Inductive json : Type :=
| JNull
| JBool (b : bool)
| JInt (z : Z)
| JStr (s : string)
| JArr (l : list json)
| JObj (kvs : list (string * json))
| JFloat (f : spec_float).

(** The items of a [dict] with string keys; the first binding of a key is
    the one the dict holds. *)
Fixpoint dict_lookup (k : string) (kvs : list (string * json)) : option json :=
  match kvs with
  | [] => None
  | (k', v) :: rest => if String.eqb k' k then Some v else dict_lookup k rest
  end.

(** The value [d.get(k, default)] of a dict with items [kvs]. *)
Definition field (kvs : list (string * json)) (k : string) (default : json) : json :=
  from_option id default (dict_lookup k kvs).

(** [d.get(k, default)]: only a dict has the method; [None] stands for the
    [AttributeError] raised on any other value. *)
Definition py_dict_get (d : json) (k : string) (default : json) : option json :=
  match d with
  | JObj kvs => Some (field kvs k default)
  | _ => None
  end.

(** Truth value of an object, as tested by [if x] / [if not x]. *)
Definition py_truthy (j : json) : bool :=
  match j with
  | JNull => false
  | JBool b => b
  | JInt z => negb (z =? 0)
  | JStr s => negb (String.eqb s "")
  | JArr l => match l with [] => false | _ => true end
  | JObj kvs => match kvs with [] => false | _ => true end
  | JFloat f => match f with S754_zero _ => false | _ => true end
  end.

(** [x == "literal"]: false unless [x] is that very string. *)
Definition py_eq_str (j : json) (s : string) : bool :=
  match j with
  | JStr t => String.eqb t s
  | _ => false
  end.

(** [x is None] *)
Definition py_is_none (j : json) : bool :=
  match j with
  | JNull => true
  | _ => false
  end.

(** A Python number: an [int] or a [float]. *)
Inductive pynum : Type :=
| PInt (z : Z)
| PFloat (f : spec_float).

(** The numeric value of an operand of [number + x]: [bool] is a subclass of
    [int]; every non-number makes the addition raise [TypeError]. *)
Definition py_number (j : json) : option pynum :=
  match j with
  | JInt z => Some (PInt z)
  | JBool b => Some (PInt (if b then 1 else 0))
  | JFloat f => Some (PFloat f)
  | _ => None
  end.

(** [float(z)], the conversion applied to the [int] operand of a mixed
    addition: the nearest binary64, ties to even; [None] stands for the
    [OverflowError] raised when that is beyond the largest finite one. *)
Definition py_float (z : Z) : option spec_float :=
  match binary_normalize 53 1024 z 0 false with
  | S754_infinity _ => None
  | f => Some f
  end.

(** [a + b] on numbers: exact on two [int]s, binary64 addition once an
    operand is a [float]. *)
Definition py_add (a b : pynum) : option pynum :=
  match a, b with
  | PInt x, PInt y => Some (PInt (x + y))
  | PInt x, PFloat g => f ← py_float x; Some (PFloat (SFadd 53 1024 f g))
  | PFloat f, PInt y => g ← py_float y; Some (PFloat (SFadd 53 1024 f g))
  | PFloat f, PFloat g => Some (PFloat (SFadd 53 1024 f g))
  end.

(** The [int] a float equals, if any. *)
Definition float_as_int (f : spec_float) : option Z :=
  match f with
  | S754_zero _ => Some 0
  | S754_finite s m e =>
      if 0 <=? e then Some (cond_Zopp s (Z.pos m * 2 ^ e))
      else if Z.pos m mod 2 ^ (- e) =? 0
           then Some (cond_Zopp s (Z.pos m / 2 ^ (- e)))
           else None
  | _ => None
  end.

(** Hashable objects up to Python equality, as they act as dict keys and in
    [x in list]: [True == 1] and [False == 0] are the same key, and so are a
    float and the [int] it equals ([2.0 == 2]); [KFloat] holds the other
    floats.  The [NaN] of [json.loads] is one object, found again by
    identity. *)
Inductive pykey : Type :=
| KNone
| KInt (z : Z)
| KStr (s : string)
| KFloat (f : spec_float).

#[global] Instance pykey_eq_dec : EqDecision pykey.
Proof. solve_decision. Defined.

#[global] Instance pykey_countable : Countable pykey.
Proof.
  refine (inj_countable'
    (fun k => match k with
              | KNone => inl ()
              | KInt z => inr (inl z)
              | KStr s => inr (inr (inl s))
              | KFloat f => inr (inr (inr f))
              end)
    (fun x => match x with
              | inl _ => KNone
              | inr (inl z) => KInt z
              | inr (inr (inl s)) => KStr s
              | inr (inr (inr f)) => KFloat f
              end) _).
  intros []; reflexivity.
Defined.

(** [hash(x)]: lists and dicts are unhashable ([None] stands for the
    [TypeError]). *)
Definition py_hash_key (j : json) : option pykey :=
  match j with
  | JNull => Some KNone
  | JBool b => Some (KInt (if b then 1 else 0))
  | JInt z => Some (KInt z)
  | JStr s => Some (KStr s)
  | JArr _ | JObj _ => None
  | JFloat f => Some (match float_as_int f with
                      | Some z => KInt z
                      | None => KFloat f
                      end)
  end.

(** The key of a dict whose keys are all [int]s that equals [k], if any. *)
Definition key_as_int (k : pykey) : option Z :=
  match k with
  | KInt z => Some z
  | _ => None
  end.

(** [l[-count:]] *)
Definition py_slice_last {A : Type} (count : Z) (l : list A) : list A :=
  let len := Z.of_nat (length l) in
  let start := - count in
  let start := if start <? 0 then Z.max (start + len) 0 else Z.min start len in
  drop (Z.to_nat start) l.

(** ** Enumerations *)

Inductive CommandType : Type :=
| POWER_CONTROL
| OTA_UPGRADE
| CHARGE_POWER_ADJUST
| DISCHARGE_POWER_ADJUST
| CHARGE_RATE_MODE
| DISCHARGE_RATE_MODE
| CHARGE_SOC_SET
| DISCHARGE_SOC_SET.

Definition CommandType_value (c : CommandType) : string :=
  match c with
  | POWER_CONTROL => "powerCtrlReq"
  | OTA_UPGRADE => "otaReq"
  | CHARGE_POWER_ADJUST => "powerAdjustSetReq"
  | DISCHARGE_POWER_ADJUST => "powerAdjustSetDischargeReq"
  | CHARGE_RATE_MODE => "rateModeSetReq"
  | DISCHARGE_RATE_MODE => "dischgRateModeSetReq"
  | CHARGE_SOC_SET => "chgSocSetReq"
  | DISCHARGE_SOC_SET => "dischgSocSetReq"
  end.

Inductive MessageType : Type :=
| KEEPALIVE
| STATE
| EVENT
| CONFIRM
| REQUEST
| RESPONSE.

Definition MessageType_value (m : MessageType) : string :=
  match m with
  | KEEPALIVE => "keepalive"
  | STATE => "state"
  | EVENT => "event"
  | CONFIRM => "confirm"
  | REQUEST => "request"
  | RESPONSE => "response"
  end.

#[global] Instance MessageType_eq_dec : EqDecision MessageType.
Proof. solve_decision. Defined.

#[global] Instance MessageType_countable : Countable MessageType.
Proof.
  refine (inj_countable'
    (fun m => match m with
              | KEEPALIVE => 0%nat | STATE => 1%nat | EVENT => 2%nat
              | CONFIRM => 3%nat | REQUEST => 4%nat | RESPONSE => 5%nat
              end)
    (fun n => match n with
              | 0%nat => KEEPALIVE | 1%nat => STATE | 2%nat => EVENT
              | 3%nat => CONFIRM | 4%nat => REQUEST | _ => RESPONSE
              end) _).
  intros []; reflexivity.
Defined.

Inductive EventType : Type :=
| faultRecord
| chargeEvent
| dischargeEvent
| chargeRecord
| dischargeRecord.

Definition EventType_value (e : EventType) : string :=
  match e with
  | faultRecord => "faultRecord"
  | chargeEvent => "chargeEvent"
  | dischargeEvent => "dischargeEvent"
  | chargeRecord => "chargeRecord"
  | dischargeRecord => "dischargeRecord"
  end.

Inductive ConfirmType : Type :=
| faultRecordConf
| chargeEventConf
| dischargeEventConf
| chargeRecordConf
| dischargeRecordConf.

Definition ConfirmType_value (c : ConfirmType) : string :=
  match c with
  | faultRecordConf => "faultRecordConf"
  | chargeEventConf => "chgEventConf"
  | dischargeEventConf => "dischgEventConf"
  | chargeRecordConf => "chargeRecordConf"
  | dischargeRecordConf => "dischargeRecordConf"
  end.

(** ** The session object and its environment *)

(** An entry of [pending_commands]: the dict built by [send_command]. *)
Record pending_command : Type := {
  pc_type : CommandType;
  pc_params : json;
  pc_timestamp : Z;
  pc_status : string;
  pc_response : json
}.

(** The exceptions the modelled code can raise. *)
Inductive exn : Type :=
| AttributeError
| TypeError
| KeyError
| OverflowError
| ValueError.

(** One line per [print] call of the modelled methods, holding the values
    interpolated into its message. *)
Inductive log_line : Type :=
| LogChargeRecord (order_sn electAmount total : json)
| LogDischargeRecord (order_sn electAmount total : json)
| LogConfirmSent (topic : string) (payload : json)
| LogResponse (msg_index message : json)
| LogUnknownResponse (msg_index : json)
| LogNotConnected
| LogCommandSent (function topic : string) (params : json)
| LogRateNotConnected
| LogRateInvalid
| LogRateSent (segments : nat) (function_id : string) (cmd_id : Z)
| LogMessageError (e : exn).

(** The attributes of a [CloudESSManager] that the modelled methods read or
    write, followed by the environment: the outbox of the MQTT client, the
    console, and the number of clock readings taken so far.
    [manual_topics] is the pair of its two inner dicts, its outer dict being
    fixed to the keys "subscribe" and "publish" by [__init__].
    [total_money] is read through the class attribute (the [int] 0) until the first
    record stores it on the instance. *)
Record state : Type := {
  product_code : string;
  device_code : string;
  use_auto_topic : bool;
  manual_topics_subscribe : gmap MessageType string;
  manual_topics_publish : gmap MessageType string;
  connected : bool;
  last_heartbeat : option Z;
  connection_timeout : Z;
  event_logs : list json;
  command_history : list json;
  charge_records : gmap pykey json;
  discharge_records : gmap pykey json;
  charge_order_sns : list pykey;
  discharge_order_sns : list pykey;
  message_index : Z;
  pending_commands : gmap Z pending_command;
  total_money : pynum;
  published : list (string * json);
  console : list log_line;
  ticks : nat
}.

(** Attribute assignment [self.x = v], one function per assigned attribute. *)

Definition set_connected (v : bool) (s : state) : state :=
  {| product_code := product_code s; device_code := device_code s;
     use_auto_topic := use_auto_topic s;
     manual_topics_subscribe := manual_topics_subscribe s;
     manual_topics_publish := manual_topics_publish s; connected := v;
     last_heartbeat := last_heartbeat s;
     connection_timeout := connection_timeout s; event_logs := event_logs s;
     command_history := command_history s;
     charge_records := charge_records s;
     discharge_records := discharge_records s;
     charge_order_sns := charge_order_sns s;
     discharge_order_sns := discharge_order_sns s;
     message_index := message_index s;
     pending_commands := pending_commands s; total_money := total_money s;
     published := published s; console := console s; ticks := ticks s |}.

Definition set_last_heartbeat (v : option Z) (s : state) : state :=
  {| product_code := product_code s; device_code := device_code s;
     use_auto_topic := use_auto_topic s;
     manual_topics_subscribe := manual_topics_subscribe s;
     manual_topics_publish := manual_topics_publish s;
     connected := connected s; last_heartbeat := v;
     connection_timeout := connection_timeout s; event_logs := event_logs s;
     command_history := command_history s;
     charge_records := charge_records s;
     discharge_records := discharge_records s;
     charge_order_sns := charge_order_sns s;
     discharge_order_sns := discharge_order_sns s;
     message_index := message_index s;
     pending_commands := pending_commands s; total_money := total_money s;
     published := published s; console := console s; ticks := ticks s |}.

Definition set_event_logs (v : list json) (s : state) : state :=
  {| product_code := product_code s; device_code := device_code s;
     use_auto_topic := use_auto_topic s;
     manual_topics_subscribe := manual_topics_subscribe s;
     manual_topics_publish := manual_topics_publish s;
     connected := connected s; last_heartbeat := last_heartbeat s;
     connection_timeout := connection_timeout s; event_logs := v;
     command_history := command_history s;
     charge_records := charge_records s;
     discharge_records := discharge_records s;
     charge_order_sns := charge_order_sns s;
     discharge_order_sns := discharge_order_sns s;
     message_index := message_index s;
     pending_commands := pending_commands s; total_money := total_money s;
     published := published s; console := console s; ticks := ticks s |}.

Definition set_command_history (v : list json) (s : state) : state :=
  {| product_code := product_code s; device_code := device_code s;
     use_auto_topic := use_auto_topic s;
     manual_topics_subscribe := manual_topics_subscribe s;
     manual_topics_publish := manual_topics_publish s;
     connected := connected s; last_heartbeat := last_heartbeat s;
     connection_timeout := connection_timeout s; event_logs := event_logs s;
     command_history := v; charge_records := charge_records s;
     discharge_records := discharge_records s;
     charge_order_sns := charge_order_sns s;
     discharge_order_sns := discharge_order_sns s;
     message_index := message_index s;
     pending_commands := pending_commands s; total_money := total_money s;
     published := published s; console := console s; ticks := ticks s |}.

Definition set_charge_records (v : gmap pykey json) (s : state) : state :=
  {| product_code := product_code s; device_code := device_code s;
     use_auto_topic := use_auto_topic s;
     manual_topics_subscribe := manual_topics_subscribe s;
     manual_topics_publish := manual_topics_publish s;
     connected := connected s; last_heartbeat := last_heartbeat s;
     connection_timeout := connection_timeout s; event_logs := event_logs s;
     command_history := command_history s; charge_records := v;
     discharge_records := discharge_records s;
     charge_order_sns := charge_order_sns s;
     discharge_order_sns := discharge_order_sns s;
     message_index := message_index s;
     pending_commands := pending_commands s; total_money := total_money s;
     published := published s; console := console s; ticks := ticks s |}.

Definition set_discharge_records (v : gmap pykey json) (s : state) : state :=
  {| product_code := product_code s; device_code := device_code s;
     use_auto_topic := use_auto_topic s;
     manual_topics_subscribe := manual_topics_subscribe s;
     manual_topics_publish := manual_topics_publish s;
     connected := connected s; last_heartbeat := last_heartbeat s;
     connection_timeout := connection_timeout s; event_logs := event_logs s;
     command_history := command_history s;
     charge_records := charge_records s; discharge_records := v;
     charge_order_sns := charge_order_sns s;
     discharge_order_sns := discharge_order_sns s;
     message_index := message_index s;
     pending_commands := pending_commands s; total_money := total_money s;
     published := published s; console := console s; ticks := ticks s |}.

Definition set_charge_order_sns (v : list pykey) (s : state) : state :=
  {| product_code := product_code s; device_code := device_code s;
     use_auto_topic := use_auto_topic s;
     manual_topics_subscribe := manual_topics_subscribe s;
     manual_topics_publish := manual_topics_publish s;
     connected := connected s; last_heartbeat := last_heartbeat s;
     connection_timeout := connection_timeout s; event_logs := event_logs s;
     command_history := command_history s;
     charge_records := charge_records s;
     discharge_records := discharge_records s; charge_order_sns := v;
     discharge_order_sns := discharge_order_sns s;
     message_index := message_index s;
     pending_commands := pending_commands s; total_money := total_money s;
     published := published s; console := console s; ticks := ticks s |}.

Definition set_discharge_order_sns (v : list pykey) (s : state) : state :=
  {| product_code := product_code s; device_code := device_code s;
     use_auto_topic := use_auto_topic s;
     manual_topics_subscribe := manual_topics_subscribe s;
     manual_topics_publish := manual_topics_publish s;
     connected := connected s; last_heartbeat := last_heartbeat s;
     connection_timeout := connection_timeout s; event_logs := event_logs s;
     command_history := command_history s;
     charge_records := charge_records s;
     discharge_records := discharge_records s;
     charge_order_sns := charge_order_sns s; discharge_order_sns := v;
     message_index := message_index s;
     pending_commands := pending_commands s; total_money := total_money s;
     published := published s; console := console s; ticks := ticks s |}.

Definition set_message_index (v : Z) (s : state) : state :=
  {| product_code := product_code s; device_code := device_code s;
     use_auto_topic := use_auto_topic s;
     manual_topics_subscribe := manual_topics_subscribe s;
     manual_topics_publish := manual_topics_publish s;
     connected := connected s; last_heartbeat := last_heartbeat s;
     connection_timeout := connection_timeout s; event_logs := event_logs s;
     command_history := command_history s;
     charge_records := charge_records s;
     discharge_records := discharge_records s;
     charge_order_sns := charge_order_sns s;
     discharge_order_sns := discharge_order_sns s; message_index := v;
     pending_commands := pending_commands s; total_money := total_money s;
     published := published s; console := console s; ticks := ticks s |}.

Definition set_pending_commands (v : gmap Z pending_command) (s : state) : state :=
  {| product_code := product_code s; device_code := device_code s;
     use_auto_topic := use_auto_topic s;
     manual_topics_subscribe := manual_topics_subscribe s;
     manual_topics_publish := manual_topics_publish s;
     connected := connected s; last_heartbeat := last_heartbeat s;
     connection_timeout := connection_timeout s; event_logs := event_logs s;
     command_history := command_history s;
     charge_records := charge_records s;
     discharge_records := discharge_records s;
     charge_order_sns := charge_order_sns s;
     discharge_order_sns := discharge_order_sns s;
     message_index := message_index s; pending_commands := v;
     total_money := total_money s; published := published s;
     console := console s; ticks := ticks s |}.

Definition set_total_money (v : pynum) (s : state) : state :=
  {| product_code := product_code s; device_code := device_code s;
     use_auto_topic := use_auto_topic s;
     manual_topics_subscribe := manual_topics_subscribe s;
     manual_topics_publish := manual_topics_publish s;
     connected := connected s; last_heartbeat := last_heartbeat s;
     connection_timeout := connection_timeout s; event_logs := event_logs s;
     command_history := command_history s;
     charge_records := charge_records s;
     discharge_records := discharge_records s;
     charge_order_sns := charge_order_sns s;
     discharge_order_sns := discharge_order_sns s;
     message_index := message_index s;
     pending_commands := pending_commands s; total_money := v;
     published := published s; console := console s; ticks := ticks s |}.

Definition set_published (v : list (string * json)) (s : state) : state :=
  {| product_code := product_code s; device_code := device_code s;
     use_auto_topic := use_auto_topic s;
     manual_topics_subscribe := manual_topics_subscribe s;
     manual_topics_publish := manual_topics_publish s;
     connected := connected s; last_heartbeat := last_heartbeat s;
     connection_timeout := connection_timeout s; event_logs := event_logs s;
     command_history := command_history s;
     charge_records := charge_records s;
     discharge_records := discharge_records s;
     charge_order_sns := charge_order_sns s;
     discharge_order_sns := discharge_order_sns s;
     message_index := message_index s;
     pending_commands := pending_commands s; total_money := total_money s;
     published := v; console := console s; ticks := ticks s |}.

Definition set_console (v : list log_line) (s : state) : state :=
  {| product_code := product_code s; device_code := device_code s;
     use_auto_topic := use_auto_topic s;
     manual_topics_subscribe := manual_topics_subscribe s;
     manual_topics_publish := manual_topics_publish s;
     connected := connected s; last_heartbeat := last_heartbeat s;
     connection_timeout := connection_timeout s; event_logs := event_logs s;
     command_history := command_history s;
     charge_records := charge_records s;
     discharge_records := discharge_records s;
     charge_order_sns := charge_order_sns s;
     discharge_order_sns := discharge_order_sns s;
     message_index := message_index s;
     pending_commands := pending_commands s; total_money := total_money s;
     published := published s; console := v; ticks := ticks s |}.

Definition set_ticks (v : nat) (s : state) : state :=
  {| product_code := product_code s; device_code := device_code s;
     use_auto_topic := use_auto_topic s;
     manual_topics_subscribe := manual_topics_subscribe s;
     manual_topics_publish := manual_topics_publish s;
     connected := connected s; last_heartbeat := last_heartbeat s;
     connection_timeout := connection_timeout s; event_logs := event_logs s;
     command_history := command_history s;
     charge_records := charge_records s;
     discharge_records := discharge_records s;
     charge_order_sns := charge_order_sns s;
     discharge_order_sns := discharge_order_sns s;
     message_index := message_index s;
     pending_commands := pending_commands s; total_money := total_money s;
     published := published s; console := console s; ticks := v |}.

(** ** Computations over the session: state passing with exceptions

    A raised exception keeps every assignment made before it, as in Python. *)

Inductive outcome (A : Type) : Type :=
| Val (a : A)
| Raise (e : exn).

Arguments Val {A} a.
Arguments Raise {A} e.

Definition M (A : Type) : Type := state -> outcome A * state.

Definition ret {A : Type} (a : A) : M A := fun s => (Val a, s).

Definition raise {A : Type} (e : exn) : M A := fun s => (Raise e, s).

Definition bind {A B : Type} (m : M A) (k : A -> M B) : M B :=
  fun s =>
    match m s with
    | (Val a, s') => k a s'
    | (Raise e, s') => (Raise e, s')
    end.

(** [x ← m; k] and [m;; k] are stdpp's notations for [bind]. *)
#[global] Instance M_ret : MRet M := @ret.
#[global] Instance M_bind : MBind M := fun A B k m => bind m k.

(** Reading an attribute, and assigning through one of the [set_] functions. *)
Definition gets {A : Type} (f : state -> A) : M A := fun s => (Val (f s), s).

Definition modify (f : state -> state) : M unit := fun s => (Val tt, f s).

(** Lifting of the partial Python operations, raising the given exception. *)
Definition try_some {A : Type} (e : exn) (o : option A) : M A :=
  match o with
  | Some a => ret a
  | None => raise e
  end.

Definition dict_get (d : json) (k : string) (default : json) : M json :=
  try_some AttributeError (py_dict_get d k default).

(** [d[k]] on a dict built by a literal with string keys. *)
Definition dict_item (d : json) (k : string) : M json :=
  match d with
  | JObj kvs => try_some KeyError (dict_lookup k kvs)
  | _ => raise TypeError
  end.

Definition print (l : log_line) : M unit :=
  modify (fun s => set_console (console s ++ [l]) s).

(** [try: m except Exception as e: print(...)] *)
Definition try_except (m : M unit) : M unit :=
  fun s =>
    match m s with
    | (Val _, s') => (Val tt, s')
    | (Raise e, s') => print (LogMessageError e) s'
    end.

(** What remains of the session after a computation, and its result. *)
Definition exec {A : Type} (m : M A) (s : state) : state := snd (m s).

Definition result {A : Type} (m : M A) (s : state) : outcome A := fst (m s).

(** ** __init__ *)

Definition manual_subscribe_default : gmap MessageType string :=
  <[KEEPALIVE := "100100003/9999998/S2M/keepalive"]>
  (<[STATE := "100100003/9999998/S2M/state"]>
  (<[EVENT := "100100003/9999998/S2M/event"]>
  (<[RESPONSE := "100100003/9999998/S2M/response"]> ∅))).

Definition manual_publish_default : gmap MessageType string :=
  <[CONFIRM := "100100003/9999998/M2S/confirm"]>
  (<[REQUEST := "100100003/9999998/M2S/request"]> ∅).

(** The object built by [CloudESSManager(product_code, device_code, ...)],
    in an environment that has published and printed nothing yet. *)
Definition __init__ (product device : string) : state :=
  {| product_code := product;
     device_code := device;
     use_auto_topic := true;
     manual_topics_subscribe := manual_subscribe_default;
     manual_topics_publish := manual_publish_default;
     connected := false;
     last_heartbeat := None;
     connection_timeout := 120;
     event_logs := [];
     command_history := [];
     charge_records := ∅;
     discharge_records := ∅;
     charge_order_sns := [];
     discharge_order_sns := [];
     message_index := 1;
     pending_commands := ∅;
     total_money := PInt 0;
     published := [];
     console := [];
     ticks := 0 |}.

(** ** The whole object

    The attributes and the environment that the methods above do not touch
    extend [state] to [manager]: the text of the last heartbeat, the six state
    snapshots, the order number kept for the power commands, the lines
    printed by the methods below (kept apart from [console], so that the
    order between the two lists is not represented) and the calls on the
    MQTT client, other than [publish], that returned. *)

Inductive client_call : Type :=
| Unsubscribe (topic : string)
| Subscribe (topic : string)
| LoopStop
| ClientDisconnect.

(** What [msg.payload.decode] and [json.loads] raise. *)
Inductive decode_error : Type :=
| UnicodeDecodeError
| JSONDecodeError.

Inductive notice : Type :=
| NoticeManualTopicSet (direction message_type topic : string)
| NoticeManualTopicInvalid (direction message_type : string)
| NoticeTopicMode (automatic : bool)
| NoticeSubscribed (topic : string)
| NoticeConnected (device : string)
| NoticeConnectFailed (rc : Z)
| NoticeUnknownTopic (topic : string)
| NoticeDecodeError (e : decode_error)
| NoticeOnline (device payload : string)
| NoticeHeartbeat (payload : string)
| NoticeBadHeartbeat (payload : string)
| NoticeStateUpdated (function : json) (at_time : string)
| NoticeCannotSend (command : string)
| NoticeDisconnected (device : string).

Record manager : Type := {
  core : state;
  last_heartbeat_str : option string;
  pcs_info : json;
  pcs_state : json;
  bat_info : json;
  bat_state : json;
  em_state : json;
  ess_state : json;
  last_orderSn : string;
  notices : list notice;
  client_calls : list client_call
}.

Definition with_core (v : state) (x : manager) : manager :=
  {| core := v; last_heartbeat_str := last_heartbeat_str x;
     pcs_info := pcs_info x; pcs_state := pcs_state x;
     bat_info := bat_info x; bat_state := bat_state x;
     em_state := em_state x; ess_state := ess_state x;
     last_orderSn := last_orderSn x; notices := notices x;
     client_calls := client_calls x |}.

Definition with_last_heartbeat_str (v : option string) (x : manager) : manager :=
  {| core := core x; last_heartbeat_str := v; pcs_info := pcs_info x;
     pcs_state := pcs_state x; bat_info := bat_info x;
     bat_state := bat_state x; em_state := em_state x;
     ess_state := ess_state x; last_orderSn := last_orderSn x;
     notices := notices x; client_calls := client_calls x |}.

Definition with_pcs_info (v : json) (x : manager) : manager :=
  {| core := core x; last_heartbeat_str := last_heartbeat_str x;
     pcs_info := v; pcs_state := pcs_state x; bat_info := bat_info x;
     bat_state := bat_state x; em_state := em_state x;
     ess_state := ess_state x; last_orderSn := last_orderSn x;
     notices := notices x; client_calls := client_calls x |}.

Definition with_pcs_state (v : json) (x : manager) : manager :=
  {| core := core x; last_heartbeat_str := last_heartbeat_str x;
     pcs_info := pcs_info x; pcs_state := v; bat_info := bat_info x;
     bat_state := bat_state x; em_state := em_state x;
     ess_state := ess_state x; last_orderSn := last_orderSn x;
     notices := notices x; client_calls := client_calls x |}.

Definition with_bat_info (v : json) (x : manager) : manager :=
  {| core := core x; last_heartbeat_str := last_heartbeat_str x;
     pcs_info := pcs_info x; pcs_state := pcs_state x; bat_info := v;
     bat_state := bat_state x; em_state := em_state x;
     ess_state := ess_state x; last_orderSn := last_orderSn x;
     notices := notices x; client_calls := client_calls x |}.

Definition with_bat_state (v : json) (x : manager) : manager :=
  {| core := core x; last_heartbeat_str := last_heartbeat_str x;
     pcs_info := pcs_info x; pcs_state := pcs_state x;
     bat_info := bat_info x; bat_state := v; em_state := em_state x;
     ess_state := ess_state x; last_orderSn := last_orderSn x;
     notices := notices x; client_calls := client_calls x |}.

Definition with_em_state (v : json) (x : manager) : manager :=
  {| core := core x; last_heartbeat_str := last_heartbeat_str x;
     pcs_info := pcs_info x; pcs_state := pcs_state x;
     bat_info := bat_info x; bat_state := bat_state x; em_state := v;
     ess_state := ess_state x; last_orderSn := last_orderSn x;
     notices := notices x; client_calls := client_calls x |}.

Definition with_ess_state (v : json) (x : manager) : manager :=
  {| core := core x; last_heartbeat_str := last_heartbeat_str x;
     pcs_info := pcs_info x; pcs_state := pcs_state x;
     bat_info := bat_info x; bat_state := bat_state x;
     em_state := em_state x; ess_state := v; last_orderSn := last_orderSn x;
     notices := notices x; client_calls := client_calls x |}.

Definition with_last_orderSn (v : string) (x : manager) : manager :=
  {| core := core x; last_heartbeat_str := last_heartbeat_str x;
     pcs_info := pcs_info x; pcs_state := pcs_state x;
     bat_info := bat_info x; bat_state := bat_state x;
     em_state := em_state x; ess_state := ess_state x; last_orderSn := v;
     notices := notices x; client_calls := client_calls x |}.

Definition with_notices (v : list notice) (x : manager) : manager :=
  {| core := core x; last_heartbeat_str := last_heartbeat_str x;
     pcs_info := pcs_info x; pcs_state := pcs_state x;
     bat_info := bat_info x; bat_state := bat_state x;
     em_state := em_state x; ess_state := ess_state x;
     last_orderSn := last_orderSn x; notices := v;
     client_calls := client_calls x |}.

Definition with_client_calls (v : list client_call) (x : manager) : manager :=
  {| core := core x; last_heartbeat_str := last_heartbeat_str x;
     pcs_info := pcs_info x; pcs_state := pcs_state x;
     bat_info := bat_info x; bat_state := bat_state x;
     em_state := em_state x; ess_state := ess_state x;
     last_orderSn := last_orderSn x; notices := notices x;
     client_calls := v |}.

(** Assignment of the attributes of [state] that only the methods below assign. *)
Definition set_use_auto_topic (v : bool) (s : state) : state :=
  {| product_code := product_code s; device_code := device_code s;
     use_auto_topic := v;
     manual_topics_subscribe := manual_topics_subscribe s;
     manual_topics_publish := manual_topics_publish s;
     connected := connected s; last_heartbeat := last_heartbeat s;
     connection_timeout := connection_timeout s; event_logs := event_logs s;
     command_history := command_history s;
     charge_records := charge_records s;
     discharge_records := discharge_records s;
     charge_order_sns := charge_order_sns s;
     discharge_order_sns := discharge_order_sns s;
     message_index := message_index s;
     pending_commands := pending_commands s; total_money := total_money s;
     published := published s; console := console s; ticks := ticks s |}.

Definition set_manual_topics_subscribe (v : gmap MessageType string) (s : state) : state :=
  {| product_code := product_code s; device_code := device_code s;
     use_auto_topic := use_auto_topic s;
     manual_topics_subscribe := v;
     manual_topics_publish := manual_topics_publish s;
     connected := connected s; last_heartbeat := last_heartbeat s;
     connection_timeout := connection_timeout s; event_logs := event_logs s;
     command_history := command_history s;
     charge_records := charge_records s;
     discharge_records := discharge_records s;
     charge_order_sns := charge_order_sns s;
     discharge_order_sns := discharge_order_sns s;
     message_index := message_index s;
     pending_commands := pending_commands s; total_money := total_money s;
     published := published s; console := console s; ticks := ticks s |}.

Definition set_manual_topics_publish (v : gmap MessageType string) (s : state) : state :=
  {| product_code := product_code s; device_code := device_code s;
     use_auto_topic := use_auto_topic s;
     manual_topics_subscribe := manual_topics_subscribe s;
     manual_topics_publish := v;
     connected := connected s; last_heartbeat := last_heartbeat s;
     connection_timeout := connection_timeout s; event_logs := event_logs s;
     command_history := command_history s;
     charge_records := charge_records s;
     discharge_records := discharge_records s;
     charge_order_sns := charge_order_sns s;
     discharge_order_sns := discharge_order_sns s;
     message_index := message_index s;
     pending_commands := pending_commands s; total_money := total_money s;
     published := published s; console := console s; ticks := ticks s |}.

(** Computations over the whole object. *)
Definition MM (A : Type) : Type := manager -> outcome A * manager.

Definition mm_ret {A : Type} (a : A) : MM A := fun x => (Val a, x).

Definition mm_bind {A B : Type} (m : MM A) (k : A -> MM B) : MM B :=
  fun x =>
    match m x with
    | (Val a, x') => k a x'
    | (Raise e, x') => (Raise e, x')
    end.

(** A computation of the methods above, run on the [core] of the object. *)
Definition lift {A : Type} (m : M A) : MM A :=
  fun x => match m (core x) with (r, s') => (r, with_core s' x) end.

Definition attribute {A : Type} (f : manager -> A) : MM A := fun x => (Val (f x), x).

Definition assign (f : manager -> manager) : MM unit := fun x => (Val tt, f x).

Definition mm_raise {A : Type} (e : exn) : MM A := fun x => (Raise e, x).

Definition announce (n : notice) : MM unit :=
  assign (fun x => with_notices (notices x ++ [n]) x).

Definition client (c : client_call) : MM unit :=
  assign (fun x => with_client_calls (client_calls x ++ [c]) x).

(** [try: m except Exception as e: print(...)] over the whole object; the
    line goes to [console] like the one of [try_except]. *)
Definition mm_try_except (m : MM unit) : MM unit :=
  fun x =>
    match m x with
    | (Val _, x') => (Val tt, x')
    | (Raise e, x') => lift (print (LogMessageError e)) x'
    end.

Definition mm_exec {A : Type} (m : MM A) (x : manager) : manager := snd (m x).

Definition mm_result {A : Type} (m : MM A) (x : manager) : outcome A := fst (m x).

(** [needle in haystack] on strings. *)
Fixpoint py_str_in (needle haystack : string) : bool :=
  String.prefix needle haystack
  || match haystack with
     | EmptyString => false
     | String _ rest => py_str_in needle rest
     end.

(** An inbound MQTT message: its topic and the bytes of its payload. *)
Record message : Type := {
  msg_topic : string;
  msg_payload : string
}.

(** The whole object right after construction. *)
Definition CloudESSManager (product device : string) : manager :=
  {| core := __init__ product device;
     last_heartbeat_str := None;
     pcs_info := JObj [];
     pcs_state := JObj [];
     bat_info := JObj [];
     bat_state := JObj [];
     em_state := JObj [];
     ess_state := JObj [];
     last_orderSn := "";
     notices := [];
     client_calls := [] |}.

(** ** Sample traffic

    Concrete payloads, a clock and a format on which the statements below are
    exercised. *)

(** One reading per second, the first one minute after the origin. *)
Definition sample_clock (n : nat) : Z := (Z.of_nat n + 60) * 1000000.

Definition sample_stamp : string := "2025-06-27 14:01:00".

Definition sample_format (t : Z) : string := sample_stamp.

Definition sample_event (function : string) (index : Z) (body : list (string * json)) : json :=
  JObj [("header", JObj [("index", JInt index);
                         ("version", JStr "1.0");
                         ("function", JStr function);
                         ("timeStamp", JStr "2025-06-27 14:00:00")]);
        ("dataBody", JObj body)].

Definition sample_charge_record : json :=
  sample_event "chargeRecord" 7
    [("orderSn", JStr "20250627140000"); ("electAmount", JInt 12); ("totalMoney", JInt 5)].

Definition sample_charge_record_update : json :=
  sample_event "chargeRecord" 8
    [("orderSn", JStr "20250627140000"); ("electAmount", JInt 30); ("totalMoney", JInt 9)].

Definition sample_charge_record_next : json :=
  sample_event "chargeRecord" 9
    [("orderSn", JStr "20250627150000"); ("electAmount", JInt 4); ("totalMoney", JInt 2)].

Definition sample_discharge_record : json :=
  sample_event "dischargeRecord" 10
    [("orderSn", JStr "20250627160000"); ("electAmount", JInt 8); ("totalMoney", JInt 3)].

Definition sample_discharge_record_update : json :=
  sample_event "dischargeRecord" 11
    [("orderSn", JStr "20250627160000"); ("electAmount", JInt 9); ("totalMoney", JInt 4)].

(** A charge record whose cost arrives as text. *)
Definition sample_charge_record_text_cost : json :=
  sample_event "chargeRecord" 12
    [("orderSn", JStr "20250627170000"); ("electAmount", JInt 12);
     ("totalMoney", JStr "12.50")].

(** An event without header index. *)
Definition sample_event_no_index : json :=
  JObj [("header", JObj [("function", JStr "faultRecord")]);
        ("dataBody", JObj [("orderSn", JStr "20250627140000")])].

(** 1001 distinct events: the first, and the 1000 that follow it. *)
Definition sample_numbered_event (i : nat) : json :=
  sample_event "chargeEvent" (Z.of_nat i) [].

Definition sample_later_events : list json :=
  map sample_numbered_event (seq 1 1000).

Definition sample_response (index : Z) : json :=
  JObj [("header", JObj [("index", JInt index); ("version", JStr "1.0")]);
        ("dataBody", JObj [("message", JStr "ok")])].

(** A response whose index is a list. *)
Definition sample_response_list_index : json :=
  JObj [("header", JObj [("index", JArr [JInt 2]); ("version", JStr "1.0")]);
        ("dataBody", JObj [("message", JStr "ok")])].

Definition sample_params : json :=
  JObj [("orderSn", JStr "20250627140000"); ("type", JInt 1)].

Definition sample_rates (n : nat) : list json := replicate n (JInt 1).

(** An event with a function identifier outside the five event types. *)
Definition sample_other_event : json := sample_event "otherEvent" 13 [].

(** A fresh session, the same once connected, and connected sessions that
    last heard from the station 60 and 160 seconds before the first reading
    of [sample_clock]. *)
Definition sample_session : state := __init__ "100100003" "0000014".

Definition sample_connected : state := set_connected true sample_session.

Definition sample_recent : state := set_last_heartbeat (Some 0) sample_connected.

Definition sample_stale : state :=
  set_last_heartbeat (Some (-100000000)) sample_connected.

(** The whole object of the sample session, fresh, connected and in manual
    topic mode; a session whose device code contains the value of a message
    type. *)
Definition sample_manager : manager := CloudESSManager "100100003" "0000014".

Definition sample_manager_connected : manager :=
  with_core sample_connected sample_manager.

Definition sample_manager_manual : manager :=
  with_core (set_use_auto_topic false sample_session) sample_manager.

Definition sample_misnamed : state := __init__ "100100003" "state-01".

(** Library functions for the sample traffic: a parser that accepts the one
    heartbeat text of the samples, read as the origin of [sample_clock]; a
    constant order stamp; payloads that are text already and carry no blanks;
    a JSON reader that knows the texts "chargeRecord" and "response". *)
Definition sample_strptime (text : string) : option Z :=
  if String.eqb text sample_stamp then Some 0 else None.

Definition sample_order_stamp (t : Z) : string := "20250627140100".

Definition sample_decode_utf8 (payload : string) : option string := Some payload.

Definition sample_strip (text : string) : string := text.

Definition sample_json_loads (text : string) : option json :=
  if String.eqb text "chargeRecord" then Some sample_charge_record
  else if String.eqb text "response" then Some (sample_response 2)
  else None.

Definition sample_keepalive : message :=
  {| msg_topic := "100100003/0000014/S2M/keepalive"; msg_payload := sample_stamp |}.

Definition sample_event_message : message :=
  {| msg_topic := "100100003/0000014/S2M/event"; msg_payload := "chargeRecord" |}.

Definition sample_pcs_state : json := sample_event "pcsState" 14 [("power", JInt 3)].

(** A PCS state frame that reports state 3, and one that reports state 5. *)
Definition sample_pcs_charging : json :=
  sample_event "pcsState" 15 [("state", JInt 3); ("P", JInt 40)].

Definition sample_pcs_idle : json :=
  sample_event "pcsState" 16 [("state", JInt 5); ("P", JInt 0)].

(** A client that raises [ValueError] when asked to publish on an empty topic
    or on a topic that holds one of the wildcards "+" and "#", and that
    accepts every other message; for subscribing, a client that raises
    [ValueError] on an empty topic filter and on one with a misplaced
    wildcard, and accepts the others: "+" has to stand for a whole level of
    the filter and "#" for its last level.  [after_slash] tells whether the
    character read sits at the start of a level. *)
Definition sample_publish_error (topic : string) (payload : json) : option exn :=
  if String.eqb topic "" || py_str_in "+" topic || py_str_in "#" topic
  then Some ValueError else None.

Fixpoint wildcard_misplaced (after_slash : bool) (topic : string) : bool :=
  match topic with
  | EmptyString => false
  | String c rest =>
      let before_slash :=
        match rest with
        | EmptyString => true
        | String d _ => String.eqb (String d EmptyString) "/"
        end in
      let at_end := match rest with EmptyString => true | String _ _ => false end in
      if String.eqb (String c EmptyString) "+" then
        negb (after_slash && before_slash) || wildcard_misplaced false rest
      else if String.eqb (String c EmptyString) "#" then
        negb (after_slash && at_end) || wildcard_misplaced false rest
      else wildcard_misplaced (String.eqb (String c EmptyString) "/") rest
  end.

Definition sample_subscribe_error (topic : string) : option exn :=
  if String.eqb topic "" || wildcard_misplaced true topic
  then Some ValueError else None.

(** A connected session whose device code holds the wildcard "+", and its
    whole object. *)
Definition sample_wildcard : state :=
  set_connected true (__init__ "100100003" "0000+14").

Definition sample_manager_wildcard : manager :=
  with_core sample_wildcard (CloudESSManager "100100003" "0000+14").

(** The floats 12.5 and 0.1 (the binary64 nearest to one tenth); charge
    records whose cost is the one, the other, and the int 10^400, which is
    beyond every float; and a session whose running total is the float
    12.5. *)
Definition sample_float_12_5 : spec_float := S754_finite false 7036874417766400 (-49).

Definition sample_float_0_1 : spec_float := S754_finite false 7205759403792794 (-56).

Definition sample_charge_record_float_cost : json :=
  sample_event "chargeRecord" 21
    [("orderSn", JStr "20250627180000"); ("totalMoney", JFloat sample_float_12_5)].

Definition sample_charge_record_small_cost : json :=
  sample_event "chargeRecord" 22
    [("orderSn", JStr "20250627190000"); ("totalMoney", JFloat sample_float_0_1)].

Definition sample_charge_record_huge_cost : json :=
  sample_event "chargeRecord" 23
    [("orderSn", JStr "20250627200000"); ("totalMoney", JInt (10 ^ 400))].

Definition sample_float_total : state :=
  set_total_money (PFloat sample_float_12_5) sample_session.

(** A charge record whose order identifier is a list. *)
Definition sample_charge_record_list_id : json :=
  sample_event "chargeRecord" 24
    [("orderSn", JArr [JStr "20250627210000"]); ("totalMoney", JInt 5)].

Section Manager.

(** The [n]-th reading of [datetime.now()], and the two text formats:
    [strftime] is [.strftime("%Y-%m-%d %H:%M:%S")]. *)
Variable clock : nat -> Z.
Variable strftime : Z -> string.
Variable isoformat : Z -> string.

(** The MQTT client is the paho-mqtt library, which is not part of the
    sources: [publish_error topic payload] is the exception that
    [client.publish(topic, json.dumps(payload))] raises, [None] when the call
    returns.  (paho-mqtt raises [ValueError] for an empty topic and for a
    topic that holds a wildcard, [+] or [#].) *)
Variable publish_error : string -> json -> option exn.

Definition now : M Z :=
  fun s => (Val (clock (ticks s)), set_ticks (S (ticks s)) s).

(** [self.client.publish(topic, json.dumps(payload))]: a call that returns
    has put the message in the outbox. *)
Definition publish (topic : string) (payload : json) : M unit :=
  match publish_error topic payload with
  | Some e => raise e
  | None => modify (fun s => set_published (published s ++ [(topic, payload)]) s)
  end.

(** *** _get_topic *)

Definition _get_topic (message_type : MessageType) (direction : string) : M string :=
  automatic ← gets use_auto_topic;
  if automatic : bool then
    let direction_str := if String.eqb direction "subscribe" then "S2M" else "M2S" in
    product ← gets product_code;
    device ← gets device_code;
    ret (product +:+ "/" +:+ device +:+ "/" +:+ direction_str +:+ "/"
         +:+ MessageType_value message_type)
  else
    topics ← (if String.eqb direction "subscribe" then gets manual_topics_subscribe
               else if String.eqb direction "publish" then gets manual_topics_publish
               else raise KeyError);
    ret (default ("default/" +:+ MessageType_value message_type)
                 (topics !! message_type)).

(** *** _send_confirm *)

Definition confirm_function (function : json) : string :=
  if py_eq_str function (EventType_value chargeEvent) then
    ConfirmType_value chargeEventConf
  else if py_eq_str function (EventType_value dischargeEvent) then
    ConfirmType_value dischargeEventConf
  else if py_eq_str function (EventType_value faultRecord) then
    ConfirmType_value faultRecordConf
  else if py_eq_str function (EventType_value chargeRecord) then
    ConfirmType_value chargeRecordConf
  else if py_eq_str function (EventType_value dischargeRecord) then
    ConfirmType_value dischargeRecordConf
  else "".

Definition confirm_payload (index order_sn : json) (func_conf timestamp : string) : json :=
  JObj [("header", JObj [("index", index);
                         ("version", JStr "1.0");
                         ("timestamp", JStr timestamp);
                         ("messageType", JStr "confirm");
                         ("function", JStr func_conf)]);
        ("dataBody", JObj [("orderSn", order_sn);
                           ("result", JInt 1);
                           ("reason", JInt 1)])].

Definition _send_confirm (index order_sn function : json) : M unit :=
  if py_is_none index then ret tt
  else
    let func_conf := confirm_function function in
    t ← now;
    let payload := confirm_payload index order_sn func_conf (strftime t) in
    topic ← _get_topic CONFIRM "publish";
    publish topic payload;;
    print (LogConfirmSent topic payload).

(** *** _process_charge_record, _process_discharge_record *)

Definition charge_record
    (order_sn start_time stop_time electAmount total_money start_soc stop_soc
     chgTime rateModelID : json) (created_at : string) : json :=
  JObj [("order_sn", order_sn);
        ("start_time", start_time);
        ("stop_time", stop_time);
        ("electAmount", electAmount);
        ("total_money", total_money);
        ("start_soc", start_soc);
        ("stop_soc", stop_soc);
        ("chgTime", chgTime);
        ("rateModelID", rateModelID);
        ("created_at", JStr created_at)].

Definition discharge_record
    (order_sn start_time stop_time electAmount total_money start_soc stop_soc
     duration rateModelID : json) (created_at : string) : json :=
  JObj [("order_sn", order_sn);
        ("start_time", start_time);
        ("stop_time", stop_time);
        ("electAmount", electAmount);
        ("total_money", total_money);
        ("start_soc", start_soc);
        ("stop_soc", stop_soc);
        ("duration", duration);
        ("rateModelID", rateModelID);
        ("created_at", JStr created_at)].

Definition _process_charge_record (payload : json) : M unit :=
  data_body ← dict_get payload "dataBody" (JObj []);
  order_sn ← dict_get data_body "orderSn" JNull;
  if negb (py_truthy order_sn) then ret tt
  else
    start_time ← dict_get data_body "startTime" JNull;
    stop_time ← dict_get data_body "stopTime" JNull;
    electAmount ← dict_get data_body "electAmount" (JInt 0);
    money ← dict_get data_body "totalMoney" (JInt 0);
    start_soc ← dict_get data_body "startSoc" (JInt 0);
    stop_soc ← dict_get data_body "stopSoc" (JInt 0);
    chgTime ← dict_get data_body "chgTime" (JInt 0);
    rateModelID ← dict_get data_body "rateModelID" (JInt 0);
    t ← now;
    let record := charge_record order_sn start_time stop_time electAmount money
                    start_soc stop_soc chgTime rateModelID (strftime t) in
    key ← try_some TypeError (py_hash_key order_sn);
    modify (fun s => set_charge_records (<[key := record]> (charge_records s)) s);;
    sns ← gets charge_order_sns;
    (if bool_decide (key ∈ sns) then ret tt
     else modify (fun s => set_charge_order_sns (charge_order_sns s ++ [key]) s));;
    total ← gets total_money;
    cost ← dict_item record "total_money";
    amount ← try_some TypeError (py_number cost);
    added ← try_some OverflowError (py_add total amount);
    modify (set_total_money added);;
    shown ← dict_item record "electAmount";
    print (LogChargeRecord order_sn shown cost).

Definition _process_discharge_record (payload : json) : M unit :=
  data_body ← dict_get payload "dataBody" (JObj []);
  order_sn ← dict_get data_body "orderSn" JNull;
  if negb (py_truthy order_sn) then ret tt
  else
    start_time ← dict_get data_body "startTime" JNull;
    stop_time ← dict_get data_body "stopTime" JNull;
    electAmount ← dict_get data_body "electAmount" JNull;
    money ← dict_get data_body "totalMoney" (JInt 0);
    start_soc ← dict_get data_body "startSoc" (JInt 0);
    stop_soc ← dict_get data_body "stopSoc" (JInt 0);
    duration ← dict_get data_body "chgTime" (JInt 0);
    rateModelID ← dict_get data_body "rateModelID" (JInt 0);
    t ← now;
    let record := discharge_record order_sn start_time stop_time electAmount money
                    start_soc stop_soc duration rateModelID (strftime t) in
    key ← try_some TypeError (py_hash_key order_sn);
    modify (fun s => set_discharge_records (<[key := record]> (discharge_records s)) s);;
    sns ← gets discharge_order_sns;
    (if bool_decide (key ∈ sns) then ret tt
     else modify (fun s => set_discharge_order_sns (discharge_order_sns s ++ [key]) s));;
    total ← gets total_money;
    cost ← dict_item record "total_money";
    amount ← try_some TypeError (py_number cost);
    added ← try_some OverflowError (py_add total amount);
    modify (set_total_money added);;
    shown ← dict_item record "electAmount";
    print (LogDischargeRecord order_sn shown cost).

(** *** _handle_event_message *)

Definition event_record (timestamp : json) (realtime : string)
    (function header data : json) : json :=
  JObj [("timestamp", timestamp);
        ("realtime", JStr realtime);
        ("function", function);
        ("header", header);
        ("data", data)].

Definition _handle_event_message (payload : json) : M unit :=
  header ← dict_get payload "header" (JObj []);
  data_body ← dict_get payload "dataBody" (JObj []);
  function ← dict_get header "function" JNull;
  timestamp ← dict_get header "timeStamp" JNull;
  t ← now;
  let event := event_record timestamp (isoformat t) function header data_body in
  modify (fun s => set_event_logs (event_logs s ++ [event]) s);;
  logs ← gets event_logs;
  (if (1000 <? length logs)%nat
   then modify (fun s => set_event_logs (tail (event_logs s)) s)
   else ret tt);;
  (if py_eq_str function "chargeRecord" then _process_charge_record payload
   else if py_eq_str function "dischargeRecord" then _process_discharge_record payload
   else ret tt);;
  index ← dict_get header "index" JNull;
  order_sn ← dict_get data_body "orderSn" JNull;
  _send_confirm index order_sn function;;
  t' ← now;
  modify (set_last_heartbeat (Some t')).

(** *** _handle_response_message *)

Definition complete (cmd : pending_command) : pending_command :=
  {| pc_type := pc_type cmd; pc_params := pc_params cmd;
     pc_timestamp := pc_timestamp cmd; pc_status := "completed";
     pc_response := pc_response cmd |}.

Definition respond (payload : json) (cmd : pending_command) : pending_command :=
  {| pc_type := pc_type cmd; pc_params := pc_params cmd;
     pc_timestamp := pc_timestamp cmd; pc_status := pc_status cmd;
     pc_response := payload |}.

Definition _handle_response_message (payload : json) : M unit :=
  header ← dict_get payload "header" (JObj []);
  data_body ← dict_get payload "dataBody" (JObj []);
  msg_index ← dict_get header "index" JNull;
  key ← try_some TypeError (py_hash_key msg_index);
  pending ← gets pending_commands;
  match key_as_int key ≫= (fun z => const z <$> pending !! z) with
  | Some z =>
      modify (fun s => set_pending_commands (alter complete z (pending_commands s)) s);;
      modify (fun s => set_pending_commands (alter (respond payload) z (pending_commands s)) s);;
      message ← dict_get data_body "message" (JStr "无消息");
      print (LogResponse msg_index message)
  | None => print (LogUnknownResponse msg_index)
  end.

(** *** _on_message, after the topic has been classified and the payload
    decoded: the handler runs inside the method's [try] block. *)

Definition _on_message_event (json_payload : json) : M unit :=
  try_except (_handle_event_message json_payload).

Definition _on_message_response (json_payload : json) : M unit :=
  try_except (_handle_response_message json_payload).

(** *** send_command *)

Definition command_payload (msg_index : Z) (function timestamp : string)
    (params : json) : json :=
  JObj [("header", JObj [("index", JInt msg_index);
                         ("version", JStr "1.0");
                         ("function", JStr function);
                         ("timestamp", JStr timestamp)]);
        ("dataBody", params)].

Definition send_command (command_type : CommandType) (params : json) : M Z :=
  is_connected ← gets connected;
  if negb is_connected then
    print LogNotConnected;;
    ret (-1)
  else
    modify (fun s => set_message_index (message_index s + 1) s);;
    msg_index ← gets message_index;
    t ← now;
    let payload := command_payload msg_index (CommandType_value command_type)
                     (strftime t) params in
    issued ← now;
    modify (fun s => set_pending_commands
      (<[msg_index := {| pc_type := command_type; pc_params := params;
                         pc_timestamp := issued; pc_status := "pending";
                         pc_response := JNull |}]> (pending_commands s)) s);;
    topic ← _get_topic REQUEST "publish";
    publish topic payload;;
    print (LogCommandSent (CommandType_value command_type) topic params);;
    ret msg_index.

(** *** check_connection_status *)

(** [td.total_seconds() <= seconds] for a [timedelta] of [td] microseconds
    and an [int] number of seconds, compared exactly: the rounding of
    [total_seconds()] to a binary64 is left out (it cannot move a value across
    a bound below 2^33 seconds). *)
Definition total_seconds_le (td seconds : Z) : bool :=
  td <=? seconds * 1000000.

Definition check_connection_status : M bool :=
  is_connected ← gets connected;
  if negb is_connected then ret false
  else
    last ← gets last_heartbeat;
    match last with
    | None => ret true
    | Some seen =>
        t ← now;
        timeout ← gets connection_timeout;
        ret (total_seconds_le (t - seen) timeout)
    end.

(** *** get_charge_records, get_discharge_records *)

Definition get_charge_records (count : Z) (order_sn : json) : M (list json) :=
  if py_truthy order_sn then
    key ← try_some TypeError (py_hash_key order_sn);
    records ← gets charge_records;
    ret (match records !! key with Some r => [r] | None => [] end)
  else
    sns ← gets charge_order_sns;
    let recent_sns := reverse (py_slice_last count sns) in
    records ← gets charge_records;
    ret (omap (fun sn => records !! sn) recent_sns).

Definition get_discharge_records (count : Z) (order_sn : json) : M (list json) :=
  if py_truthy order_sn then
    key ← try_some TypeError (py_hash_key order_sn);
    records ← gets discharge_records;
    ret (match records !! key with Some r => [r] | None => [] end)
  else
    sns ← gets discharge_order_sns;
    let recent_sns := reverse (py_slice_last count sns) in
    records ← gets discharge_records;
    ret (omap (fun sn => records !! sn) recent_sns).

(** *** send_rate_model_set *)

Definition rate_model_payload (timeStamp : string) (index : Z)
    (function_id rate_model_id : string) (effect : Z) (effect_date : string)
    (rate_list rate_details_list : list json) : json :=
  JObj [("header", JObj [("version", JStr "V1.0.0");
                         ("timeStamp", JStr timeStamp);
                         ("index", JInt index);
                         ("function", JStr function_id);
                         ("reason", JInt 0)]);
        ("dataBody", JObj [("rateModelID", JStr rate_model_id);
                           ("effect", JInt effect);
                           ("effectDate", JStr effect_date);
                           ("rateList", JArr rate_list);
                           ("rateDetailsList", JArr rate_details_list)])].

(** [len(rate_list) != len(rate_details_list) or not (1 <= len(rate_list) <= 12)] *)
Definition rate_segments_invalid (rate_list rate_details_list : list json) : bool :=
  negb (length rate_list =? length rate_details_list)%nat
  || negb ((1 <=? length rate_list)%nat && (length rate_list <=? 12)%nat).

Definition send_rate_model_set (rate_model_id : string) (effect : Z)
    (effect_date : string) (rate_list rate_details_list : list json)
    (function_id : string) : M Z :=
  is_connected ← gets connected;
  if negb is_connected then
    print LogRateNotConnected;;
    ret (-1)
  else if rate_segments_invalid rate_list rate_details_list then
    print LogRateInvalid;;
    ret (-1)
  else
    t ← now;
    index ← gets message_index;
    let payload := rate_model_payload (strftime t) index function_id rate_model_id
                     effect effect_date rate_list rate_details_list in
    modify (fun s => set_message_index (message_index s + 1) s);;
    cmd_id ← gets message_index;
    sent ← now;
    modify (fun s => set_command_history (command_history s ++
      [JObj [("id", JInt cmd_id);
             ("type", JStr "费率模型设置");
             ("payload", payload);
             ("timestamp", JStr (strftime sent));
             ("status", JStr "已发送")]]) s);;
    topic ← _get_topic REQUEST "publish";
    publish topic payload;;
    print (LogRateSent (length rate_list) function_id cmd_id);;
    ret cmd_id.

(** *** Sequences of inbound messages *)

Definition deliver_events (payloads : list json) (s : state) : state :=
  foldl (fun s p => exec (_on_message_event p) s) s payloads.

Definition deliver_responses (payloads : list json) (s : state) : state :=
  foldl (fun s p => exec (_on_message_response p) s) s payloads.

(** *** The methods over the whole object *)

(** [x ← m; k] and [m;; k] over [MM]. *)
#[global] Instance MM_ret : MRet MM := @mm_ret.
#[global] Instance MM_bind : MBind MM := fun A B k m => mm_bind m k.

Section Library.

(** Library functions taken as parameters: [strptime] parses the heartbeat
    format "%Y-%m-%d %H:%M:%S" ([None] for its [ValueError]), [order_stamp]
    is [.strftime("%Y%m%d%H%M%S")], [decode_utf8] is [bytes.decode('utf-8')],
    [strip] is [str.strip()] and [json_loads] is [json.loads] ([None] when
    they raise). *)
Variable strptime : string -> option Z.
Variable order_stamp : Z -> string.
Variable decode_utf8 : string -> option string.
Variable strip : string -> string.
Variable json_loads : string -> option json.

(** [subscribe_error topic] is the exception that [client.subscribe(topic)]
    raises, [None] when the call returns.  (paho-mqtt raises [ValueError] for
    an invalid topic filter, such as one with a wildcard inside a level.) *)
Variable subscribe_error : string -> option exn.

(** [self.client.subscribe(topic)]: a call that returns is recorded. *)
Definition subscribe (topic : string) : MM unit :=
  match subscribe_error topic with
  | Some e => mm_raise e
  | None => client (Subscribe topic)
  end.

(** **** set_manual_topic, toggle_topic_mode, _subscribe_topics *)

Definition set_manual_topic (message_type : MessageType) (direction topic : string) : MM unit :=
  subscribe ← lift (gets manual_topics_subscribe);
  publish_topics ← lift (gets manual_topics_publish);
  if String.eqb direction "subscribe" && bool_decide (is_Some (subscribe !! message_type)) then
    lift (modify (fun s => set_manual_topics_subscribe
                             (<[message_type := topic]> (manual_topics_subscribe s)) s));;
    announce (NoticeManualTopicSet direction (MessageType_value message_type) topic)
  else if String.eqb direction "publish" && bool_decide (is_Some (publish_topics !! message_type)) then
    lift (modify (fun s => set_manual_topics_publish
                             (<[message_type := topic]> (manual_topics_publish s)) s));;
    announce (NoticeManualTopicSet direction (MessageType_value message_type) topic)
  else
    announce (NoticeManualTopicInvalid direction (MessageType_value message_type)).

Definition subscribe_one (msg_type : MessageType) : MM unit :=
  topic ← lift (_get_topic msg_type "subscribe");
  subscribe topic;;
  announce (NoticeSubscribed topic).

Definition _subscribe_topics : MM unit :=
  client (Unsubscribe "#");;
  subscribe_one KEEPALIVE;;
  subscribe_one STATE;;
  subscribe_one EVENT;;
  subscribe_one RESPONSE.

Definition toggle_topic_mode (automatic : bool) : MM unit :=
  lift (modify (set_use_auto_topic automatic));;
  is_connected ← lift (gets connected);
  (if is_connected : bool then _subscribe_topics else mret tt);;
  announce (NoticeTopicMode automatic).

(** **** _on_connect, disconnect *)

Definition _on_connect (rc : Z) : MM unit :=
  if rc =? 0 then
    lift (modify (set_connected true));;
    _subscribe_topics;;
    device ← lift (gets device_code);
    announce (NoticeConnected device)
  else
    lift (modify (set_connected false));;
    announce (NoticeConnectFailed rc).

Definition disconnect : MM unit :=
  client LoopStop;;
  client ClientDisconnect;;
  lift (modify (set_connected false));;
  device ← lift (gets device_code);
  announce (NoticeDisconnected device).

(** **** _handle_heartbeat *)

Definition _handle_heartbeat (payload_str : string) : MM unit :=
  match strptime payload_str with
  | Some heartbeat_time =>
      assign (with_last_heartbeat_str (Some payload_str));;
      lift (modify (set_last_heartbeat (Some heartbeat_time)));;
      is_connected ← lift (gets connected);
      if negb is_connected then
        lift (modify (set_connected true));;
        device ← lift (gets device_code);
        announce (NoticeOnline device payload_str)
      else announce (NoticeHeartbeat payload_str)
  | None => announce (NoticeBadHeartbeat payload_str)
  end.

(** **** _handle_state_message *)

(** [setattr(self, state_mappings[function], data_body)] for a [function]
    among the keys of [state_mappings]. *)
Definition state_slot (function : string) : option (json -> manager -> manager) :=
  if String.eqb function "pcsInfo" then Some with_pcs_info
  else if String.eqb function "pcsState" then Some with_pcs_state
  else if String.eqb function "batInfo" then Some with_bat_info
  else if String.eqb function "batState" then Some with_bat_state
  else if String.eqb function "emState" then Some with_em_state
  else if String.eqb function "essState" then Some with_ess_state
  else None.

Definition _handle_state_message (payload : json) : MM unit :=
  header ← lift (dict_get payload "header" (JObj []));
  data_body ← lift (dict_get payload "dataBody" (JObj []));
  function ← lift (dict_get header "function" JNull);
  key ← lift (try_some TypeError (py_hash_key function));
  match key with
  | KStr name =>
      match state_slot name with
      | Some slot =>
          assign (slot data_body);;
          t ← lift now;
          lift (modify (set_last_heartbeat (Some t)));;
          assign (with_last_heartbeat_str (Some (strftime t)));;
          announce (NoticeStateUpdated function (strftime t))
      | None => mret tt
      end
  | _ => mret tt
  end.

(** **** _on_message *)

(** The first message type, in the order of the enumeration, whose value
    occurs in the topic. *)
Definition classify_auto (topic : string) : option MessageType :=
  find (fun mt => py_str_in (MessageType_value mt) topic)
    [KEEPALIVE; STATE; EVENT; CONFIRM; REQUEST; RESPONSE].

(** The first key of [manual_topics["subscribe"]] bound to the topic; the
    keys are visited in the order [__init__] inserted them. *)
Definition classify_manual (topics : gmap MessageType string) (topic : string)
    : option MessageType :=
  find (fun t => bool_decide (topics !! t = Some topic))
    (filter (fun t => is_Some (topics !! t))
       [KEEPALIVE; STATE; EVENT; RESPONSE; CONFIRM; REQUEST]).

Definition classify (s : state) (topic : string) : option MessageType :=
  if use_auto_topic s then classify_auto topic
  else classify_manual (manual_topics_subscribe s) topic.

Definition _on_message (msg : message) : MM unit :=
  mm_try_except (
    msg_type ← lift (gets (fun s => classify s (msg_topic msg)));
    match msg_type with
    | None => announce (NoticeUnknownTopic (msg_topic msg))
    | Some mt =>
        match decode_utf8 (msg_payload msg) with
        | None => announce (NoticeDecodeError UnicodeDecodeError)
        | Some text =>
            match mt with
            | KEEPALIVE => _handle_heartbeat (strip text)
            | _ =>
                match json_loads text with
                | None => announce (NoticeDecodeError JSONDecodeError)
                | Some json_payload =>
                    match mt with
                    | STATE => _handle_state_message json_payload
                    | EVENT => lift (_handle_event_message json_payload)
                    | RESPONSE => lift (_handle_response_message json_payload)
                    | _ => mret tt
                    end
                end
            end
        end
    end).

(** **** get_status_summary *)

Definition py_optional_str (o : option string) : json :=
  match o with
  | Some text => JStr text
  | None => JNull
  end.

Definition get_status_summary : MM json :=
  device ← lift (gets device_code);
  live ← lift check_connection_status;
  heartbeat ← attribute last_heartbeat_str;
  charge ← lift (gets charge_records);
  discharge ← lift (gets discharge_records);
  mret (JObj [("device_code", JStr device);
              ("connected", JBool live);
              ("last_heartbeat", py_optional_str heartbeat);
              ("charge_records_count", JInt (Z.of_nat (size charge)));
              ("discharge_records_count", JInt (Z.of_nat (size discharge)))]).

(** **** The command wrappers *)

Definition _generate_order_sn : MM string :=
  t ← lift now;
  mret (order_stamp t).

Definition history_entry (id type payload timestamp : string) : json :=
  JObj [("id", JStr id);
        ("type", JStr type);
        ("payload", JStr payload);
        ("timestamp", JStr timestamp);
        ("status", JStr "已发送")].

(** [self.command_history.append({"id": self.last_orderSn, ...})] *)
Definition record_history (type : string) (command_type : CommandType) : MM unit :=
  id ← attribute last_orderSn;
  t ← lift now;
  lift (modify (fun s => set_command_history
    (command_history s ++
       [history_entry id type (CommandType_value command_type) (strftime t)]) s)).

Definition send_charge_start : MM Z :=
  is_connected ← lift (gets connected);
  if negb is_connected then
    announce (NoticeCannotSend "充电开机");;
    mret (-1)
  else
    order_sn ← _generate_order_sn;
    assign (with_last_orderSn ("12345678" +:+ order_sn));;
    record_history "充电开机" POWER_CONTROL;;
    lift (send_command POWER_CONTROL
            (JObj [("orderSn", JStr order_sn); ("type", JInt 1)])).

Definition send_discharge_start : MM Z :=
  is_connected ← lift (gets connected);
  if negb is_connected then
    announce (NoticeCannotSend "放电开机");;
    mret (-1)
  else
    order_sn ← _generate_order_sn;
    assign (with_last_orderSn ("12345678" +:+ order_sn));;
    record_history "放电开机" POWER_CONTROL;;
    lift (send_command POWER_CONTROL
            (JObj [("orderSn", JStr order_sn); ("type", JInt 2)])).

Definition send_shutdown_command : MM Z :=
  is_connected ← lift (gets connected);
  if negb is_connected then
    announce (NoticeCannotSend "停机");;
    mret (-1)
  else
    record_history "停机" POWER_CONTROL;;
    order_sn ← _generate_order_sn;
    kept ← attribute last_orderSn;
    lift (send_command POWER_CONTROL
            (JObj [("orderSn", JStr kept); ("type", JInt 3)])).

Definition soc_params (deviceCode deviceType param operType paramValue : json) : json :=
  JObj [("deviceCode", deviceCode);
        ("deviceType", deviceType);
        ("param", param);
        ("operType", operType);
        ("paramValue", paramValue)].

Definition send_chgSocSet (deviceCode deviceType param operType paramValue : json) : MM Z :=
  is_connected ← lift (gets connected);
  if negb is_connected then
    announce (NoticeCannotSend "充电功率调节");;
    mret (-1)
  else
    record_history "充电SOC设定" CHARGE_SOC_SET;;
    lift (send_command CHARGE_SOC_SET
            (soc_params deviceCode deviceType param operType paramValue)).

Definition send_dischgSocSet (deviceCode deviceType param operType paramValue : json) : MM Z :=
  is_connected ← lift (gets connected);
  if negb is_connected then
    announce (NoticeCannotSend "充电功率调节");;
    mret (-1)
  else
    record_history "放电SOC设定" DISCHARGE_SOC_SET;;
    lift (send_command DISCHARGE_SOC_SET
            (soc_params deviceCode deviceType param operType paramValue)).

Definition adjust_params (ctrl_value pcs_no ctrl_type ctrl_param effect : json) : json :=
  JObj [("pcsNo", pcs_no);
        ("ctrlType", ctrl_type);
        ("ctrlParam", ctrl_param);
        ("effect", effect);
        ("ctrlValue", ctrl_value)].

Definition send_charge_power_adjust (ctrl_value pcs_no ctrl_type ctrl_param effect : json) : MM Z :=
  is_connected ← lift (gets connected);
  if negb is_connected then
    announce (NoticeCannotSend "充电功率调节");;
    mret (-1)
  else
    record_history "充电功率调节" CHARGE_POWER_ADJUST;;
    order_sn ← _generate_order_sn;
    lift (send_command CHARGE_POWER_ADJUST
            (adjust_params ctrl_value pcs_no ctrl_type ctrl_param effect)).

Definition send_discharge_power_adjust (ctrl_value pcs_no ctrl_type ctrl_param effect : json) : MM Z :=
  is_connected ← lift (gets connected);
  if negb is_connected then
    announce (NoticeCannotSend "放电功率调节");;
    mret (-1)
  else
    record_history "放电功率调节" DISCHARGE_POWER_ADJUST;;
    order_sn ← _generate_order_sn;
    lift (send_command DISCHARGE_POWER_ADJUST
            (adjust_params ctrl_value pcs_no ctrl_type ctrl_param effect)).

End Library.

(** **** ESSFrontend._get_pcs_status (Grid_Front.py) *)

(** [state_map.get(state)], the dict having the keys 2, 3, 4 and 6. *)
Definition state_map (state : pykey) : option string :=
  match state with
  | KInt z =>
      if z =? 2 then Some "待机"
      else if z =? 3 then Some "充电运行"
      else if z =? 4 then Some "放电运行"
      else if z =? 6 then Some "故障"
      else None
  | _ => None
  end.

(** [state = entry.get("state", -1); return state_map.get(state, "未知")] *)
Definition pcs_status_of (entry : json) : MM string :=
  state ← lift (dict_get entry "state" (JInt (-1)));
  key ← lift (try_some TypeError (py_hash_key state));
  mret (default "未知" (state_map key)).

(** The frontend reads [self.cloud_manager.pcs_state]. *)
Definition _get_pcs_status : MM string :=
  shown ← attribute pcs_state;
  if negb (py_truthy shown) then mret "未知"
  else
    match shown with
    | JArr (first :: _) => pcs_status_of first
    | JObj _ => pcs_status_of shown
    | _ => mret "未知"
    end.

(** *** Views of the session used in the statements *)

(** The topic [_get_topic] resolves for an outbound message type. *)
Definition publish_topic (message_type : MessageType) (s : state) : string :=
  if use_auto_topic s then
    product_code s +:+ "/" +:+ device_code s +:+ "/" +:+ "M2S" +:+ "/"
    +:+ MessageType_value message_type
  else
    default ("default/" +:+ MessageType_value message_type)
            (manual_topics_publish s !! message_type).

(** The attributes that determine the topics to publish on. *)
Definition topic_config (s : state) : string * string * bool * gmap MessageType string :=
  (product_code s, device_code s, use_auto_topic s, manual_topics_publish s).

(** The record [_process_charge_record] builds from the items [b] of an
    event body, and the one [_process_discharge_record] builds. *)
Definition charge_record_of (b : list (string * json)) (created_at : string) : json :=
  charge_record (field b "orderSn" JNull) (field b "startTime" JNull)
    (field b "stopTime" JNull) (field b "electAmount" (JInt 0))
    (field b "totalMoney" (JInt 0)) (field b "startSoc" (JInt 0))
    (field b "stopSoc" (JInt 0)) (field b "chgTime" (JInt 0))
    (field b "rateModelID" (JInt 0)) created_at.

Definition discharge_record_of (b : list (string * json)) (created_at : string) : json :=
  discharge_record (field b "orderSn" JNull) (field b "startTime" JNull)
    (field b "stopTime" JNull) (field b "electAmount" JNull)
    (field b "totalMoney" (JInt 0)) (field b "startSoc" (JInt 0))
    (field b "stopSoc" (JInt 0)) (field b "chgTime" (JInt 0))
    (field b "rateModelID" (JInt 0)) created_at.

(** [if key not in sns: sns.append(key)] *)
Definition index_append (key : pykey) (sns : list pykey) : list pykey :=
  if bool_decide (key ∈ sns) then sns else sns ++ [key].

(** [logs.append(event)] followed by [if len(logs) > 1000: logs.pop(0)] *)
Definition ledger_push (event : json) (logs : list json) : list json :=
  if (1000 <? length (logs ++ [event]))%nat then tail (logs ++ [event])
  else logs ++ [event].

(** The entry an inbound event payload gets in the ledger when its receipt
    time prints as [realtime]; [None] when the handler raises before it
    reaches the ledger. *)
Definition event_of (payload : json) (realtime : string) : option json :=
  header ← py_dict_get payload "header" (JObj []);
  data_body ← py_dict_get payload "dataBody" (JObj []);
  function ← py_dict_get header "function" JNull;
  timestamp ← py_dict_get header "timeStamp" JNull;
  Some (event_record timestamp realtime function header data_body).

(** A payload whose header is an object: the handler gets as far as the
    ledger exactly on these. *)
Definition is_envelope (payload : json) : bool :=
  match py_dict_get payload "header" (JObj []) with
  | Some (JObj _) => true
  | _ => false
  end.

(** [event] is the ledger entry of [payload] for some receipt time. *)
Definition logged (payload event : json) : Prop :=
  exists realtime, event_of payload realtime = Some event.

(** The items of the body of an event payload. *)
Definition body_items (payload : json) : list (string * json) :=
  match py_dict_get payload "dataBody" (JObj []) with
  | Some (JObj b) => b
  | _ => []
  end.

(** An event envelope with function [name] and an object body that carries a
    present order identifier hashing to [key]. *)
Definition carries (name : string) (key : pykey) (payload : json) : bool :=
  match py_dict_get payload "header" (JObj []),
        py_dict_get payload "dataBody" (JObj []) with
  | Some (JObj h), Some (JObj b) =>
      py_eq_str (field h "function" JNull) name
      && py_truthy (field b "orderSn" JNull)
      && bool_decide (py_hash_key (field b "orderSn" JNull) = Some key)
  | _, _ => false
  end.

(** The number of times [key] occurs in an index list. *)
Definition occurrences (key : pykey) (sns : list pykey) : nat :=
  length (filter (fun k => k = key) sns).

(** The index lists hold no identifier twice and only identifiers of stored
    records. *)
Definition index_consistent (s : state) : Prop :=
  (NoDup (charge_order_sns s) /\
   forall k, k ∈ charge_order_sns s -> is_Some (charge_records s !! k)) /\
  (NoDup (discharge_order_sns s) /\
   forall k, k ∈ discharge_order_sns s -> is_Some (discharge_records s !! k)).

(** An event whose record extraction runs to its end when the running total
    is [total]: it is no charge or discharge record, or it has no order
    identifier, or its order identifier is hashable and its cost a number
    that can be added to the total. *)
Definition record_ingestible (total : pynum) (function : json)
    (b : list (string * json)) : bool :=
  if py_eq_str function "chargeRecord" || py_eq_str function "dischargeRecord" then
    if py_truthy (field b "orderSn" JNull) then
      match py_hash_key (field b "orderSn" JNull),
            py_number (field b "totalMoney" (JInt 0)) with
      | Some _, Some amount => bool_decide (is_Some (py_add total amount))
      | _, _ => false
      end
    else true
  else true.

(** The branch of [_handle_event_message] that extracts a record. *)
Definition record_step (function payload : json) : M unit :=
  if py_eq_str function "chargeRecord" then _process_charge_record payload
  else if py_eq_str function "dischargeRecord" then _process_discharge_record payload
  else ret tt.

(** The statements of [_handle_event_message] that follow the ledger. *)
Definition after_ledger (payload header data_body function : json) : M unit :=
  record_step function payload;;
  index ← dict_get header "index" JNull;
  order_sn ← dict_get data_body "orderSn" JNull;
  _send_confirm index order_sn function;;
  t' ← now;
  modify (set_last_heartbeat (Some t')).

(** No pending command is stored under an index beyond the counter. *)
Definition pending_bounded (s : state) : Prop :=
  forall z, is_Some (pending_commands s !! z) -> z <= message_index s.

(** The cost that an inbound event payload brings to the running total:
    that of a charge or discharge record with a present, hashable order
    identifier and a numeric cost; [None] for every other payload. *)
Definition event_cost (payload : json) : option pynum :=
  match py_dict_get payload "header" (JObj []),
        py_dict_get payload "dataBody" (JObj []) with
  | Some (JObj h), Some (JObj b) =>
      if py_eq_str (field h "function" JNull) "chargeRecord"
         || py_eq_str (field h "function" JNull) "dischargeRecord" then
        if py_truthy (field b "orderSn" JNull) then
          match py_hash_key (field b "orderSn" JNull) with
          | Some _ => py_number (field b "totalMoney" (JInt 0))
          | None => None
          end
        else None
      else None
  | _, _ => None
  end.

(** The running total after an event: Python's sum of the total and the
    cost, and the total as it was when there is no cost or the sum
    overflows. *)
Definition add_cost (total : pynum) (payload : json) : pynum :=
  match event_cost payload with
  | Some amount => default total (py_add total amount)
  | None => total
  end.

(** The cost of an event when it is an [int], and 0 otherwise. *)
Definition int_cost (payload : json) : Z :=
  match event_cost payload with
  | Some (PInt cost) => cost
  | _ => 0
  end.

(** The record tables hold exactly the indexed identifiers. *)
Definition index_exact (s : state) : Prop :=
  dom (charge_records s) = list_to_set (charge_order_sns s) /\
  dom (discharge_records s) = list_to_set (discharge_order_sns s).

(** A computation that, when it returns, has set the time of the last
    message to the last clock reading taken, and that leaves it alone when it
    raises. *)
Definition refreshes {A : Type} (m : M A) : Prop :=
  forall s,
    match m s with
    | (Val _, s') => last_heartbeat s' = Some (clock (pred (ticks s')))
    | (Raise _, s') => last_heartbeat s' = last_heartbeat s
    end.

(** The attributes that inbound traffic never assigns: the connectivity flag,
    the message counter, the command history, the timeout, and the whole
    topic configuration (the two codes, the topic mode and both tables of
    manual topics). *)
Definition command_side (s : state) :
    bool * Z * list json * Z * string * string * bool
    * gmap MessageType string * gmap MessageType string :=
  (connected s, message_index s, command_history s, connection_timeout s,
   product_code s, device_code s, use_auto_topic s,
   manual_topics_subscribe s, manual_topics_publish s).

(** The attributes that a response never assigns. *)
Definition event_side (s : state) :
    list json * gmap pykey json * gmap pykey json * list pykey * list pykey
    * pynum * list (string * json) * option Z * nat :=
  (event_logs s, charge_records s, discharge_records s, charge_order_sns s,
   discharge_order_sns s, total_money s, published s, last_heartbeat s, ticks s).

(** The topic that [_get_topic] returns for the direction "subscribe". *)
Definition subscribe_topic (message_type : MessageType) (s : state) : string :=
  if use_auto_topic s then
    product_code s +:+ "/" +:+ device_code s +:+ "/" +:+ "S2M" +:+ "/"
    +:+ MessageType_value message_type
  else
    default ("default/" +:+ MessageType_value message_type)
            (manual_topics_subscribe s !! message_type).

(** The product code or the device code contains the value of a message type. *)
Definition codes_mention (message_type : MessageType) (s : state) : bool :=
  py_str_in (MessageType_value message_type) (product_code s)
  || py_str_in (MessageType_value message_type) (device_code s).

(** The place of a message type in the enumeration, which is the order in
    which [for mt in MessageType] visits it. *)
Definition MessageType_position (message_type : MessageType) : nat :=
  match message_type with
  | KEEPALIVE => 0
  | STATE => 1
  | EVENT => 2
  | CONFIRM => 3
  | REQUEST => 4
  | RESPONSE => 5
  end%nat.

(** [getattr(self, state_mappings[function])] for a [function] among the keys
    of [state_mappings]. *)
Definition snapshot (function : string) (x : manager) : option json :=
  if String.eqb function "pcsInfo" then Some (pcs_info x)
  else if String.eqb function "pcsState" then Some (pcs_state x)
  else if String.eqb function "batInfo" then Some (bat_info x)
  else if String.eqb function "batState" then Some (bat_state x)
  else if String.eqb function "emState" then Some (em_state x)
  else if String.eqb function "essState" then Some (ess_state x)
  else None.

(** The attributes that no inbound message assigns. *)
Definition settings (x : manager) :
    string * string * bool * gmap MessageType string * gmap MessageType string
    * Z * Z * list json * string * list client_call :=
  (product_code (core x), device_code (core x), use_auto_topic (core x),
   manual_topics_subscribe (core x), manual_topics_publish (core x),
   connection_timeout (core x), message_index (core x),
   command_history (core x), last_orderSn x, client_calls x).

(** The attributes of the session that the event and response handlers
    assign, with the outbox and the console. *)
Definition traffic (s : state) :
    list json * gmap pykey json * gmap pykey json * list pykey * list pykey
    * pynum * gmap Z pending_command * list (string * json) * list log_line :=
  (event_logs s, charge_records s, discharge_records s, charge_order_sns s,
   discharge_order_sns s, total_money s, pending_commands s, published s,
   console s).

(** The subscriptions that get through to the client, and how the loop over
    [topics] ends, when the client raises [e] on the topics with
    [rejects topic = Some e]: the loop stops at the first topic the client
    rejects, with its exception. *)
Fixpoint subscribe_each (rejects : string -> option exn) (topics : list string)
    : list client_call * outcome unit :=
  match topics with
  | [] => ([], Val tt)
  | topic :: rest =>
      match rejects topic with
      | Some e => ([], Raise e)
      | None =>
          (Subscribe topic :: (subscribe_each rejects rest).1,
           (subscribe_each rejects rest).2)
      end
  end.

(** The calls that [_subscribe_topics] gets through to the client in session
    [s], and how it ends: the topics are subscribed in the order keepalive,
    state, event, response. *)
Definition subscriptions_until (rejects : string -> option exn) (s : state)
    : list client_call * outcome unit :=
  let topics := [subscribe_topic KEEPALIVE s; subscribe_topic STATE s;
                 subscribe_topic EVENT s; subscribe_topic RESPONSE s] in
  (Unsubscribe "#" :: (subscribe_each rejects topics).1,
   (subscribe_each rejects topics).2).

(** What one command wrapper leaves behind on a connected session: the call
    on [x] gave the outcome [r] and the object [x'], having taken the next
    message index, registered the command as pending under it at the time
    [issued], and appended one history entry, stamped [recorded], under the
    kept order number.  The request, stamped [sent], carries the index, the
    protocol version, the function of the command type and the given body;
    when the client accepts it, it is published on the request topic and the
    index is returned, and when the client raises, the call raises the same
    and nothing is published. *)
Definition command_issued (label : string) (command_type : CommandType)
    (params : json) (recorded sent : string) (issued : Z)
    (x : manager) (r : outcome Z) (x' : manager) : Prop :=
  let index := message_index (core x) + 1 in
  let topic := publish_topic REQUEST (core x) in
  let request :=
    JObj [("header", JObj [("index", JInt index);
                           ("version", JStr "1.0");
                           ("function", JStr (CommandType_value command_type));
                           ("timestamp", JStr sent)]);
          ("dataBody", params)] in
  message_index (core x') = index /\
  pending_commands (core x')
  = <[index := {| pc_type := command_type; pc_params := params;
                  pc_timestamp := issued; pc_status := "pending";
                  pc_response := JNull |}]> (pending_commands (core x)) /\
  command_history (core x')
  = command_history (core x)
    ++ [JObj [("id", JStr (last_orderSn x'));
              ("type", JStr label);
              ("payload", JStr (CommandType_value command_type));
              ("timestamp", JStr recorded);
              ("status", JStr "已发送")]] /\
  connected (core x') = true /\
  client_calls x' = client_calls x /\
  match publish_error topic request with
  | None =>
      r = Val index /\
      published (core x') = published (core x) ++ [(topic, request)]
  | Some e =>
      r = Raise e /\
      published (core x') = published (core x)
  end.

(** A computation leaves the view [f] of the session as it found it,
    whether it returns or raises. *)
Definition preserves {A B : Type} (f : state -> B) (m : M A) : Prop :=
  forall s, f (exec m s) = f s.

(** ** Reasoning about computations *)

(** The Python primitives compute once the shape of their argument is known. *)
Arguments py_dict_get !_ _ _ /.
Arguments py_truthy !_ /.
Arguments py_eq_str !_ _ /.
Arguments py_is_none !_ /.
Arguments py_number !_ /.
Arguments py_hash_key !_ /.
Arguments key_as_int !_ /.

(** The methods are unfolded by name, where a proof follows their text. *)
Arguments _get_topic : simpl never.
Arguments _send_confirm : simpl never.
Arguments _process_charge_record : simpl never.
Arguments _process_discharge_record : simpl never.
Arguments _handle_event_message : simpl never.
Arguments _handle_response_message : simpl never.
Arguments record_step : simpl never.
Arguments after_ledger : simpl never.

Ltac mred :=
  repeat (progress (unfold mbind, M_bind, bind, gets, modify, ret, raise,
                    try_some, dict_get, dict_item, print, publish, now);
          cbn -[Nat.ltb]).

Lemma bind_val {A B : Type} (m : M A) (k : A -> M B) s a s' :
  m s = (Val a, s') -> (m ≫= k) s = k a s'.
Proof. intros H. unfold mbind, M_bind, bind. by rewrite H. Qed.

Lemma bind_raise {A B : Type} (m : M A) (k : A -> M B) s e s' :
  m s = (Raise e, s') -> (m ≫= k) s = (Raise e, s').
Proof. intros H. unfold mbind, M_bind, bind. by rewrite H. Qed.

Lemma bind_frame {A B C : Type} (f : state -> C) (m : M A) (k : A -> M B) s :
  (forall a, preserves f (k a)) -> f (exec (m ≫= k) s) = f (exec m s).
Proof.
  intros Hk. unfold exec, mbind, M_bind, bind.
  destruct (m s) as [[a|e] s']; cbn; [apply Hk | done].
Qed.

Section Frame.
Context {B : Type} (f : state -> B).

Lemma preserves_ret {A : Type} (a : A) : preserves f (ret a).
Proof. by intros s. Qed.

Lemma preserves_raise {A : Type} (e : exn) : preserves f (@raise A e).
Proof. by intros s. Qed.

Lemma preserves_gets {A : Type} (g : state -> A) : preserves f (gets g).
Proof. by intros s. Qed.

Lemma preserves_try_some {A : Type} (e : exn) (o : option A) :
  preserves f (try_some e o).
Proof. by destruct o; intros s. Qed.

Lemma preserves_dict_get d k v : preserves f (dict_get d k v).
Proof. apply preserves_try_some. Qed.

Lemma preserves_dict_item d k : preserves f (dict_item d k).
Proof. destruct d; try apply preserves_raise. apply preserves_try_some. Qed.

Lemma preserves_modify (g : state -> state) :
  (forall s, f (g s) = f s) -> preserves f (modify g).
Proof. intros H s. apply H. Qed.

Lemma preserves_bind {A C : Type} (m : M A) (k : A -> M C) :
  preserves f m -> (forall a, preserves f (k a)) -> preserves f (m ≫= k).
Proof. intros Hm Hk s. rewrite bind_frame by done. apply Hm. Qed.

Lemma try_except_frame (m : M unit) s :
  (forall l s, f (set_console l s) = f s) ->
  f (exec (try_except m) s) = f (exec m s).
Proof.
  intros Hc. unfold exec, try_except.
  destruct (m s) as [[a|e] s']; cbn; [done | apply Hc].
Qed.

Lemma preserves_try_except (m : M unit) :
  preserves f m ->
  (forall l s, f (set_console l s) = f s) ->
  preserves f (try_except m).
Proof. intros Hm Hc s. by rewrite try_except_frame. Qed.
End Frame.

(** [frame] proves [preserves f m] by following the structure of [m];
    [frame_with tac] uses [tac] on the calls it does not know. *)
Ltac frame_with tac :=
  repeat first
    [ apply preserves_ret
    | apply preserves_raise
    | apply preserves_gets
    | apply preserves_try_some
    | apply preserves_dict_get
    | apply preserves_dict_item
    | apply preserves_modify; intros ?; reflexivity
    | apply preserves_bind; [|intros ?]
    | progress tac
    | match goal with
      | |- preserves _ (if ?b then _ else _) => destruct b
      | |- preserves _ (match ?o with _ => _ end) => destruct o
      end ].

Ltac frame := frame_with idtac.

Lemma preserves_print {B : Type} (f : state -> B) l :
  (forall c s, f (set_console c s) = f s) -> preserves f (print l).
Proof. intros H s. apply H. Qed.

Lemma preserves_publish {B : Type} (f : state -> B) topic payload :
  (forall p s, f (set_published p s) = f s) -> preserves f (publish topic payload).
Proof.
  intros H s. unfold exec, publish.
  destruct (publish_error topic payload); [done | apply H].
Qed.

Lemma preserves_now {B : Type} (f : state -> B) :
  (forall n s, f (set_ticks n s) = f s) -> preserves f now.
Proof. intros H s. apply H. Qed.

Ltac frame_io :=
  first [ apply preserves_print; intros ? ?; reflexivity
        | apply preserves_publish; intros ? ?; reflexivity
        | apply preserves_now; intros ? ?; reflexivity ].

(** *** _get_topic *)

Lemma _get_topic_publish message_type s :
  _get_topic message_type "publish" s = (Val (publish_topic message_type s), s).
Proof.
  unfold _get_topic, publish_topic. mred. by destruct (use_auto_topic s).
Qed.

Lemma preserves__get_topic {B : Type} (f : state -> B) message_type direction :
  preserves f (_get_topic message_type direction).
Proof.
  unfold _get_topic. frame.
Qed.

Lemma publish_topic_config message_type s s' :
  topic_config s' = topic_config s ->
  publish_topic message_type s' = publish_topic message_type s.
Proof.
  unfold topic_config, publish_topic. intros [= -> -> -> ->]. done.
Qed.

(** *** check_connection_status *)

(** C5. The liveness query answers false whenever the connectivity flag is
    false, whatever the time; true when the flag is true and no message has
    been seen yet; and otherwise false exactly when the time elapsed since
    the last message, read when the query runs, exceeds the configured
    timeout (true when it is at or below the timeout). *)
Theorem check_connection_status_spec (s : state) :
  (connected s = false -> result check_connection_status s = Val false) /\
  (connected s = true -> last_heartbeat s = None ->
     result check_connection_status s = Val true) /\
  (forall seen, connected s = true -> last_heartbeat s = Some seen ->
     let elapsed := clock (ticks s) - seen in
     (connection_timeout s * 1000000 < elapsed ->
        result check_connection_status s = Val false) /\
     (elapsed <= connection_timeout s * 1000000 ->
        result check_connection_status s = Val true)).
Proof.
  unfold result, check_connection_status. mred.
  split; [|split].
  - intros ->. reflexivity.
  - intros -> Hlast. cbn. by rewrite Hlast.
  - intros seen -> Hlast. cbn. rewrite Hlast. cbn.
    unfold total_seconds_le.
    split; intros Hcmp; f_equal; [by apply Z.leb_gt | by apply Z.leb_le].
Qed.

(** *** send_command *)

(** C6. Issuing any command with any parameters while the connectivity flag
    is false returns -1, leaves the pending-commands table and the outbox as
    they were, and changes nothing else in the session: the only effect is
    the line printed on the console. *)
Theorem send_command_disconnected (command_type : CommandType) (params : json) (s : state) :
  connected s = false ->
  result (send_command command_type params) s = Val (-1) /\
  pending_commands (exec (send_command command_type params) s) = pending_commands s /\
  published (exec (send_command command_type params) s) = published s /\
  exec (send_command command_type params) s
    = set_console (console s ++ [LogNotConnected]) s.
Proof.
  intros Hoff. unfold result, exec, send_command. mred. rewrite Hoff. cbn. done.
Qed.

(** *** send_rate_model_set *)

Lemma rate_segments_invalid_false (rate_list rate_details_list : list json) :
  rate_segments_invalid rate_list rate_details_list = false <->
  length rate_list = length rate_details_list /\
  (1 <= length rate_list <= 12)%nat.
Proof.
  unfold rate_segments_invalid.
  rewrite orb_false_iff, !negb_false_iff, andb_true_iff.
  rewrite Nat.eqb_eq, !Nat.leb_le. tauto.
Qed.

Lemma send_rate_model_set_accepted rate_model_id effect effect_date
    rate_list rate_details_list function_id s :
  connected s = true ->
  rate_segments_invalid rate_list rate_details_list = false ->
  send_rate_model_set rate_model_id effect effect_date rate_list
      rate_details_list function_id s
  = let payload := rate_model_payload (strftime (clock (ticks s))) (message_index s)
                     function_id rate_model_id effect effect_date rate_list
                     rate_details_list in
    let recorded :=
      set_command_history
        (command_history s ++
           [JObj [("id", JInt (message_index s + 1));
                  ("type", JStr "费率模型设置");
                  ("payload", payload);
                  ("timestamp", JStr (strftime (clock (S (ticks s)))));
                  ("status", JStr "已发送")]])
        (set_ticks (S (S (ticks s)))
           (set_message_index (message_index s + 1) s)) in
    match publish_error (publish_topic REQUEST s) payload with
    | None =>
        (Val (message_index s + 1),
         set_console (console s ++ [LogRateSent (length rate_list) function_id
                                      (message_index s + 1)])
           (set_published (published s ++ [(publish_topic REQUEST s, payload)])
              recorded))
    | Some e => (Raise e, recorded)
    end.
Proof.
  intros Hon Hok. unfold send_rate_model_set. mred.
  rewrite Hon. cbn. rewrite Hok. cbn.
  rewrite _get_topic_publish. cbn.
  by destruct (publish_error _ _).
Qed.

(** C7. A rate-model request whose two lists differ in length, or whose rate
    list has fewer than 1 or more than 12 entries, returns -1 with nothing
    published and nothing changed but the console; a request with equal
    lengths within 1..12 passes this check: on a connected session the call
    goes on to take the next message index and to enter the request in the
    command history, and the request, which carries the two lists, is then
    published as exactly one message, unless the client raises on it, in
    which case the call raises the same and nothing is published. *)
Theorem send_rate_model_set_validation rate_model_id effect effect_date
    (rate_list rate_details_list : list json) function_id (s : state) :
  let call := send_rate_model_set rate_model_id effect effect_date rate_list
                rate_details_list function_id in
  (length rate_list <> length rate_details_list \/
   ~ (1 <= length rate_list <= 12)%nat ->
     result call s = Val (-1) /\
     published (exec call s) = published s /\
     exists line, exec call s = set_console (console s ++ [line]) s) /\
  (length rate_list = length rate_details_list ->
   (1 <= length rate_list <= 12)%nat ->
   connected s = true ->
     message_index (exec call s) = message_index s + 1 /\
     (exists entry, command_history (exec call s) = command_history s ++ [entry]) /\
     exists payload body,
       py_dict_get payload "dataBody" (JObj []) = Some body /\
       py_dict_get body "rateList" JNull = Some (JArr rate_list) /\
       py_dict_get body "rateDetailsList" JNull = Some (JArr rate_details_list) /\
       match publish_error (publish_topic REQUEST s) payload with
       | None =>
           result call s = Val (message_index s + 1) /\
           published (exec call s)
           = published s ++ [(publish_topic REQUEST s, payload)]
       | Some e =>
           result call s = Raise e /\
           published (exec call s) = published s
       end).
Proof.
  clear isoformat. intros call. split.
  - intros Hbad.
    assert (rate_segments_invalid rate_list rate_details_list = true) as Hinv.
    { apply not_false_iff_true. rewrite rate_segments_invalid_false. tauto. }
    unfold call, result, exec, send_rate_model_set. mred.
    destruct (connected s); cbn; [rewrite Hinv; cbn|]; eauto.
  - intros Hlen Hrange Hon.
    assert (rate_segments_invalid rate_list rate_details_list = false) as Hok.
    { by apply rate_segments_invalid_false. }
    unfold call, result, exec.
    rewrite send_rate_model_set_accepted by done. cbv zeta.
    set (payload := rate_model_payload _ _ _ _ _ _ _ _).
    assert (exists body,
              py_dict_get payload "dataBody" (JObj []) = Some body /\
              py_dict_get body "rateList" JNull = Some (JArr rate_list) /\
              py_dict_get body "rateDetailsList" JNull
              = Some (JArr rate_details_list)) as (body & Hb & Hr & Hd)
      by (eexists; by repeat split).
    destruct (publish_error (publish_topic REQUEST s) payload) as [e|] eqn:Hpub;
      cbn; (split; [done|]); (split; [by eexists|]);
      exists payload, body; rewrite Hpub; by repeat split.
Qed.

(** *** _handle_response_message *)

Lemma alter_alter_insert (f g : pending_command -> pending_command) z cmd
    (m : gmap Z pending_command) :
  m !! z = Some cmd -> alter g z (alter f z m) = <[z := g (f cmd)]> m.
Proof.
  intros Hz. apply map_eq. intros i.
  destruct (decide (z = i)) as [->|Hne].
  - by rewrite !lookup_alter_eq, lookup_insert_eq, Hz.
  - by rewrite !lookup_alter_ne, lookup_insert_ne.
Qed.

Lemma _handle_response_message_matched payload header msg_index key z cmd s :
  py_dict_get payload "header" (JObj []) = Some header ->
  py_dict_get header "index" JNull = Some msg_index ->
  py_hash_key msg_index = Some key ->
  key_as_int key = Some z ->
  pending_commands s !! z = Some cmd ->
  pending_commands (exec (_handle_response_message payload) s)
    = <[z := respond payload (complete cmd)]> (pending_commands s).
Proof.
  intros Hheader Hindex Hkey Hz Hcmd.
  destruct payload as [| | | | |kvs|]; simplify_eq/=.
  unfold exec, _handle_response_message. mred.
  rewrite Hindex. cbn. rewrite Hkey. cbn. rewrite Hz. cbn. rewrite Hcmd. cbn.
  destruct (field kvs "dataBody" (JObj [])); cbn;
    by apply alter_alter_insert.
Qed.

Lemma _handle_response_message_unmatched payload header msg_index key s :
  py_dict_get payload "header" (JObj []) = Some header ->
  py_dict_get header "index" JNull = Some msg_index ->
  py_hash_key msg_index = Some key ->
  (forall z, key_as_int key = Some z -> pending_commands s !! z = None) ->
  _handle_response_message payload s
    = (Val tt, set_console (console s ++ [LogUnknownResponse msg_index]) s).
Proof.
  intros Hheader Hindex Hkey Hnone.
  destruct payload as [| | | | |kvs|]; simplify_eq/=.
  unfold _handle_response_message. mred.
  rewrite Hindex. cbn. rewrite Hkey. cbn.
  destruct (key_as_int key) as [z|]; cbn; [|done].
  by rewrite (Hnone z).
Qed.

Lemma _handle_response_message_unhashable payload header msg_index s :
  py_dict_get payload "header" (JObj []) = Some header ->
  py_dict_get header "index" JNull = Some msg_index ->
  py_hash_key msg_index = None ->
  _handle_response_message payload s = (Raise TypeError, s).
Proof.
  intros Hheader Hindex Hkey.
  destruct payload as [| | | | |kvs|]; simplify_eq/=.
  unfold _handle_response_message. mred.
  rewrite Hindex. cbn. by rewrite Hkey.
Qed.

Lemma preserves_dom__handle_response_message payload :
  preserves (fun s => dom (pending_commands s)) (_handle_response_message payload).
Proof.
  unfold _handle_response_message.
  frame_with ltac:(first
    [ frame_io
    | apply preserves_modify; intros ?; cbn; apply dom_alter_L ]).
Qed.

Lemma deliver_responses_dom payloads s :
  dom (pending_commands (deliver_responses payloads s)) = dom (pending_commands s).
Proof.
  revert s. induction payloads as [|p ps IH]; intros s; [done|].
  unfold deliver_responses in *. cbn [foldl]. rewrite IH.
  unfold _on_message_response.
  apply (preserves_try_except (fun s => dom (pending_commands s))); [|done].
  apply preserves_dom__handle_response_message.
Qed.


(** C10, amended.  A rate-model request that passes the checks takes the
    next value of the session counter and leaves the pending-commands table
    untouched: whatever responses arrive afterwards, the table still has
    exactly the entries it had before the call, so none exists for this
    command that a response could complete.  The request carries as header
    index the value the counter had before the call.  When the client accepts
    it, it is published as exactly one message and the call returns the
    counter plus one; when the client raises on it, the call raises the same,
    after the increment, and nothing is published. *)
Theorem send_rate_model_set_index rate_model_id effect effect_date
    (rate_list rate_details_list : list json) function_id (s : state) :
  connected s = true ->
  length rate_list = length rate_details_list ->
  (1 <= length rate_list <= 12)%nat ->
  let call := send_rate_model_set rate_model_id effect effect_date rate_list
                rate_details_list function_id in
  message_index (exec call s) = message_index s + 1 /\
  pending_commands (exec call s) = pending_commands s /\
  (forall responses,
     dom (pending_commands (deliver_responses responses (exec call s)))
     = dom (pending_commands s)) /\
  exists payload header,
    py_dict_get payload "header" (JObj []) = Some header /\
    py_dict_get header "index" JNull = Some (JInt (message_index s)) /\
    py_dict_get header "function" JNull = Some (JStr function_id) /\
    match publish_error (publish_topic REQUEST s) payload with
    | None =>
        result call s = Val (message_index s + 1) /\
        published (exec call s)
        = published s ++ [(publish_topic REQUEST s, payload)]
    | Some e =>
        result call s = Raise e /\
        published (exec call s) = published s
    end.
Proof.
  intros Hon Hlen Hrange call.
  assert (rate_segments_invalid rate_list rate_details_list = false) as Hok.
  { by apply rate_segments_invalid_false. }
  unfold call, result, exec.
  rewrite send_rate_model_set_accepted by done. cbv zeta.
  set (payload := rate_model_payload _ _ _ _ _ _ _ _).
  assert (exists header,
            py_dict_get payload "header" (JObj []) = Some header /\
            py_dict_get header "index" JNull = Some (JInt (message_index s)) /\
            py_dict_get header "function" JNull = Some (JStr function_id))
    as (header & Hh & Hi & Hf) by (eexists; by repeat split).
  destruct (publish_error (publish_topic REQUEST s) payload) as [e|] eqn:Hpub;
    cbn; (split; [done|]); (split; [done|]);
    (split; [intros responses; by rewrite deliver_responses_dom|]);
    exists payload, header; rewrite Hpub; by repeat split.
Qed.

(** *** _send_confirm *)

Lemma _send_confirm_none index order_sn function s :
  py_is_none index = true -> _send_confirm index order_sn function s = (Val tt, s).
Proof. intros H. unfold _send_confirm. by rewrite H. Qed.

Lemma _send_confirm_present index order_sn function s :
  py_is_none index = false ->
  _send_confirm index order_sn function s
  = let payload := confirm_payload index order_sn (confirm_function function)
                     (strftime (clock (ticks s))) in
    match publish_error (publish_topic CONFIRM s) payload with
    | None =>
        (Val tt,
         set_console (console s ++ [LogConfirmSent (publish_topic CONFIRM s) payload])
           (set_published (published s ++ [(publish_topic CONFIRM s, payload)])
              (set_ticks (S (ticks s)) s)))
    | Some e => (Raise e, set_ticks (S (ticks s)) s)
    end.
Proof.
  intros H. unfold _send_confirm. rewrite H. mred.
  rewrite _get_topic_publish. cbn.
  change (publish_topic CONFIRM (set_ticks (S (ticks s)) s))
    with (publish_topic CONFIRM s).
  by destruct (publish_error _ _).
Qed.

Lemma preserves__send_confirm {B : Type} (f : state -> B) index order_sn function :
  (forall v s, f (set_ticks v s) = f s) ->
  (forall v s, f (set_published v s) = f s) ->
  (forall v s, f (set_console v s) = f s) ->
  preserves f (_send_confirm index order_sn function).
Proof.
  intros Ht Hp Hc. unfold _send_confirm.
  frame_with ltac:(first
    [ apply preserves__get_topic
    | by apply preserves_now
    | by apply preserves_publish
    | by apply preserves_print ]).
Qed.

(** *** _process_charge_record, _process_discharge_record *)

Lemma _process_charge_record_run payload b s :
  py_dict_get payload "dataBody" (JObj []) = Some (JObj b) ->
  _process_charge_record payload s =
    let order_sn := field b "orderSn" JNull in
    if py_truthy order_sn then
      match py_hash_key order_sn with
      | None => (Raise TypeError, set_ticks (S (ticks s)) s)
      | Some key =>
          let record := charge_record_of b (strftime (clock (ticks s))) in
          let stored :=
            set_charge_order_sns (index_append key (charge_order_sns s))
              (set_charge_records (<[key := record]> (charge_records s))
                 (set_ticks (S (ticks s)) s)) in
          match py_number (field b "totalMoney" (JInt 0)) with
          | None => (Raise TypeError, stored)
          | Some amount =>
              match py_add (total_money s) amount with
              | None => (Raise OverflowError, stored)
              | Some added =>
                  (Val tt,
                   set_console (console s ++
                                  [LogChargeRecord order_sn (field b "electAmount" (JInt 0))
                                     (field b "totalMoney" (JInt 0))])
                     (set_total_money added stored))
              end
          end
      end
    else (Val tt, s).
Proof.
  intros Hbody. destruct payload as [| | | | |kvs|]; simplify_eq/=.
  unfold _process_charge_record. mred. rewrite Hbody. cbn.
  destruct (py_truthy (field b "orderSn" JNull)); cbn; [|done].
  destruct (py_hash_key (field b "orderSn" JNull)) as [key|]; cbn; [|done].
  unfold index_append.
  destruct (bool_decide (key ∈ charge_order_sns s)); cbn;
    destruct (py_number (field b "totalMoney" (JInt 0))) as [amount|]; cbn;
    try done; by destruct (py_add (total_money s) amount).
Qed.

Lemma _process_discharge_record_run payload b s :
  py_dict_get payload "dataBody" (JObj []) = Some (JObj b) ->
  _process_discharge_record payload s =
    let order_sn := field b "orderSn" JNull in
    if py_truthy order_sn then
      match py_hash_key order_sn with
      | None => (Raise TypeError, set_ticks (S (ticks s)) s)
      | Some key =>
          let record := discharge_record_of b (strftime (clock (ticks s))) in
          let stored :=
            set_discharge_order_sns (index_append key (discharge_order_sns s))
              (set_discharge_records (<[key := record]> (discharge_records s))
                 (set_ticks (S (ticks s)) s)) in
          match py_number (field b "totalMoney" (JInt 0)) with
          | None => (Raise TypeError, stored)
          | Some amount =>
              match py_add (total_money s) amount with
              | None => (Raise OverflowError, stored)
              | Some added =>
                  (Val tt,
                   set_console (console s ++
                                  [LogDischargeRecord order_sn (field b "electAmount" JNull)
                                     (field b "totalMoney" (JInt 0))])
                     (set_total_money added stored))
              end
          end
      end
    else (Val tt, s).
Proof.
  intros Hbody. destruct payload as [| | | | |kvs|]; simplify_eq/=.
  unfold _process_discharge_record. mred. rewrite Hbody. cbn.
  destruct (py_truthy (field b "orderSn" JNull)); cbn; [|done].
  destruct (py_hash_key (field b "orderSn" JNull)) as [key|]; cbn; [|done].
  unfold index_append.
  destruct (bool_decide (key ∈ discharge_order_sns s)); cbn;
    destruct (py_number (field b "totalMoney" (JInt 0))) as [amount|]; cbn;
    try done; by destruct (py_add (total_money s) amount).
Qed.

Lemma preserves_record_step {B : Type} (f : state -> B) function payload :
  (forall v s, f (set_ticks v s) = f s) ->
  (forall v s, f (set_console v s) = f s) ->
  (forall v s, f (set_total_money v s) = f s) ->
  (forall v s, f (set_charge_records v s) = f s) ->
  (forall v s, f (set_discharge_records v s) = f s) ->
  (forall v s, f (set_charge_order_sns v s) = f s) ->
  (forall v s, f (set_discharge_order_sns v s) = f s) ->
  preserves f (record_step function payload).
Proof.
  intros Ht Hc Hm Hcr Hdr Hcs Hds.
  unfold record_step, _process_charge_record, _process_discharge_record.
  frame_with ltac:(first
    [ by apply preserves_now
    | by apply preserves_print
    | apply preserves_modify; intros ?; first [apply Hm | apply Hcr | apply Hdr
                                               | apply Hcs | apply Hds] ]).
Qed.

(** *** _handle_event_message *)

Lemma _handle_event_message_run payload header data_body function event s :
  py_dict_get payload "header" (JObj []) = Some header ->
  py_dict_get payload "dataBody" (JObj []) = Some data_body ->
  py_dict_get header "function" JNull = Some function ->
  event_of payload (isoformat (clock (ticks s))) = Some event ->
  _handle_event_message payload s
  = after_ledger payload header data_body function
      (set_event_logs (ledger_push event (event_logs s))
         (set_ticks (S (ticks s)) s)).
Proof.
  intros Hheader Hbody Hfunction Hevent. unfold event_of in Hevent.
  destruct payload as [| | | | |kvs|]; simplify_eq/=.
  destruct (field kvs "header" (JObj [])) as [| | | | |h|] eqn:Hh; simplify_eq/=.
  unfold _handle_event_message. mred. rewrite Hh. mred.
  unfold after_ledger, record_step, ledger_push. mred.
  by destruct (1000 <? length (event_logs s ++ _))%nat.
Qed.

Lemma _handle_event_message_exec payload header data_body function event s :
  py_dict_get payload "header" (JObj []) = Some header ->
  py_dict_get payload "dataBody" (JObj []) = Some data_body ->
  py_dict_get header "function" JNull = Some function ->
  event_of payload (isoformat (clock (ticks s))) = Some event ->
  exec (_handle_event_message payload) s
  = exec (after_ledger payload header data_body function)
      (set_event_logs (ledger_push event (event_logs s))
         (set_ticks (S (ticks s)) s)).
Proof. intros. unfold exec. by erewrite _handle_event_message_run. Qed.

Lemma _handle_event_message_raise payload s :
  is_envelope payload = false ->
  _handle_event_message payload s = (Raise AttributeError, s).
Proof.
  unfold is_envelope. intros Hbad.
  destruct payload as [| | | | |kvs|]; try done.
  unfold _handle_event_message. mred. cbn in Hbad.
  by destruct (field kvs "header" (JObj [])).
Qed.

Lemma is_envelope_event_of payload realtime :
  is_envelope payload = true ->
  exists header data_body function event,
    py_dict_get payload "header" (JObj []) = Some header /\
    py_dict_get payload "dataBody" (JObj []) = Some data_body /\
    py_dict_get header "function" JNull = Some function /\
    event_of payload realtime = Some event.
Proof.
  unfold is_envelope, event_of. intros Henv.
  destruct payload as [| | | | |kvs|]; try done. cbn in *.
  destruct (field kvs "header" (JObj [])) as [| | | | |h|]; try done. cbn.
  eauto 10.
Qed.

Lemma preserves_after_ledger {B : Type} (f : state -> B) payload header data_body function :
  (forall v s, f (set_ticks v s) = f s) ->
  (forall v s, f (set_console v s) = f s) ->
  (forall v s, f (set_published v s) = f s) ->
  (forall v s, f (set_last_heartbeat v s) = f s) ->
  (forall v s, f (set_total_money v s) = f s) ->
  (forall v s, f (set_charge_records v s) = f s) ->
  (forall v s, f (set_discharge_records v s) = f s) ->
  (forall v s, f (set_charge_order_sns v s) = f s) ->
  (forall v s, f (set_discharge_order_sns v s) = f s) ->
  preserves f (after_ledger payload header data_body function).
Proof.
  intros Ht Hc Hp Hh Hm Hcr Hdr Hcs Hds. unfold after_ledger.
  frame_with ltac:(first
    [ by apply preserves_record_step
    | by apply preserves__send_confirm
    | by apply preserves_now
    | apply preserves_modify; intros ?; apply Hh ]).
Qed.

(** The ledger after one event, for every payload. *)
Lemma event_logs_step payload s :
  event_logs (exec (_handle_event_message payload) s)
  = match event_of payload (isoformat (clock (ticks s))) with
    | Some event => ledger_push event (event_logs s)
    | None => event_logs s
    end.
Proof.
  destruct (is_envelope payload) eqn:Henv.
  - destruct (is_envelope_event_of _ (isoformat (clock (ticks s))) Henv)
      as (header & data_body & function & event & Hh & Hb & Hf & He).
    rewrite He, (_handle_event_message_exec _ _ _ _ _ _ Hh Hb Hf He).
    by rewrite (preserves_after_ledger event_logs).
  - unfold exec. rewrite _handle_event_message_raise by done.
    unfold is_envelope, event_of in *.
    destruct payload as [| | | | |kvs|]; try done. cbn in *.
    by destruct (field kvs "header" (JObj [])).
Qed.

Lemma ledger_push_drop event logs :
  (length logs <= 1000)%nat ->
  ledger_push event logs = drop (length (logs ++ [event]) - 1000) (logs ++ [event]).
Proof.
  intros Hlen. unfold ledger_push.
  destruct (1000 <? length (logs ++ [event]))%nat eqn:Hfull;
    [apply Nat.ltb_lt in Hfull | apply Nat.ltb_ge in Hfull];
    rewrite length_app in *; cbn [length] in *.
  - replace (length logs + 1 - 1000)%nat with 1%nat by lia.
    by destruct (logs ++ [event]).
  - by replace (length logs + 1 - 1000)%nat with 0%nat by lia.
Qed.

Lemma ledger_push_length event logs :
  (length logs <= 1000)%nat -> (length (ledger_push event logs) <= 1000)%nat.
Proof.
  intros Hlen. rewrite ledger_push_drop by done.
  rewrite length_drop, length_app. cbn [length]. lia.
Qed.

Lemma ledger_push_foldl events logs :
  (length logs <= 1000)%nat ->
  foldl (fun l e => ledger_push e l) logs events
  = drop (length (logs ++ events) - 1000) (logs ++ events).
Proof.
  revert logs. induction events as [|e events IH]; intros logs Hlen.
  - cbn. rewrite app_nil_r.
    by replace (length logs - 1000)%nat with 0%nat by lia.
  - cbn [foldl]. rewrite IH by by apply ledger_push_length.
    rewrite ledger_push_drop by done.
    rewrite (cons_middle e logs events), (assoc_L (++)).
    set (full := logs ++ [e]).
    assert (length full = S (length logs)) as Hfull.
    { unfold full. rewrite length_app. cbn. lia. }
    rewrite !length_app, length_drop, Hfull.
    destruct (decide (length logs = 1000%nat)) as [Hat|Hbelow].
    + rewrite Hat. replace (1001 - 1000)%nat with 1%nat by lia.
      replace (1001 - 1 + length events - 1000)%nat with (length events) by lia.
      replace (1001 + length events - 1000)%nat with (1 + length events)%nat by lia.
      rewrite <- drop_drop. f_equal.
      rewrite drop_app_le by lia. done.
    + replace (S (length logs) - 1000)%nat with 0%nat by lia.
      by rewrite drop_0.
Qed.

Lemma deliver_events_ledger payloads s :
  forallb is_envelope payloads = true ->
  exists events,
    Forall2 logged payloads events /\
    event_logs (deliver_events payloads s)
      = foldl (fun l e => ledger_push e l) (event_logs s) events.
Proof.
  revert s. induction payloads as [|p ps IH]; intros s Henv.
  - exists []. by split; [constructor|].
  - cbn in Henv. apply andb_true_iff in Henv as [Hp Hps].
    destruct (is_envelope_event_of p (isoformat (clock (ticks s))) Hp)
      as (header & data_body & function & event & _ & _ & _ & He).
    destruct (IH (exec (_on_message_event p) s) Hps) as (events & Hall & Hlogs).
    exists (event :: events). split.
    + constructor; [by exists (isoformat (clock (ticks s)))|done].
    + unfold deliver_events in *. cbn [foldl]. rewrite Hlogs. f_equal.
      unfold _on_message_event.
      rewrite (try_except_frame event_logs) by done.
      by rewrite event_logs_step, He.
Qed.

(** C4. The event ledger is a first-in first-out log of at most 1000
    entries.  Handling any inbound event payload keeps its length within
    1000.  From an empty ledger, delivering event envelopes leaves the
    entries of the last 1000 of them, in the order received; for 1001
    envelopes these are all but the first. *)
Theorem event_ledger_bounded_fifo :
  (forall payload s,
     (length (event_logs s) <= 1000)%nat ->
     (length (event_logs (exec (_handle_event_message payload) s)) <= 1000)%nat) /\
  (forall payloads s,
     event_logs s = [] ->
     forallb is_envelope payloads = true ->
     Forall2 logged (drop (length payloads - 1000) payloads)
       (event_logs (deliver_events payloads s))) /\
  (forall oldest payloads s,
     event_logs s = [] ->
     forallb is_envelope (oldest :: payloads) = true ->
     length (oldest :: payloads) = 1001%nat ->
     Forall2 logged payloads (event_logs (deliver_events (oldest :: payloads) s))).
Proof.
  assert (forall payloads s,
     event_logs s = [] ->
     forallb is_envelope payloads = true ->
     Forall2 logged (drop (length payloads - 1000) payloads)
       (event_logs (deliver_events payloads s))) as Hfifo.
  { intros payloads s Hempty Henv.
    destruct (deliver_events_ledger payloads s Henv) as (events & Hall & ->).
    rewrite Hempty, ledger_push_foldl by (cbn; lia). cbn.
    rewrite <- (Forall2_length _ _ _ Hall). by apply Forall2_drop. }
  split; [|split; [done|]].
  - intros payload s Hlen. rewrite event_logs_step.
    destruct (event_of payload _); [by apply ledger_push_length | done].
  - intros oldest payloads s Hempty Henv Hlen.
    specialize (Hfifo (oldest :: payloads) s Hempty Henv).
    rewrite Hlen in Hfifo. by replace (1001 - 1000)%nat with 1%nat in Hfifo by lia.
Qed.

(** *** Confirmation of events *)

Lemma record_step_returns function payload b s :
  py_dict_get payload "dataBody" (JObj []) = Some (JObj b) ->
  record_ingestible (total_money s) function b = true ->
  result (record_step function payload) s = Val tt.
Proof.
  intros Hbody. unfold record_ingestible, result, record_step.
  destruct (py_eq_str function "chargeRecord"); cbn.
  - rewrite (_process_charge_record_run payload b s Hbody). cbn.
    destruct (py_truthy (field b "orderSn" JNull)); [|done].
    destruct (py_hash_key (field b "orderSn" JNull)); [|done].
    destruct (py_number (field b "totalMoney" (JInt 0))) as [amount|]; [|done].
    intros [added Hadd]%bool_decide_eq_true. by rewrite Hadd.
  - destruct (py_eq_str function "dischargeRecord"); [|done].
    rewrite (_process_discharge_record_run payload b s Hbody). cbn.
    destruct (py_truthy (field b "orderSn" JNull)); [|done].
    destruct (py_hash_key (field b "orderSn" JNull)); [|done].
    destruct (py_number (field b "totalMoney" (JInt 0))) as [amount|]; [|done].
    intros [added Hadd]%bool_decide_eq_true. by rewrite Hadd.
Qed.

Lemma confirm_function_unmapped function :
  (forall e, py_eq_str function (EventType_value e) = false) ->
  confirm_function function = "".
Proof.
  intros Hnone. unfold confirm_function.
  by rewrite (Hnone chargeEvent), (Hnone dischargeEvent), (Hnone faultRecord),
    (Hnone chargeRecord), (Hnone dischargeRecord).
Qed.

Lemma after_ledger_confirms payload h b function s :
  py_is_none (field h "index" JNull) = false ->
  result (record_step function payload) s = Val tt ->
  exists timestamp,
    let confirmation :=
      confirm_payload (field h "index" JNull) (field b "orderSn" JNull)
        (confirm_function function) timestamp in
    match publish_error (publish_topic CONFIRM s) confirmation with
    | None =>
        result (after_ledger payload (JObj h) (JObj b) function) s = Val tt /\
        published (exec (after_ledger payload (JObj h) (JObj b) function) s)
        = published s ++ [(publish_topic CONFIRM s, confirmation)]
    | Some e =>
        result (after_ledger payload (JObj h) (JObj b) function) s = Raise e /\
        published (exec (after_ledger payload (JObj h) (JObj b) function) s)
        = published s
    end.
Proof.
  intros Hindex Hstep.
  pose proof (preserves_record_step published function payload
                ltac:(done) ltac:(done) ltac:(done) ltac:(done) ltac:(done)
                ltac:(done) ltac:(done) s) as Hpub.
  pose proof (preserves_record_step topic_config function payload
                ltac:(done) ltac:(done) ltac:(done) ltac:(done) ltac:(done)
                ltac:(done) ltac:(done) s) as Hcfg.
  apply (publish_topic_config CONFIRM) in Hcfg.
  unfold result, exec, after_ledger in *.
  destruct (record_step function payload s) as [[[]|e] s2] eqn:Hrun;
    cbn in Hstep, Hpub, Hcfg; [|done].
  rewrite (bind_val _ _ _ _ _ Hrun). mred.
  rewrite _send_confirm_present by done. cbv zeta.
  exists (strftime (clock (ticks s2))). rewrite Hcfg.
  destruct (publish_error _ _); cbn; by rewrite ?Hpub, ?Hcfg.
Qed.

Lemma after_ledger_silent payload h b function s :
  py_is_none (field h "index" JNull) = true ->
  published (exec (after_ledger payload (JObj h) (JObj b) function) s) = published s.
Proof.
  intros Hindex.
  pose proof (preserves_record_step published function payload
                ltac:(done) ltac:(done) ltac:(done) ltac:(done) ltac:(done)
                ltac:(done) ltac:(done) s) as Hpub.
  unfold exec, after_ledger in *.
  destruct (record_step function payload s) as [[[]|e] s2] eqn:Hrun; cbn in Hpub.
  - rewrite (bind_val _ _ _ _ _ Hrun). mred.
    rewrite _send_confirm_none by done. by cbn.
  - by rewrite (bind_raise _ _ _ _ _ Hrun).
Qed.


(** *** Charge and discharge records *)

Lemma after_ledger_frame {B : Type} (f : state -> B) payload header data_body function s :
  (forall v s, f (set_ticks v s) = f s) ->
  (forall v s, f (set_console v s) = f s) ->
  (forall v s, f (set_published v s) = f s) ->
  (forall v s, f (set_last_heartbeat v s) = f s) ->
  f (exec (after_ledger payload header data_body function) s)
  = f (exec (record_step function payload) s).
Proof.
  intros Ht Hc Hp Hh. unfold after_ledger. apply bind_frame. intros _.
  frame_with ltac:(first
    [ by apply preserves__send_confirm
    | by apply preserves_now
    | apply preserves_modify; intros ?; apply Hh ]).
Qed.

(** What an event leaves in a view [f] that only the record extraction can
    change. *)
Lemma _handle_event_message_frame {B : Type} (f : state -> B) payload h b event s :
  py_dict_get payload "header" (JObj []) = Some (JObj h) ->
  py_dict_get payload "dataBody" (JObj []) = Some (JObj b) ->
  event_of payload (isoformat (clock (ticks s))) = Some event ->
  (forall v s, f (set_ticks v s) = f s) ->
  (forall v s, f (set_console v s) = f s) ->
  (forall v s, f (set_published v s) = f s) ->
  (forall v s, f (set_last_heartbeat v s) = f s) ->
  f (exec (_handle_event_message payload) s)
  = f (exec (record_step (field h "function" JNull) payload)
         (set_event_logs (ledger_push event (event_logs s))
            (set_ticks (S (ticks s)) s))).
Proof.
  intros Hheader Hbody He Ht Hc Hp Hh.
  rewrite (_handle_event_message_exec _ _ _ _ _ _ Hheader Hbody eq_refl He).
  by apply after_ledger_frame.
Qed.

Lemma _on_message_event_frame {B : Type} (f : state -> B) payload h b event s :
  py_dict_get payload "header" (JObj []) = Some (JObj h) ->
  py_dict_get payload "dataBody" (JObj []) = Some (JObj b) ->
  event_of payload (isoformat (clock (ticks s))) = Some event ->
  (forall v s, f (set_ticks v s) = f s) ->
  (forall v s, f (set_console v s) = f s) ->
  (forall v s, f (set_published v s) = f s) ->
  (forall v s, f (set_last_heartbeat v s) = f s) ->
  f (exec (_on_message_event payload) s)
  = f (exec (record_step (field h "function" JNull) payload)
         (set_event_logs (ledger_push event (event_logs s))
            (set_ticks (S (ticks s)) s))).
Proof.
  intros Hheader Hbody He Ht Hc Hp Hh. unfold _on_message_event.
  rewrite try_except_frame by done.
  by apply _handle_event_message_frame with b.
Qed.

Lemma carries_inv name key payload :
  carries name key payload = true ->
  exists h b,
    py_dict_get payload "header" (JObj []) = Some (JObj h) /\
    py_dict_get payload "dataBody" (JObj []) = Some (JObj b) /\
    body_items payload = b /\
    py_eq_str (field h "function" JNull) name = true /\
    py_truthy (field b "orderSn" JNull) = true /\
    py_hash_key (field b "orderSn" JNull) = Some key.
Proof.
  unfold carries, body_items. intros Hc.
  destruct (py_dict_get payload "header" (JObj [])) as [[| | | | |h|]|]; try done.
  destruct (py_dict_get payload "dataBody" (JObj [])) as [[| | | | |b|]|]; try done.
  apply andb_true_iff in Hc as [Hc Hkey]. apply andb_true_iff in Hc as [Hname Horder].
  apply bool_decide_eq_true in Hkey. eauto 10.
Qed.

Lemma carries_event_of name key payload realtime :
  carries name key payload = true -> is_Some (event_of payload realtime).
Proof.
  intros (h & b & Hh & Hb & _)%carries_inv.
  unfold event_of. rewrite Hh, Hb. by cbn.
Qed.

Lemma charge_record_step key payload s :
  carries "chargeRecord" key payload = true ->
  charge_order_sns (exec (_on_message_event payload) s)
    = index_append key (charge_order_sns s) /\
  exists created_at,
    charge_records (exec (_on_message_event payload) s)
    = <[key := charge_record_of (body_items payload) created_at]> (charge_records s).
Proof.
  intros Hc.
  destruct (carries_event_of _ _ _ (isoformat (clock (ticks s))) Hc) as [event He].
  destruct (carries_inv _ _ _ Hc) as (h & b & Hh & Hb & -> & Hname & Horder & Hkey).
  rewrite (_on_message_event_frame charge_order_sns _ _ _ _ _ Hh Hb He) by done.
  rewrite (_on_message_event_frame charge_records _ _ _ _ _ Hh Hb He) by done.
  unfold record_step, exec. rewrite Hname.
  rewrite (_process_charge_record_run _ _ _ Hb). cbn. rewrite Horder, Hkey.
  destruct (py_number (field b "totalMoney" (JInt 0))) as [amount|];
      [destruct (py_add _ amount)|]; cbn; eauto.
Qed.

Lemma discharge_record_step key payload s :
  carries "dischargeRecord" key payload = true ->
  discharge_order_sns (exec (_on_message_event payload) s)
    = index_append key (discharge_order_sns s) /\
  exists created_at,
    discharge_records (exec (_on_message_event payload) s)
    = <[key := discharge_record_of (body_items payload) created_at]> (discharge_records s).
Proof.
  intros Hc.
  destruct (carries_event_of _ _ _ (isoformat (clock (ticks s))) Hc) as [event He].
  destruct (carries_inv _ _ _ Hc) as (h & b & Hh & Hb & -> & Hname & Horder & Hkey).
  rewrite (_on_message_event_frame discharge_order_sns _ _ _ _ _ Hh Hb He) by done.
  rewrite (_on_message_event_frame discharge_records _ _ _ _ _ Hh Hb He) by done.
  unfold record_step, exec.
  destruct (field h "function" JNull) as [| | |name| | |]; try done.
  cbn in Hname. apply String.eqb_eq in Hname as ->. cbn.
  rewrite (_process_discharge_record_run _ _ _ Hb). cbn. rewrite Horder, Hkey.
  destruct (py_number (field b "totalMoney" (JInt 0))) as [amount|];
      [destruct (py_add _ amount)|]; cbn; eauto.
Qed.

Lemma occurrences_elem_of key sns :
  key ∈ sns -> (1 <= occurrences key sns)%nat.
Proof.
  intros Hin. unfold occurrences.
  assert (key ∈ filter (fun k => k = key) sns) as Hf by by apply list_elem_of_filter.
  destruct (filter (fun k => k = key) sns); [by apply elem_of_nil in Hf | cbn; lia].
Qed.

Lemma occurrences_not_elem_of key sns :
  key ∉ sns -> occurrences key sns = 0%nat.
Proof.
  intros Hout. unfold occurrences.
  destruct (filter (fun k => k = key) sns) as [|k rest] eqn:Hf; [done|].
  assert (k ∈ filter (fun k => k = key) sns) as Hk by (rewrite Hf; left).
  apply list_elem_of_filter in Hk as [-> Hin]. done.
Qed.

Lemma occurrences_index_append key sns :
  (occurrences key sns <= 1)%nat -> occurrences key (index_append key sns) = 1%nat.
Proof.
  intros Hmost. unfold index_append. case_bool_decide as Hin.
  - apply occurrences_elem_of in Hin. lia.
  - apply occurrences_not_elem_of in Hin. unfold occurrences in *.
    rewrite filter_app, length_app, Hin. cbn. by rewrite decide_True.
Qed.

(** Every event, whatever its payload, keeps the index lists consistent with
    the record tables; so does a fresh session, and so every session reached
    from it by inbound events. *)
Lemma _process_charge_record_raise payload s :
  (forall b, py_dict_get payload "dataBody" (JObj []) <> Some (JObj b)) ->
  exec (_process_charge_record payload) s = s.
Proof.
  intros Hbad. unfold exec, _process_charge_record. mred.
  destruct payload as [| | | | |kvs|]; cbn; try done.
  destruct (field kvs "dataBody" (JObj [])) as [| | | | |b|] eqn:Hb; cbn; try done.
  exfalso. apply (Hbad b). cbn. by rewrite Hb.
Qed.

Lemma _process_discharge_record_raise payload s :
  (forall b, py_dict_get payload "dataBody" (JObj []) <> Some (JObj b)) ->
  exec (_process_discharge_record payload) s = s.
Proof.
  intros Hbad. unfold exec, _process_discharge_record. mred.
  destruct payload as [| | | | |kvs|]; cbn; try done.
  destruct (field kvs "dataBody" (JObj [])) as [| | | | |b|] eqn:Hb; cbn; try done.
  exfalso. apply (Hbad b). cbn. by rewrite Hb.
Qed.

Lemma index_append_consistent key record (records : gmap pykey json) sns :
  NoDup sns /\ (forall k, k ∈ sns -> is_Some (records !! k)) ->
  NoDup (index_append key sns) /\
  (forall k, k ∈ index_append key sns -> is_Some (<[key := record]> records !! k)).
Proof.
  intros [Hnodup Hstored]. unfold index_append. case_bool_decide as Hin; split.
  - done.
  - intros k Hk. rewrite lookup_insert_is_Some. destruct (decide (key = k)); auto.
  - apply NoDup_app. repeat split; [done| |apply NoDup_singleton].
    intros k Hk ->%list_elem_of_singleton. done.
  - intros k [Hk | ->%list_elem_of_singleton]%elem_of_app;
      rewrite lookup_insert_is_Some; [|by left].
    destruct (decide (key = k)); auto.
Qed.

Lemma record_step_consistent function payload s :
  index_consistent s -> index_consistent (exec (record_step function payload) s).
Proof.
  intros [Hcharge Hdischarge]. unfold record_step.
  destruct (py_eq_str function "chargeRecord");
    [|destruct (py_eq_str function "dischargeRecord"); [|done]].
  - destruct (py_dict_get payload "dataBody" (JObj [])) as [[| | | | |b|]|] eqn:Hb;
      try by rewrite _process_charge_record_raise by (intros b'; congruence).
    unfold exec. rewrite (_process_charge_record_run payload b s Hb). cbn.
    destruct (py_truthy (field b "orderSn" JNull)); [|done].
    destruct (py_hash_key (field b "orderSn" JNull)) as [key|]; [|done].
    destruct (py_number (field b "totalMoney" (JInt 0))) as [amount|];
      [destruct (py_add _ amount)|]; cbn;
      (split; [by apply index_append_consistent | done]).
  - destruct (py_dict_get payload "dataBody" (JObj [])) as [[| | | | |b|]|] eqn:Hb;
      try by rewrite _process_discharge_record_raise by (intros b'; congruence).
    unfold exec. rewrite (_process_discharge_record_run payload b s Hb). cbn.
    destruct (py_truthy (field b "orderSn" JNull)); [|done].
    destruct (py_hash_key (field b "orderSn" JNull)) as [key|]; [|done].
    destruct (py_number (field b "totalMoney" (JInt 0))) as [amount|];
      [destruct (py_add _ amount)|]; cbn;
      (split; [done | by apply index_append_consistent]).
Qed.

Lemma _on_message_event_consistent payload s :
  index_consistent s -> index_consistent (exec (_on_message_event payload) s).
Proof.
  intros Hs.
  set (view := fun s => (charge_order_sns s, charge_records s,
                          discharge_order_sns s, discharge_records s)).
  assert (forall s1 s2, view s1 = view s2 -> index_consistent s2 -> index_consistent s1)
    as Hview by (intros s1 s2 [= H1 H2 H3 H4]; unfold index_consistent;
                 by rewrite H1, H2, H3, H4).
  unfold _on_message_event.
  eapply Hview; [apply (try_except_frame view); done|].
  destruct (is_envelope payload) eqn:Henv.
  - destruct (is_envelope_event_of _ (isoformat (clock (ticks s))) Henv)
      as (header & data_body & function & event & Hh & Hb & Hf & He).
    eapply Hview.
    { rewrite (_handle_event_message_exec _ _ _ _ _ _ Hh Hb Hf He).
      by apply (after_ledger_frame view). }
    by apply record_step_consistent.
  - unfold exec. by rewrite _handle_event_message_raise.
Qed.

Lemma index_consistent_init product device :
  index_consistent (__init__ product device).
Proof.
  repeat split; cbn; try apply NoDup_nil_2; by intros k ?%elem_of_nil.
Qed.

Lemma deliver_events_consistent payloads s :
  index_consistent s -> index_consistent (deliver_events payloads s).
Proof.
  revert s. induction payloads as [|p ps IH]; intros s Hs; [done|].
  unfold deliver_events in *. cbn [foldl]. by apply IH, _on_message_event_consistent.
Qed.

Lemma index_consistent_occurrences key s :
  index_consistent s ->
  (occurrences key (charge_order_sns s) <= 1)%nat /\
  (occurrences key (discharge_order_sns s) <= 1)%nat.
Proof.
  assert (forall sns, NoDup sns -> (occurrences key sns <= 1)%nat) as Hocc.
  { intros sns Hnodup. unfold occurrences.
    induction Hnodup as [|k sns Hk _ IH]; [cbn; lia|].
    rewrite filter_cons. case_decide as Heq; [subst k|done].
    cbn. fold (occurrences key sns). rewrite occurrences_not_elem_of by done. lia. }
  intros [[Hc _] [Hd _]]. auto.
Qed.

Section Upsert.
(** One kind of record: the function identifier of its events, its table,
    its index list and the record built from an event body. *)
Variable name : string.
Variable records : state -> gmap pykey json.
Variable sns : state -> list pykey.
Variable record_of : list (string * json) -> string -> json.

Hypothesis step : forall key payload s,
  carries name key payload = true ->
  sns (exec (_on_message_event payload) s) = index_append key (sns s) /\
  exists created_at,
    records (exec (_on_message_event payload) s)
    = <[key := record_of (body_items payload) created_at]> (records s).

Lemma upsert_at_most_once key payloads s :
  forallb (carries name key) payloads = true ->
  (occurrences key (sns s) <= 1)%nat ->
  (occurrences key (sns (deliver_events payloads s)) <= 1)%nat.
Proof.
  revert s. induction payloads as [|p ps IH]; intros s Hall Hmost; [done|].
  cbn in Hall. apply andb_true_iff in Hall as [Hp Hps].
  unfold deliver_events in *. cbn [foldl]. apply IH; [done|].
  destruct (step key p s Hp) as [-> _].
  by rewrite occurrences_index_append.
Qed.

Lemma upsert_latest key earlier latest s :
  forallb (carries name key) (earlier ++ [latest]) = true ->
  (occurrences key (sns s) <= 1)%nat ->
  occurrences key (sns (deliver_events (earlier ++ [latest]) s)) = 1%nat /\
  exists created_at,
    records (deliver_events (earlier ++ [latest]) s) !! key
    = Some (record_of (body_items latest) created_at).
Proof.
  rewrite forallb_app. cbn. rewrite andb_true_r.
  intros [Hearlier Hlatest]%andb_true_iff Hmost.
  unfold deliver_events. rewrite foldl_app. cbn [foldl].
  fold (deliver_events earlier s).
  destruct (step key latest (deliver_events earlier s) Hlatest)
    as [-> [created_at ->]].
  split.
  - apply occurrences_index_append. by apply upsert_at_most_once.
  - exists created_at. apply lookup_insert_eq.
Qed.
End Upsert.

(** C2. For every present order identifier, with [key] its value as a dict
    key, and every non-empty sequence of charge-record events that carry it:
    once they are delivered the charge index list holds [key] exactly once
    (given it held it at most once before, as it does in every consistent
    session) and the charge record stored under [key] holds, field by field,
    the values of the body of the last event, with the defaults of the code
    for the fields that body lacks, and the time the record was built.  The
    same holds for discharge-record events and the discharge table and index
    list. *)
Theorem record_upsert (key : pykey) (earlier : list json) (latest : json) (s : state) :
  let b := body_items latest in
  (forallb (carries "chargeRecord" key) (earlier ++ [latest]) = true ->
   (occurrences key (charge_order_sns s) <= 1)%nat ->
     occurrences key (charge_order_sns (deliver_events (earlier ++ [latest]) s)) = 1%nat /\
     exists created_at,
       charge_records (deliver_events (earlier ++ [latest]) s) !! key
       = Some (JObj [("order_sn", field b "orderSn" JNull);
                     ("start_time", field b "startTime" JNull);
                     ("stop_time", field b "stopTime" JNull);
                     ("electAmount", field b "electAmount" (JInt 0));
                     ("total_money", field b "totalMoney" (JInt 0));
                     ("start_soc", field b "startSoc" (JInt 0));
                     ("stop_soc", field b "stopSoc" (JInt 0));
                     ("chgTime", field b "chgTime" (JInt 0));
                     ("rateModelID", field b "rateModelID" (JInt 0));
                     ("created_at", JStr created_at)])) /\
  (forallb (carries "dischargeRecord" key) (earlier ++ [latest]) = true ->
   (occurrences key (discharge_order_sns s) <= 1)%nat ->
     occurrences key (discharge_order_sns (deliver_events (earlier ++ [latest]) s)) = 1%nat /\
     exists created_at,
       discharge_records (deliver_events (earlier ++ [latest]) s) !! key
       = Some (JObj [("order_sn", field b "orderSn" JNull);
                     ("start_time", field b "startTime" JNull);
                     ("stop_time", field b "stopTime" JNull);
                     ("electAmount", field b "electAmount" JNull);
                     ("total_money", field b "totalMoney" (JInt 0));
                     ("start_soc", field b "startSoc" (JInt 0));
                     ("stop_soc", field b "stopSoc" (JInt 0));
                     ("duration", field b "chgTime" (JInt 0));
                     ("rateModelID", field b "rateModelID" (JInt 0));
                     ("created_at", JStr created_at)])).
Proof.
  intros b. split.
  - apply (upsert_latest "chargeRecord" charge_records charge_order_sns
             charge_record_of charge_record_step).
  - apply (upsert_latest "dischargeRecord" discharge_records discharge_order_sns
             discharge_record_of discharge_record_step).
Qed.

(** *** The running total *)

Lemma total_money_step name key payload amount s :
  name = "chargeRecord" \/ name = "dischargeRecord" ->
  carries name key payload = true ->
  py_number (field (body_items payload) "totalMoney" (JInt 0)) = Some amount ->
  total_money (exec (_handle_event_message payload) s)
  = default (total_money s) (py_add (total_money s) amount).
Proof.
  intros Hname Hc Hcost.
  destruct (carries_event_of _ _ _ (isoformat (clock (ticks s))) Hc) as [event He].
  destruct (carries_inv _ _ _ Hc) as (h & b & Hh & Hb & <- & Hf & Horder & Hkey).
  rewrite (_handle_event_message_frame total_money _ _ _ _ _ Hh Hb He) by done.
  destruct (field h "function" JNull) as [| | |function| | |]; try done.
  cbn in Hf. apply String.eqb_eq in Hf as ->.
  unfold record_step, exec.
  destruct Hname as [-> | ->]; cbn.
  - rewrite (_process_charge_record_run _ _ _ Hb). cbn.
    rewrite Horder, Hkey, Hcost. by destruct (py_add _ amount).
  - rewrite (_process_discharge_record_run _ _ _ Hb). cbn.
    rewrite Horder, Hkey, Hcost. by destruct (py_add _ amount).
Qed.

(** C3, amended.  Handling a charge-record or discharge-record event that
    carries a present, hashable order identifier and a numeric cost adds
    that cost to the running total as Python adds numbers, whatever the
    session already stores: exactly when the total and the cost are [int]s
    (a [bool] counting as 0 or 1), and in binary64, rounded to nearest, once
    one of them is a [float], the [int] operand being converted first; when
    that conversion overflows the total stays as it was.  Delivering the same
    event [n] times adds an [int] cost [n] times to an [int] total. *)
Theorem total_money_accumulates (name : string) (key : pykey) (payload : json)
    (s : state) :
  name = "chargeRecord" \/ name = "dischargeRecord" ->
  carries name key payload = true ->
  let cost := field (body_items payload) "totalMoney" (JInt 0) in
  let after := total_money (exec (_handle_event_message payload) s) in
  let int_of (j : json) : option Z :=
    match j with
    | JInt c => Some c
    | JBool c => Some (if c then 1 else 0)
    | _ => None
    end in
  let float_of (z : Z) : spec_float := binary_normalize 53 1024 z 0 false in
  (forall a c, total_money s = PInt a -> int_of cost = Some c ->
     after = PInt (a + c)) /\
  (forall f g, total_money s = PFloat f -> cost = JFloat g ->
     after = PFloat (SFadd 53 1024 f g)) /\
  (forall a g, total_money s = PInt a -> cost = JFloat g ->
     after = match float_of a with
             | S754_infinity _ => PInt a
             | f => PFloat (SFadd 53 1024 f g)
             end) /\
  (forall f c, total_money s = PFloat f -> int_of cost = Some c ->
     after = match float_of c with
             | S754_infinity _ => PFloat f
             | g => PFloat (SFadd 53 1024 f g)
             end) /\
  (forall n a c, total_money s = PInt a -> int_of cost = Some c ->
     total_money (deliver_events (replicate n payload) s)
     = PInt (a + Z.of_nat n * c)).
Proof.
  intros Hname Hc cost after int_of float_of.
  assert (forall c, int_of cost = Some c -> py_number cost = Some (PInt c)) as Hint.
  { intros c. unfold int_of. destruct cost; try done; by intros [= <-]. }
  assert (forall amount, py_number cost = Some amount ->
            after = default (total_money s) (py_add (total_money s) amount))
    as Hstep by (intros amount; by apply total_money_step with name key).
  split; [|split; [|split; [|split]]].
  - intros a c Ha Hcost. rewrite (Hstep _ (Hint c Hcost)), Ha. done.
  - intros f g Hf Hcost. rewrite (Hstep (PFloat g)), Hf; [done|].
    by rewrite Hcost.
  - intros a g Ha Hcost. rewrite (Hstep (PFloat g)), Ha; [|by rewrite Hcost].
    unfold py_add, py_float, float_of. cbn.
    by destruct (binary_normalize 53 1024 a 0 false).
  - intros f c Hf Hcost. rewrite (Hstep _ (Hint c Hcost)), Hf.
    unfold py_add, py_float, float_of. cbn.
    by destruct (binary_normalize 53 1024 c 0 false).
  - intros n a c Ha Hcost. apply Hint in Hcost. clear Hstep after.
    revert s a Ha. induction n as [|n IH]; intros s a Ha.
    + cbn. rewrite Ha. f_equal. lia.
    + unfold deliver_events in *. cbn [replicate foldl].
      rewrite (IH _ (a + c)).
      * f_equal. lia.
      * unfold _on_message_event. rewrite (try_except_frame total_money) by done.
        rewrite (total_money_step name key payload (PInt c)) by done.
        by rewrite Ha.
Qed.

(** *** get_charge_records, get_discharge_records *)

Lemma py_slice_last_positive {A : Type} (count : Z) (l : list A) :
  0 < count -> py_slice_last count l = drop (length l - Z.to_nat count) l.
Proof.
  intros Hpos. unfold py_slice_last.
  destruct (- count <? 0) eqn:Hneg; [|apply Z.ltb_ge in Hneg; lia].
  f_equal. lia.
Qed.

Lemma py_slice_last_zero {A : Type} (l : list A) : py_slice_last 0 l = l.
Proof. unfold py_slice_last. cbn. by rewrite Z.min_l by lia. Qed.

Lemma omap_lookup_all (records : gmap pykey json) (sns : list pykey) :
  (forall k, k ∈ sns -> is_Some (records !! k)) ->
  Forall2 (fun k r => records !! k = Some r) sns (omap (fun sn => records !! sn) sns).
Proof.
  induction sns as [|k sns IH]; intros Hall; [constructor|].
  cbn. destruct (Hall k) as [r Hr]; [left|]. rewrite Hr.
  constructor; [done|]. apply IH. intros k' Hk'. apply Hall. by right.
Qed.

(** With a positive count and no filter the queries return the records of
    the [count] most recently indexed order identifiers, most recent first,
    and all of them when fewer are indexed. *)
Lemma get_charge_records_recent count s :
  0 < count ->
  (forall k, k ∈ charge_order_sns s -> is_Some (charge_records s !! k)) ->
  exists records,
    get_charge_records count JNull s = (Val records, s) /\
    Forall2 (fun k r => charge_records s !! k = Some r)
      (take (Z.to_nat count) (reverse (charge_order_sns s))) records.
Proof.
  intros Hpos Hall. unfold get_charge_records. mred.
  eexists. split; [done|].
  rewrite py_slice_last_positive, <- take_reverse by done.
  apply omap_lookup_all. intros k Hk%subseteq_take.
  apply Hall. by apply elem_of_reverse.
Qed.

Lemma get_discharge_records_recent count s :
  0 < count ->
  (forall k, k ∈ discharge_order_sns s -> is_Some (discharge_records s !! k)) ->
  exists records,
    get_discharge_records count JNull s = (Val records, s) /\
    Forall2 (fun k r => discharge_records s !! k = Some r)
      (take (Z.to_nat count) (reverse (discharge_order_sns s))) records.
Proof.
  intros Hpos Hall. unfold get_discharge_records. mred.
  eexists. split; [done|].
  rewrite py_slice_last_positive, <- take_reverse by done.
  apply omap_lookup_all. intros k Hk%subseteq_take.
  apply Hall. by apply elem_of_reverse.
Qed.

(** With an order identifier as filter they return the one record stored
    under it, or nothing. *)
Lemma get_charge_records_filtered count order_sn key s :
  py_truthy order_sn = true ->
  py_hash_key order_sn = Some key ->
  get_charge_records count order_sn s
  = (Val (match charge_records s !! key with Some r => [r] | None => [] end), s).
Proof.
  intros Htrue Hkey. unfold get_charge_records. rewrite Htrue. mred.
  by rewrite Hkey.
Qed.

Lemma get_discharge_records_filtered count order_sn key s :
  py_truthy order_sn = true ->
  py_hash_key order_sn = Some key ->
  get_discharge_records count order_sn s
  = (Val (match discharge_records s !! key with Some r => [r] | None => [] end), s).
Proof.
  intros Htrue Hkey. unfold get_discharge_records. rewrite Htrue. mred.
  by rewrite Hkey.
Qed.

(** With count 0 and no filter, [sns[-0:]] is the whole index list. *)
Lemma get_charge_records_zero s :
  get_charge_records 0 JNull s
  = (Val (omap (fun sn => charge_records s !! sn) (reverse (charge_order_sns s))), s).
Proof. unfold get_charge_records. mred. by rewrite py_slice_last_zero. Qed.

Lemma get_discharge_records_zero s :
  get_discharge_records 0 JNull s
  = (Val (omap (fun sn => discharge_records s !! sn) (reverse (discharge_order_sns s))), s).
Proof. unfold get_discharge_records. mred. by rewrite py_slice_last_zero. Qed.

(** ** Further properties of the session

    *** Commands and their responses *)

Lemma send_command_connected command_type params s :
  connected s = true ->
  send_command command_type params s
  = let index := message_index s + 1 in
    let request := command_payload index (CommandType_value command_type)
                     (strftime (clock (ticks s))) params in
    let registered :=
      set_pending_commands
        (<[index := {| pc_type := command_type; pc_params := params;
                       pc_timestamp := clock (S (ticks s));
                       pc_status := "pending"; pc_response := JNull |}]>
           (pending_commands s))
        (set_ticks (S (S (ticks s)))
           (set_message_index index s)) in
    match publish_error (publish_topic REQUEST s) request with
    | None =>
        (Val index,
         set_console (console s ++ [LogCommandSent (CommandType_value command_type)
                                      (publish_topic REQUEST s) params])
           (set_published (published s ++ [(publish_topic REQUEST s, request)])
              registered))
    | Some e => (Raise e, registered)
    end.
Proof.
  intros Hon. unfold send_command. mred. rewrite Hon. cbn.
  rewrite _get_topic_publish. cbn.
  by destruct (publish_error _ _).
Qed.

(** The pending table after a command on a connected session, whether or not
    the client accepts the request. *)
Lemma send_command_registers command_type params s :
  connected s = true ->
  pending_commands (exec (send_command command_type params) s)
  = <[message_index s + 1 := {| pc_type := command_type; pc_params := params;
                                pc_timestamp := clock (S (ticks s));
                                pc_status := "pending"; pc_response := JNull |}]>
      (pending_commands s).
Proof.
  intros Hon. unfold exec. rewrite (send_command_connected _ _ _ Hon). cbn.
  by destruct (publish_error _ _).
Qed.

(** X1.  A command and the response that carries its index.  On a connected
    session the command is registered as pending under the next message index
    before the request is handed to the client, so it is registered whether
    the client accepts the request or raises on it; the call returns that
    index in the first case and raises what the client raised in the second.
    A response that carries the index then turns the entry to completed and
    stores the envelope on it, whatever the body of the response is, and
    every other entry stays as it was before the command. *)
Theorem command_response_round_trip command_type params response header s :
  connected s = true ->
  py_dict_get response "header" (JObj []) = Some header ->
  py_dict_get header "index" JNull = Some (JInt (message_index s + 1)) ->
  let index := message_index s + 1 in
  let request :=
    JObj [("header", JObj [("index", JInt index);
                           ("version", JStr "1.0");
                           ("function", JStr (CommandType_value command_type));
                           ("timestamp", JStr (strftime (clock (ticks s))))]);
          ("dataBody", params)] in
  let issued := exec (send_command command_type params) s in
  let answered := exec (_on_message_response response) issued in
  result (send_command command_type params) s
    = match publish_error (publish_topic REQUEST s) request with
      | None => Val index
      | Some e => Raise e
      end /\
  pending_commands issued !! index
    = Some {| pc_type := command_type; pc_params := params;
              pc_timestamp := clock (S (ticks s));
              pc_status := "pending"; pc_response := JNull |} /\
  pending_commands answered !! index
    = Some {| pc_type := command_type; pc_params := params;
              pc_timestamp := clock (S (ticks s));
              pc_status := "completed"; pc_response := response |} /\
  forall z, z <> index -> pending_commands answered !! z = pending_commands s !! z.
Proof.
  intros Hon Hheader Hindex index request issued answered.
  pose proof (send_command_connected command_type params s Hon) as Hrun.
  pose proof (send_command_registers command_type params s Hon) as Hissued.
  fold issued index in Hissued.
  assert (pending_commands answered
          = <[index := respond response (complete
                {| pc_type := command_type; pc_params := params;
                   pc_timestamp := clock (S (ticks s));
                   pc_status := "pending"; pc_response := JNull |})]>
              (pending_commands issued)) as Hanswered.
  { unfold answered, _on_message_response.
    rewrite (try_except_frame pending_commands) by done.
    eapply _handle_response_message_matched; [done|done|done|done|].
    rewrite Hissued. apply lookup_insert_eq. }
  split.
  { unfold result. rewrite Hrun. cbn. fold index.
    change (command_payload index (CommandType_value command_type)
              (strftime (clock (ticks s))) params) with request.
    by destruct (publish_error _ _). }
  split; [by rewrite Hissued, lookup_insert_eq|].
  split; [by rewrite Hanswered, lookup_insert_eq|].
  intros z Hz. by rewrite Hanswered, Hissued, !lookup_insert_ne.
Qed.

Lemma send_command_off command_type params s :
  connected s = false ->
  send_command command_type params s
  = (Val (-1), set_console (console s ++ [LogNotConnected]) s).
Proof. intros Hoff. unfold send_command. mred. by rewrite Hoff. Qed.

Lemma send_rate_model_set_rejected rate_model_id effect effect_date
    rate_list rate_details_list function_id s :
  connected s = false \/ rate_segments_invalid rate_list rate_details_list = true ->
  exists line,
    send_rate_model_set rate_model_id effect effect_date rate_list
      rate_details_list function_id s
    = (Val (-1), set_console (console s ++ [line]) s).
Proof.
  intros Hbad. unfold send_rate_model_set. mred.
  destruct (connected s); cbn; [|eauto].
  destruct Hbad as [|Hinv]; [done|]. rewrite Hinv. cbn. eauto.
Qed.

Lemma preserves__handle_event_message {B : Type} (f : state -> B) payload :
  (forall v s, f (set_ticks v s) = f s) ->
  (forall v s, f (set_console v s) = f s) ->
  (forall v s, f (set_published v s) = f s) ->
  (forall v s, f (set_last_heartbeat v s) = f s) ->
  (forall v s, f (set_total_money v s) = f s) ->
  (forall v s, f (set_charge_records v s) = f s) ->
  (forall v s, f (set_discharge_records v s) = f s) ->
  (forall v s, f (set_charge_order_sns v s) = f s) ->
  (forall v s, f (set_discharge_order_sns v s) = f s) ->
  (forall v s, f (set_event_logs v s) = f s) ->
  preserves f (_handle_event_message payload).
Proof.
  intros Ht Hc Hp Hh Hm Hcr Hdr Hcs Hds He. unfold _handle_event_message.
  frame_with ltac:(first
    [ by apply preserves__send_confirm
    | by apply preserves_now
    | by apply preserves_print
    | apply preserves_modify; intros ?;
      first [apply Hh | apply He | apply Hm | apply Hcr | apply Hdr
             | apply Hcs | apply Hds] ]).
Qed.

Lemma preserves__on_message_event {B : Type} (f : state -> B) payload :
  (forall v s, f (set_ticks v s) = f s) ->
  (forall v s, f (set_console v s) = f s) ->
  (forall v s, f (set_published v s) = f s) ->
  (forall v s, f (set_last_heartbeat v s) = f s) ->
  (forall v s, f (set_total_money v s) = f s) ->
  (forall v s, f (set_charge_records v s) = f s) ->
  (forall v s, f (set_discharge_records v s) = f s) ->
  (forall v s, f (set_charge_order_sns v s) = f s) ->
  (forall v s, f (set_discharge_order_sns v s) = f s) ->
  (forall v s, f (set_event_logs v s) = f s) ->
  preserves f (_on_message_event payload).
Proof.
  intros. unfold _on_message_event.
  apply preserves_try_except; [by apply preserves__handle_event_message | done].
Qed.

Lemma preserves__on_message_response {B : Type} (f : state -> B) payload :
  (forall v s, f (set_console v s) = f s) ->
  (forall v s, f (set_pending_commands v s) = f s) ->
  preserves f (_on_message_response payload).
Proof.
  intros Hc Hp. unfold _on_message_response.
  apply preserves_try_except; [|done]. unfold _handle_response_message.
  frame_with ltac:(first
    [ by apply preserves_print
    | apply preserves_modify; intros ?; apply Hp ]).
Qed.

Lemma pending_bounded_dom s s' :
  dom (pending_commands s') = dom (pending_commands s) ->
  message_index s <= message_index s' ->
  pending_bounded s -> pending_bounded s'.
Proof.
  intros Hdom Hle Hs z Hz%elem_of_dom. rewrite Hdom in Hz.
  apply elem_of_dom, Hs in Hz. lia.
Qed.

(** X2.  The indices of the pending commands never exceed the session counter:
    this holds in a fresh session and is kept by commands, rate-model
    requests, events and responses.  Hence a command is always registered
    under an index no earlier command has, and never replaces an entry. *)
Theorem pending_indices_fresh :
  (forall product device, pending_bounded (__init__ product device)) /\
  (forall s, pending_bounded s ->
     (forall command_type params,
        pending_bounded (exec (send_command command_type params) s)) /\
     (forall rate_model_id effect effect_date rate_list rate_details_list function_id,
        pending_bounded (exec (send_rate_model_set rate_model_id effect effect_date
                                 rate_list rate_details_list function_id) s)) /\
     (forall payload, pending_bounded (exec (_on_message_event payload) s)) /\
     (forall payload, pending_bounded (exec (_on_message_response payload) s))) /\
  (forall s command_type params z cmd,
     pending_bounded s ->
     pending_commands s !! z = Some cmd ->
     pending_commands (exec (send_command command_type params) s) !! z = Some cmd).
Proof.
  split; [|split].
  - intros product device z [cmd Hz]. cbn in Hz. by rewrite lookup_empty in Hz.
  - intros s Hs. repeat split.
    + intros command_type params. unfold exec.
      destruct (connected s) eqn:Hc.
      * rewrite send_command_connected by done. unfold pending_bounded. cbn.
        destruct (publish_error _ _); cbn;
          (intros z [Hz|[_ Hz]]%lookup_insert_is_Some; [lia|]);
          apply Hs in Hz; lia.
      * by rewrite send_command_off.
    + intros rate_model_id effect effect_date rate_list rate_details_list function_id.
      unfold exec.
      destruct (connected s) eqn:Hc;
        [destruct (rate_segments_invalid rate_list rate_details_list) eqn:Hv|].
      * by destruct (send_rate_model_set_rejected rate_model_id effect effect_date
                       rate_list rate_details_list function_id s (or_intror Hv))
          as [line ->].
      * rewrite send_rate_model_set_accepted by done. unfold pending_bounded. cbn.
        destruct (publish_error _ _); cbn; intros z Hz%Hs; lia.
      * by destruct (send_rate_model_set_rejected rate_model_id effect effect_date
                       rate_list rate_details_list function_id s (or_introl Hc))
          as [line ->].
    + intros payload.
      pose proof (preserves__on_message_event
                    (fun s => (pending_commands s, message_index s)) payload
                    ltac:(done) ltac:(done) ltac:(done) ltac:(done) ltac:(done)
                    ltac:(done) ltac:(done) ltac:(done) ltac:(done) ltac:(done) s)
        as [= Hp Hm].
      apply (pending_bounded_dom s); [by rewrite Hp | lia | done].
    + intros payload.
      pose proof (preserves__on_message_response message_index payload
                    ltac:(done) ltac:(done) s) as Hm.
      apply (pending_bounded_dom s); [|lia|done].
      unfold _on_message_response.
      rewrite (try_except_frame (fun s => dom (pending_commands s))) by done.
      apply preserves_dom__handle_response_message.
  - intros s command_type params z cmd Hs Hz. unfold exec.
    destruct (connected s) eqn:Hc.
    + fold (exec (send_command command_type params) s).
      rewrite send_command_registers by done.
      rewrite lookup_insert_ne; [done|].
      assert (z <= message_index s) by (apply Hs; eauto). lia.
    + by rewrite send_command_off.
Qed.

(** X3.  A rate-model request sent after a command reuses the command's index.
    The command is registered as pending under the next message index, whether
    or not the client accepts its request.  The rate-model request that
    follows carries that same index in its header, and the session counter
    moves one further; when the client accepts the request it is the last
    message published and the call returns the moved counter, when the client
    raises the call raises the same and publishes nothing.  Either way a
    response that carries the index completes the pending command. *)
Theorem rate_model_index_collision command_type params rate_model_id effect
    effect_date (rate_list rate_details_list : list json) function_id
    response header (s : state) :
  connected s = true ->
  rate_segments_invalid rate_list rate_details_list = false ->
  py_dict_get response "header" (JObj []) = Some header ->
  py_dict_get header "index" JNull = Some (JInt (message_index s + 1)) ->
  let index := message_index s + 1 in
  let issued := exec (send_command command_type params) s in
  let rate_call := send_rate_model_set rate_model_id effect effect_date rate_list
                     rate_details_list function_id in
  let answered := exec (_on_message_response response) (exec rate_call issued) in
  pending_commands issued !! index
    = Some {| pc_type := command_type; pc_params := params;
              pc_timestamp := clock (S (ticks s));
              pc_status := "pending"; pc_response := JNull |} /\
  message_index issued = index /\
  message_index (exec rate_call issued) = index + 1 /\
  (exists request request_header,
     py_dict_get request "header" (JObj []) = Some request_header /\
     py_dict_get request_header "index" JNull = Some (JInt index) /\
     py_dict_get request_header "function" JNull = Some (JStr function_id) /\
     match publish_error (publish_topic REQUEST s) request with
     | None =>
         result rate_call issued = Val (index + 1) /\
         last (published (exec rate_call issued))
         = Some (publish_topic REQUEST s, request)
     | Some e =>
         result rate_call issued = Raise e /\
         published (exec rate_call issued) = published issued
     end) /\
  pending_commands answered !! index
    = Some {| pc_type := command_type; pc_params := params;
              pc_timestamp := clock (S (ticks s));
              pc_status := "completed"; pc_response := response |}.
Proof.
  intros Hon Hok Hheader Hindex index issued rate_call answered.
  pose proof (send_command_connected command_type params s Hon) as Hrun.
  pose proof (send_command_registers command_type params s Hon) as Hissued.
  fold issued index in Hissued.
  assert (connected issued = true /\ message_index issued = index /\
          publish_topic REQUEST issued = publish_topic REQUEST s)
    as (Hon' & Hidx & Htopic).
  { unfold issued, exec. rewrite Hrun. cbn. by destruct (publish_error _ _). }
  assert (pending_commands issued !! index
          = Some {| pc_type := command_type; pc_params := params;
                    pc_timestamp := clock (S (ticks s));
                    pc_status := "pending"; pc_response := JNull |})
    as Hpending by (by rewrite Hissued, lookup_insert_eq).
  pose proof (send_rate_model_set_accepted rate_model_id effect effect_date
                rate_list rate_details_list function_id issued Hon' Hok) as Hrate.
  fold rate_call in Hrate. cbn zeta in Hrate. rewrite Htopic, Hidx in Hrate.
  assert (pending_commands (exec rate_call issued) = pending_commands issued)
    as Hkept.
  { unfold exec. rewrite Hrate. by destruct (publish_error _ _). }
  split; [done|]. split; [done|].
  split; [unfold exec; rewrite Hrate; by destruct (publish_error _ _)|].
  split.
  - exists (rate_model_payload (strftime (clock (ticks issued))) index
              function_id rate_model_id effect effect_date rate_list
              rate_details_list).
    eexists. split; [reflexivity|]. split; [reflexivity|].
    split; [reflexivity|].
    unfold result, exec. rewrite Hrate.
    destruct (publish_error _ _); cbn; [done|].
    split; [done|]. by rewrite last_snoc.
  - assert (pending_commands answered
            = <[index := respond response (complete
                  {| pc_type := command_type; pc_params := params;
                     pc_timestamp := clock (S (ticks s));
                     pc_status := "pending"; pc_response := JNull |})]>
                (pending_commands (exec rate_call issued))) as ->.
    { unfold answered, _on_message_response.
      rewrite (try_except_frame pending_commands) by done.
      eapply _handle_response_message_matched; [done|done|done|done|].
      by rewrite Hkept. }
    by rewrite lookup_insert_eq.
Qed.

(** X4.  The liveness query is not consulted by the commands: a session whose
    station has been silent for longer than the timeout answers the query
    with false and still issues the command.  The command takes the next
    message index and is registered as pending under it, and its request is
    handed to the client: when the client accepts it, it is published and the
    call returns the index; when the client raises, the call raises the same
    and nothing is published. *)
Theorem stale_session_accepts_commands command_type params seen (s : state) :
  connected s = true ->
  last_heartbeat s = Some seen ->
  connection_timeout s * 1000000 < clock (ticks s) - seen ->
  let index := message_index s + 1 in
  let request :=
    JObj [("header", JObj [("index", JInt index);
                           ("version", JStr "1.0");
                           ("function", JStr (CommandType_value command_type));
                           ("timestamp", JStr (strftime (clock (ticks s))))]);
          ("dataBody", params)] in
  let issued := exec (send_command command_type params) s in
  result check_connection_status s = Val false /\
  message_index issued = index /\
  pc_status <$> pending_commands issued !! index = Some "pending" /\
  match publish_error (publish_topic REQUEST s) request with
  | None =>
      result (send_command command_type params) s = Val index /\
      published issued = published s ++ [(publish_topic REQUEST s, request)]
  | Some e =>
      result (send_command command_type params) s = Raise e /\
      published issued = published s
  end.
Proof.
  intros Hon Hseen Hlate index request issued.
  pose proof (send_command_connected command_type params s Hon) as Hrun.
  cbn zeta in Hrun. fold index in Hrun.
  change (command_payload index (CommandType_value command_type)
            (strftime (clock (ticks s))) params) with request in Hrun.
  split; [|split; [|split]].
  - unfold result, check_connection_status. mred. rewrite Hon. cbn.
    rewrite Hseen. cbn. unfold total_seconds_le. f_equal. by apply Z.leb_gt.
  - unfold issued, exec. rewrite Hrun. by destruct (publish_error _ _).
  - unfold issued. rewrite send_command_registers by done.
    fold index. by rewrite lookup_insert_eq.
  - unfold issued, result, exec. rewrite Hrun.
    by destruct (publish_error _ _).
Qed.

(** *** Inbound traffic *)

(** X5.  Events and responses, whatever their payload and whether or not the
    client accepts the confirmation, leave the connectivity flag, the message
    counter, the command history, the timeout and the topic configuration
    alone, that is the product and device codes, the topic mode and the
    manual topics for subscribing and for publishing; events never touch the
    pending commands; responses never touch the ledger, the records, the
    running total, the outbox, the time of the last message or the clock, so
    a response changes nothing but the pending commands and the console. *)
Theorem inbound_traffic_frame (payload : json) (s : state) :
  let after_event := exec (_on_message_event payload) s in
  let after_response := exec (_on_message_response payload) s in
  (connected after_event, message_index after_event, command_history after_event,
   connection_timeout after_event, product_code after_event,
   device_code after_event, use_auto_topic after_event,
   manual_topics_subscribe after_event, manual_topics_publish after_event,
   pending_commands after_event)
  = (connected s, message_index s, command_history s, connection_timeout s,
     product_code s, device_code s, use_auto_topic s,
     manual_topics_subscribe s, manual_topics_publish s, pending_commands s) /\
  (connected after_response, message_index after_response,
   command_history after_response, connection_timeout after_response,
   product_code after_response, device_code after_response,
   use_auto_topic after_response, manual_topics_subscribe after_response,
   manual_topics_publish after_response)
  = (connected s, message_index s, command_history s, connection_timeout s,
     product_code s, device_code s, use_auto_topic s,
     manual_topics_subscribe s, manual_topics_publish s) /\
  (event_logs after_response, charge_records after_response,
   discharge_records after_response, charge_order_sns after_response,
   discharge_order_sns after_response, total_money after_response,
   published after_response, last_heartbeat after_response, ticks after_response)
  = (event_logs s, charge_records s, discharge_records s, charge_order_sns s,
     discharge_order_sns s, total_money s, published s, last_heartbeat s,
     ticks s) /\
  after_response
  = set_console (console after_response)
      (set_pending_commands (pending_commands after_response) s).
Proof.
  intros after_event after_response.
  pose proof (preserves__on_message_event command_side payload
                ltac:(done) ltac:(done) ltac:(done) ltac:(done) ltac:(done)
                ltac:(done) ltac:(done) ltac:(done) ltac:(done) ltac:(done) s)
    as Hevent.
  pose proof (preserves__on_message_event pending_commands payload
                ltac:(done) ltac:(done) ltac:(done) ltac:(done) ltac:(done)
                ltac:(done) ltac:(done) ltac:(done) ltac:(done) ltac:(done) s)
    as Hpending.
  pose proof (preserves__on_message_response command_side payload
                ltac:(done) ltac:(done) s) as Hcommand.
  pose proof (preserves__on_message_response event_side payload
                ltac:(done) ltac:(done) s) as Hside.
  fold after_event in Hevent, Hpending. fold after_response in Hcommand, Hside.
  unfold command_side in Hevent, Hcommand. unfold event_side in Hside.
  clearbody after_event after_response.
  split; [by rewrite Hpending; injection Hevent as -> -> -> -> -> -> -> -> ->|].
  split; [done|]. split; [done|].
  destruct after_response, s. cbn in *. by simplify_eq.
Qed.

Lemma refreshes_bind {A B : Type} (m : M A) (k : A -> M B) :
  preserves last_heartbeat m -> (forall a, refreshes (k a)) -> refreshes (m ≫= k).
Proof.
  intros Hm Hk s. specialize (Hm s). unfold exec, mbind, M_bind, bind in *.
  destruct (m s) as [[a|e] s1]; cbn in Hm; [|done].
  specialize (Hk a s1). destruct (k a s1) as [[b|e] s']; congruence.
Qed.

Lemma refreshes_now :
  refreshes (t' ← now; modify (set_last_heartbeat (Some t'))).
Proof. intros s. by mred. Qed.

(** X6.  An event refreshes the time of the last message only when it is handled
    to the end: on return that time is the last clock reading the handler
    took, and when the handler raises, whatever it had stored, the time is
    the one before the event. *)
Theorem event_refreshes_last_heartbeat (payload : json) (s : state) :
  match _handle_event_message payload s with
  | (Val _, s') => last_heartbeat s' = Some (clock (pred (ticks s')))
  | (Raise _, s') => last_heartbeat s' = last_heartbeat s
  end.
Proof.
  revert s. change (refreshes (_handle_event_message payload)).
  unfold _handle_event_message.
  do 12 (apply refreshes_bind;
         [frame_with ltac:(first
            [ by apply preserves__send_confirm
            | by apply preserves_now
            | by apply preserves_print
            | apply preserves_modify; intros ?; reflexivity ])
         | intros ?]).
  apply refreshes_now.
Qed.

(** *** The running total over arbitrary traffic *)

Lemma total_money_event payload s :
  total_money (exec (_on_message_event payload) s) = add_cost (total_money s) payload.
Proof.
  unfold _on_message_event. rewrite (try_except_frame total_money) by done.
  unfold add_cost.
  destruct (is_envelope payload) eqn:Henv.
  - destruct (is_envelope_event_of _ (isoformat (clock (ticks s))) Henv)
      as (header & data_body & function & event & Hh & Hb & Hf & He).
    rewrite (_handle_event_message_exec _ _ _ _ _ _ Hh Hb Hf He).
    rewrite (after_ledger_frame total_money) by done.
    unfold is_envelope in Henv. rewrite Hh in Henv.
    destruct header as [| | | | |h|]; try done. cbn in Hf. simplify_eq.
    unfold event_cost, record_step. rewrite Hh, Hb.
    destruct (py_eq_str (field h "function" JNull) "chargeRecord"); cbv beta iota.
    + destruct data_body as [| | | | |b|];
        try (by rewrite _process_charge_record_raise by (intros b'; congruence)).
      unfold exec. rewrite (_process_charge_record_run payload b _ Hb). cbn.
      destruct (py_truthy (field b "orderSn" JNull)); [|done].
      destruct (py_hash_key (field b "orderSn" JNull)); [|done].
      destruct (py_number (field b "totalMoney" (JInt 0))) as [amount|];
      [destruct (py_add _ amount)|]; done.
    + destruct (py_eq_str (field h "function" JNull) "dischargeRecord");
        cbv beta iota; [|unfold exec, ret; cbn; by destruct data_body].
      destruct data_body as [| | | | |b|];
        try (by rewrite _process_discharge_record_raise by (intros b'; congruence)).
      unfold exec. rewrite (_process_discharge_record_run payload b _ Hb). cbn.
      destruct (py_truthy (field b "orderSn" JNull)); [|done].
      destruct (py_hash_key (field b "orderSn" JNull)); [|done].
      destruct (py_number (field b "totalMoney" (JInt 0))) as [amount|];
      [destruct (py_add _ amount)|]; done.
  - unfold exec. rewrite _handle_event_message_raise by done.
    unfold is_envelope, event_cost in *. cbn.
    by destruct (py_dict_get payload "header" (JObj [])) as [[| | | | |h|]|].
Qed.

(** X7.  Whatever is delivered, the running total ends as its value before
    with the costs of the well-formed charge and discharge records among the
    events added to it one after the other as Python adds them, [int] or
    [float], each as often as it was delivered; every other event, malformed
    ones included, adds nothing, and so does a cost whose sum with the total
    overflows.  When the total is an [int] and no cost is a [float], the
    total ends as its value before plus the sum of the costs. *)
Theorem total_money_is_sum_of_costs (payloads : list json) (s : state) :
  total_money (deliver_events payloads s) = foldl add_cost (total_money s) payloads /\
  (forall a,
     total_money s = PInt a ->
     forallb (fun p => match event_cost p with
                       | Some (PFloat _) => false
                       | _ => true
                       end) payloads = true ->
     total_money (deliver_events payloads s)
     = PInt (a + foldr Z.add 0 (int_cost <$> payloads))).
Proof.
  assert (forall s, total_money (deliver_events payloads s)
                    = foldl add_cost (total_money s) payloads) as Hfold.
  { induction payloads as [|p ps IH]; intros s'; [done|].
    unfold deliver_events in *. cbn [foldl].
    by rewrite IH, total_money_event. }
  split; [apply Hfold|].
  intros a Ha Hints. rewrite Hfold, Ha. clear Hfold Ha s.
  revert a Hints. induction payloads as [|p ps IH]; intros a Hints.
  - cbn. f_equal. lia.
  - cbn [forallb] in Hints. apply andb_prop in Hints as [Hp Hps].
    cbn [foldl fmap list_fmap foldr].
    unfold add_cost at 2, int_cost at 1.
    destruct (event_cost p) as [[c|f]|]; [| done |].
    + cbn. rewrite IH by done. f_equal; lia.
    + rewrite IH by done. f_equal; lia.
Qed.

(** *** Records, index lists and queries *)

Lemma index_append_exact key record (records : gmap pykey json) (sns : list pykey) :
  dom records = list_to_set sns ->
  dom (<[key := record]> records) = list_to_set (index_append key sns).
Proof.
  intros Hdom. rewrite dom_insert_L, Hdom. unfold index_append.
  case_bool_decide as Hin.
  - apply (elem_of_list_to_set (C:=gset pykey)) in Hin.
    apply (subseteq_union_1_L (C:=gset pykey)), singleton_subseteq_l, Hin.
  - rewrite list_to_set_snoc_L. apply (comm_L (∪)).
Qed.

Lemma record_step_exact function payload s :
  index_exact s -> index_exact (exec (record_step function payload) s).
Proof.
  intros [Hcharge Hdischarge]. unfold record_step.
  destruct (py_eq_str function "chargeRecord");
    [|destruct (py_eq_str function "dischargeRecord"); [|done]].
  - destruct (py_dict_get payload "dataBody" (JObj [])) as [[| | | | |b|]|] eqn:Hb;
      try by rewrite _process_charge_record_raise by (intros b'; congruence).
    unfold exec. rewrite (_process_charge_record_run payload b s Hb). cbn.
    destruct (py_truthy (field b "orderSn" JNull)); [|done].
    destruct (py_hash_key (field b "orderSn" JNull)) as [key|]; [|done].
    destruct (py_number (field b "totalMoney" (JInt 0))) as [amount|];
      [destruct (py_add _ amount)|]; cbn;
      (split; [by apply index_append_exact | done]).
  - destruct (py_dict_get payload "dataBody" (JObj [])) as [[| | | | |b|]|] eqn:Hb;
      try by rewrite _process_discharge_record_raise by (intros b'; congruence).
    unfold exec. rewrite (_process_discharge_record_run payload b s Hb). cbn.
    destruct (py_truthy (field b "orderSn" JNull)); [|done].
    destruct (py_hash_key (field b "orderSn" JNull)) as [key|]; [|done].
    destruct (py_number (field b "totalMoney" (JInt 0))) as [amount|];
      [destruct (py_add _ amount)|]; cbn;
      (split; [done | by apply index_append_exact]).
Qed.

Lemma _on_message_event_exact payload s :
  index_exact s -> index_exact (exec (_on_message_event payload) s).
Proof.
  intros Hs.
  set (view := fun s => (charge_order_sns s, charge_records s,
                          discharge_order_sns s, discharge_records s)).
  assert (forall s1 s2, view s1 = view s2 -> index_exact s2 -> index_exact s1)
    as Hview by (intros s1 s2 [= H1 H2 H3 H4]; unfold index_exact;
                 by rewrite H1, H2, H3, H4).
  unfold _on_message_event.
  eapply Hview; [apply (try_except_frame view); done|].
  destruct (is_envelope payload) eqn:Henv.
  - destruct (is_envelope_event_of _ (isoformat (clock (ticks s))) Henv)
      as (header & data_body & function & event & Hh & Hb & Hf & He).
    eapply Hview.
    { rewrite (_handle_event_message_exec _ _ _ _ _ _ Hh Hb Hf He).
      by apply (after_ledger_frame view). }
    by apply record_step_exact.
  - unfold exec. by rewrite _handle_event_message_raise.
Qed.

Lemma deliver_events_exact payloads s :
  index_exact s -> index_exact (deliver_events payloads s).
Proof.
  revert s. induction payloads as [|p ps IH]; intros s Hs; [done|].
  unfold deliver_events in *. cbn [foldl]. by apply IH, _on_message_event_exact.
Qed.

(** X8.  In every session reached from a fresh one by inbound events, whatever
    their payloads, each record table holds exactly the identifiers of its
    index list, each once: the number of stored records is the length of the
    index list. *)
Theorem records_match_index (product device : string) (payloads : list json) :
  let s := deliver_events payloads (__init__ product device) in
  index_consistent s /\ index_exact s /\
  size (charge_records s) = length (charge_order_sns s) /\
  size (discharge_records s) = length (discharge_order_sns s).
Proof.
  intros s.
  assert (index_consistent s) as Hc
    by apply deliver_events_consistent, index_consistent_init.
  assert (index_exact s) as He.
  { apply deliver_events_exact. split; cbn; by rewrite dom_empty_L. }
  split; [done|]. split; [done|].
  destruct Hc as [[Hnc _] [Hnd _]], He as [Hec Hed].
  rewrite <- (size_dom (D:=gset pykey) (charge_records s)), Hec.
  rewrite <- (size_dom (D:=gset pykey) (discharge_records s)), Hed.
  by rewrite !size_list_to_set.
Qed.

(** X9.  In every session reached from a fresh one by inbound events, the
    unfiltered queries with a count of at least 1 return, without raising or
    changing the session, the records of the most recently indexed order
    identifiers, newest first: [count] of them, or all when fewer are
    stored. *)
Theorem recent_records_of_session (product device : string) (payloads : list json)
    (count : Z) :
  0 < count ->
  let s := deliver_events payloads (__init__ product device) in
  (exists records,
     get_charge_records count JNull s = (Val records, s) /\
     length records = Nat.min (Z.to_nat count) (length (charge_order_sns s)) /\
     Forall2 (fun k r => charge_records s !! k = Some r)
       (take (Z.to_nat count) (reverse (charge_order_sns s))) records) /\
  (exists records,
     get_discharge_records count JNull s = (Val records, s) /\
     length records = Nat.min (Z.to_nat count) (length (discharge_order_sns s)) /\
     Forall2 (fun k r => discharge_records s !! k = Some r)
       (take (Z.to_nat count) (reverse (discharge_order_sns s))) records).
Proof.
  intros Hpos s.
  assert (index_consistent s) as [[_ Hc] [_ Hd]]
    by apply deliver_events_consistent, index_consistent_init.
  split.
  - destruct (get_charge_records_recent count s Hpos Hc) as (records & Hrun & Hall).
    exists records. split; [done|]. split; [|done].
    by rewrite <- (Forall2_length _ _ _ Hall), length_take, length_reverse.
  - destruct (get_discharge_records_recent count s Hpos Hd) as (records & Hrun & Hall).
    exists records. split; [done|]. split; [|done].
    by rewrite <- (Forall2_length _ _ _ Hall), length_take, length_reverse.
Qed.

(** X10.  A charge record can be read back: once an event that carries it has been
    delivered, the charge query filtered by its order identifier returns
    exactly the record built from that event, for every count; the discharge
    table is not affected, so the discharge queries answer as before.  The
    same holds with the two kinds exchanged. *)
Theorem record_read_back (key : pykey) (payload : json) (count : Z)
    (other_count : Z) (other : json) (s : state) :
  let order_sn := field (body_items payload) "orderSn" JNull in
  let s' := exec (_on_message_event payload) s in
  (carries "chargeRecord" key payload = true ->
     (exists created_at,
        result (get_charge_records count order_sn) s'
        = Val [charge_record_of (body_items payload) created_at]) /\
     result (get_discharge_records other_count other) s'
     = result (get_discharge_records other_count other) s) /\
  (carries "dischargeRecord" key payload = true ->
     (exists created_at,
        result (get_discharge_records count order_sn) s'
        = Val [discharge_record_of (body_items payload) created_at]) /\
     result (get_charge_records other_count other) s'
     = result (get_charge_records other_count other) s).
Proof.
  intros order_sn s'. subst order_sn s'. split; intros Hc.
  - destruct (carries_inv _ _ _ Hc) as (h & b & Hh & Hb & Hitems & Hname & Horder & Hkey).
    destruct (charge_record_step key payload s Hc) as [_ [created_at Hrec]].
    split.
    + exists created_at. unfold result. rewrite Hitems.
      rewrite (get_charge_records_filtered count _ key) by done. cbn.
      rewrite Hrec, lookup_insert_eq. by rewrite Hitems.
    + destruct (carries_event_of _ _ _ (isoformat (clock (ticks s))) Hc) as [event He].
      pose proof (_on_message_event_frame
                    (fun s => (discharge_records s, discharge_order_sns s))
                    _ _ _ _ s Hh Hb He ltac:(done) ltac:(done) ltac:(done) ltac:(done))
        as Hframe.
      unfold record_step in Hframe. rewrite Hname in Hframe.
      unfold exec in Hframe.
      rewrite (_process_charge_record_run _ _ _ Hb) in Hframe. cbn in Hframe.
      rewrite Horder, Hkey in Hframe.
      assert (discharge_records (exec (_on_message_event payload) s)
              = discharge_records s /\
              discharge_order_sns (exec (_on_message_event payload) s)
              = discharge_order_sns s) as [Hr Hs].
      { unfold exec. destruct (py_number (field b "totalMoney" (JInt 0))) as [amount|];
          [destruct (py_add _ amount)|];
          cbn in Hframe; by injection Hframe. }
      unfold result, get_discharge_records. mred.
      destruct (py_truthy other); cbn.
      * destruct (py_hash_key other); cbn; [by rewrite Hr | done].
      * by rewrite Hr, Hs.
  - destruct (carries_inv _ _ _ Hc) as (h & b & Hh & Hb & Hitems & Hname & Horder & Hkey).
    destruct (discharge_record_step key payload s Hc) as [_ [created_at Hrec]].
    split.
    + exists created_at. unfold result. rewrite Hitems.
      rewrite (get_discharge_records_filtered count _ key) by done. cbn.
      rewrite Hrec, lookup_insert_eq. by rewrite Hitems.
    + destruct (carries_event_of _ _ _ (isoformat (clock (ticks s))) Hc) as [event He].
      pose proof (_on_message_event_frame
                    (fun s => (charge_records s, charge_order_sns s))
                    _ _ _ _ s Hh Hb He ltac:(done) ltac:(done) ltac:(done) ltac:(done))
        as Hframe.
      unfold record_step in Hframe.
      destruct (field h "function" JNull) as [| | |name| | |]; try done.
      cbn in Hname. apply String.eqb_eq in Hname as ->. cbn in Hframe.
      unfold exec in Hframe.
      rewrite (_process_discharge_record_run _ _ _ Hb) in Hframe. cbn in Hframe.
      rewrite Horder, Hkey in Hframe.
      assert (charge_records (exec (_on_message_event payload) s)
              = charge_records s /\
              charge_order_sns (exec (_on_message_event payload) s)
              = charge_order_sns s) as [Hr Hs].
      { unfold exec. destruct (py_number (field b "totalMoney" (JInt 0))) as [amount|];
          [destruct (py_add _ amount)|];
          cbn in Hframe; by injection Hframe. }
      unfold result, get_charge_records. mred.
      destruct (py_truthy other); cbn.
      * destruct (py_hash_key other); cbn; [by rewrite Hr | done].
      * by rewrite Hr, Hs.
Qed.

(** ** The whole object at work *)

Section WholeObject.

Variable strptime : string -> option Z.
Variable order_stamp : Z -> string.
Variable decode_utf8 : string -> option string.
Variable strip : string -> string.
Variable json_loads : string -> option json.

#[local] Arguments send_command : simpl never.
#[local] Arguments check_connection_status : simpl never.
#[local] Arguments _on_message_event : simpl never.
#[local] Arguments _on_message_response : simpl never.
#[local] Arguments _handle_heartbeat : simpl never.
#[local] Arguments _handle_state_message : simpl never.
#[local] Arguments _subscribe_topics : simpl never.
#[local] Arguments record_history : simpl never.
#[local] Arguments _generate_order_sn : simpl never.

Ltac mmred :=
  repeat (progress (unfold mbind, MM_bind, mm_bind, mret, MM_ret, mm_ret, lift,
                    attribute, assign, announce, client, mm_exec, mm_result);
          cbn -[Nat.ltb]).

Lemma with_core_core x : with_core (core x) x = x.
Proof. by destruct x. Qed.

Lemma mm_try_except_lift (m : M unit) x :
  mm_try_except (lift m) x = lift (try_except m) x.
Proof.
  unfold mm_try_except, lift, try_except.
  by destruct (m (core x)) as [[a|e] s'].
Qed.

(** *** Substrings *)

Lemma no_slash_head d needle :
  py_str_in "/" (String d needle) = false ->
  forall b, String.prefix (String d needle) ("/" +:+ b) = false.
Proof.
  cbn [py_str_in String.prefix]. intros Hfree b.
  destruct (Ascii.ascii_dec _ d) as [<-|Hne] in Hfree; [by destruct needle|].
  unfold String.append. cbn [String.prefix].
  by destruct (Ascii.ascii_dec d _) as [->|].
Qed.

Lemma prefix_no_slash needle a b :
  py_str_in "/" needle = false ->
  String.prefix needle (a +:+ "/" +:+ b) = String.prefix needle a.
Proof.
  revert needle. induction a as [|c a IH]; intros [|d needle] Hfree; try done.
  - by apply no_slash_head.
  - change (String c a +:+ "/" +:+ b) with (String c (a +:+ "/" +:+ b)).
    cbn [String.prefix].
    destruct (Ascii.ascii_dec d c); [|done]. apply IH.
    cbn [py_str_in] in Hfree. by apply orb_false_elim in Hfree as [_ Hfree].
Qed.

Lemma py_str_in_slash needle a b :
  needle <> "" ->
  py_str_in "/" needle = false ->
  py_str_in needle (a +:+ "/" +:+ b) = py_str_in needle a || py_str_in needle b.
Proof.
  intros Hne Hfree. induction a as [|c a IH].
  - destruct needle as [|d needle]; [done|].
    pose proof (no_slash_head d needle Hfree b) as Hhead.
    change ("" +:+ "/" +:+ b) with ("/" +:+ b).
    unfold String.append in *. cbn [py_str_in]. rewrite Hhead. by cbn.
  - change (String c a +:+ "/" +:+ b) with (String c (a +:+ "/" +:+ b)).
    cbn [py_str_in]. rewrite IH.
    rewrite <- (prefix_no_slash needle (String c a) b Hfree).
    by rewrite orb_assoc.
Qed.

Lemma prefix_app needle a b :
  String.prefix needle a = true -> String.prefix needle (a +:+ b) = true.
Proof.
  revert needle. induction a as [|c a IH]; intros [|d needle] H; try done.
  - by destruct b.
  - change (String c a +:+ b) with (String c (a +:+ b)).
    cbn [String.prefix] in *.
    destruct (Ascii.ascii_dec d c); [by apply IH | done].
Qed.

Lemma py_str_in_app_l needle a b :
  py_str_in needle a = true -> py_str_in needle (a +:+ b) = true.
Proof.
  induction a as [|c a IH]; cbn [py_str_in]; intros H.
  - rewrite orb_false_r in H. destruct needle; [|done]. by destruct b.
  - change (String c a +:+ b) with (String c (a +:+ b)). cbn [py_str_in].
    apply orb_true_iff in H as [H|H].
    + pose proof (prefix_app _ (String c a) b H) as Hp.
      change (String c a +:+ b) with (String c (a +:+ b)) in Hp. by rewrite Hp.
    + by rewrite (IH H), orb_true_r.
Qed.

Lemma py_str_in_app_r needle a b :
  py_str_in needle b = true -> py_str_in needle (a +:+ b) = true.
Proof.
  intros H. induction a as [|c a IH]; [done|].
  change (String c a +:+ b) with (String c (a +:+ b)). cbn [py_str_in].
  by rewrite IH, orb_true_r.
Qed.

(** *** Topics and routing *)

Lemma _get_topic_subscribe message_type s :
  _get_topic message_type "subscribe" s = (Val (subscribe_topic message_type s), s).
Proof.
  unfold _get_topic, subscribe_topic. mred. by destruct (use_auto_topic s).
Qed.

Lemma auto_topic_mentions needle product device value :
  needle <> "" ->
  py_str_in "/" needle = false ->
  py_str_in needle (product +:+ "/" +:+ device +:+ "/" +:+ "S2M" +:+ "/" +:+ value)
  = py_str_in needle product || py_str_in needle device
    || py_str_in needle ("S2M" +:+ "/" +:+ value).
Proof.
  intros Hne Hfree. do 2 rewrite py_str_in_slash by done.
  by rewrite orb_assoc.
Qed.

Lemma auto_topic_mentions_value (s : state) (needle message_type : MessageType) :
  py_str_in (MessageType_value needle)
    (product_code s +:+ "/" +:+ device_code s +:+ "/" +:+ "S2M" +:+ "/"
     +:+ MessageType_value message_type)
  = codes_mention needle s || bool_decide (needle = message_type).
Proof.
  rewrite auto_topic_mentions by (by destruct needle).
  unfold codes_mention. f_equal. by destruct needle, message_type.
Qed.

(** X11.  In automatic topic mode, when neither the product code nor the device
    code contains the value of a message type, a message that arrives on the
    topic subscribed for a message type is classified as that type. *)
Theorem auto_topic_routing (s : state) (message_type : MessageType) :
  use_auto_topic s = true ->
  (forall mt, codes_mention mt s = false) ->
  classify s (subscribe_topic message_type s) = Some message_type.
Proof.
  intros Hauto Hclean. unfold classify, subscribe_topic, classify_auto.
  rewrite Hauto. cbn [find]. rewrite !auto_topic_mentions_value, !Hclean.
  by destruct message_type.
Qed.

(** X12.  In automatic topic mode, when the product code or the device code
    contains the value of a message type, the topics subscribed for the types
    that come later in the enumeration are classified as that type or an
    earlier one: their messages never reach their own handler. *)
Theorem auto_topic_misrouting (s : state) (early message_type : MessageType) :
  use_auto_topic s = true ->
  codes_mention early s = true ->
  (MessageType_position early < MessageType_position message_type)%nat ->
  exists other,
    classify s (subscribe_topic message_type s) = Some other /\
    (MessageType_position other <= MessageType_position early)%nat /\
    other <> message_type.
Proof.
  intros Hauto Hearly Hlt.
  assert (exists other,
            classify s (subscribe_topic message_type s) = Some other /\
            (MessageType_position other <= MessageType_position early)%nat)
    as (other & Hc & Hle).
  { unfold classify, subscribe_topic, classify_auto.
    rewrite Hauto. cbn [find]. rewrite !auto_topic_mentions_value.
    destruct early, message_type; cbn in Hlt; try lia; rewrite ?Hearly;
      repeat match goal with
             | |- context [codes_mention ?mt s] => destruct (codes_mention mt s)
             end;
      cbn; eexists; (split; [reflexivity | cbn; lia]). }
  exists other. split; [done|]. split; [done|]. intros ->. lia.
Qed.

Lemma find_unique {A : Type} (Q : A -> bool) (l : list A) (a : A) :
  a ∈ l -> Q a = true -> (forall b, b ∈ l -> Q b = true -> b = a) ->
  find Q l = Some a.
Proof.
  induction l as [|b l IH]; intros Hin Ha Huniq; [by apply elem_of_nil in Hin|].
  cbn [find]. destruct (Q b) eqn:Hb.
  - f_equal. apply Huniq; [left | done].
  - apply IH; [|done|].
    + apply elem_of_cons in Hin as [->|Hin]; [congruence | done].
    + intros c Hc. apply Huniq. by right.
Qed.

Lemma classify_manual_unique (topics : gmap MessageType string) topic message_type :
  topics !! message_type = Some topic ->
  (forall other, other <> message_type -> topics !! other <> Some topic) ->
  classify_manual topics topic = Some message_type.
Proof.
  clear publish_error strptime decode_utf8 strip json_loads.
  intros Hbound Huniq. unfold classify_manual. apply find_unique.
  - apply list_elem_of_filter. split; [by rewrite Hbound|].
    destruct message_type; set_solver.
  - by apply bool_decide_eq_true.
  - intros other _ Hother. apply bool_decide_eq_true in Hother.
    destruct (decide (other = message_type)) as [|Hne]; [done|].
    by destruct (Huniq other Hne).
Qed.

(** X13.  A manual subscribe topic can be set and is then the one in use: for a
    message type that has a manual subscribe topic, [set_manual_topic]
    returns, and in manual topic mode [_get_topic] then gives the new topic
    for that type and the old topic for every other type; when no other type
    is bound to the new topic, a message arriving on it is classified as that
    type.  No call is made on the MQTT client: the subscriptions stay as they
    were. *)
Theorem manual_topic_round_trip (message_type : MessageType) (topic : string)
    (x : manager) :
  is_Some (manual_topics_subscribe (core x) !! message_type) ->
  use_auto_topic (core x) = false ->
  let x' := mm_exec (set_manual_topic message_type "subscribe" topic) x in
  mm_result (set_manual_topic message_type "subscribe" topic) x = Val tt /\
  result (_get_topic message_type "subscribe") (core x') = Val topic /\
  (forall other, other <> message_type ->
     result (_get_topic other "subscribe") (core x')
     = result (_get_topic other "subscribe") (core x)) /\
  ((forall other, other <> message_type ->
      manual_topics_subscribe (core x) !! other <> Some topic) ->
   classify (core x') topic = Some message_type) /\
  client_calls x' = client_calls x /\
  manual_topics_publish (core x') = manual_topics_publish (core x).
Proof.
  intros Hbound Hmanual x'.
  assert (x' = with_notices
                 (notices x ++ [NoticeManualTopicSet "subscribe"
                                  (MessageType_value message_type) topic])
                 (with_core (set_manual_topics_subscribe
                               (<[message_type := topic]>
                                  (manual_topics_subscribe (core x))) (core x)) x)
          /\ mm_result (set_manual_topic message_type "subscribe" topic) x = Val tt)
    as [Hx' Hres].
  { subst x'. unfold set_manual_topic. mmred. mred.
    by rewrite (bool_decide_eq_true_2 _ Hbound). }
  split; [done|]. rewrite Hx'. unfold result.
  split; [|split; [|split]]; [| | |done].
  - rewrite _get_topic_subscribe. unfold subscribe_topic. cbn.
    by rewrite Hmanual, lookup_insert_eq.
  - intros other Hne. rewrite !_get_topic_subscribe. unfold subscribe_topic. cbn.
    by rewrite Hmanual, lookup_insert_ne.
  - intros Huniq. unfold classify. cbn [core with_notices with_core use_auto_topic
      set_manual_topics_subscribe manual_topics_subscribe]. rewrite Hmanual.
    apply classify_manual_unique; [by rewrite lookup_insert_eq|].
    intros other Hne. rewrite lookup_insert_ne by done. by apply Huniq.
Qed.

(** *** Inbound messages *)

Lemma _handle_heartbeat_valid payload seen x :
  strptime payload = Some seen ->
  _handle_heartbeat strptime payload x
  = (Val tt,
     with_notices
       (notices x ++ [if connected (core x) then NoticeHeartbeat payload
                      else NoticeOnline (device_code (core x)) payload])
       (with_core (set_connected true (set_last_heartbeat (Some seen) (core x)))
          (with_last_heartbeat_str (Some payload) x))).
Proof.
  intros Hseen. unfold _handle_heartbeat. rewrite Hseen. mmred. mred.
  destruct x as [s ? ? ? ? ? ? ? ? ? ?]. cbn.
  destruct (connected s) eqn:Hc; mmred; mred; [|done].
  by destruct s; cbn in *; subst.
Qed.

Lemma _handle_heartbeat_invalid payload x :
  strptime payload = None ->
  _handle_heartbeat strptime payload x
  = (Val tt, with_notices (notices x ++ [NoticeBadHeartbeat payload]) x).
Proof. intros Hseen. unfold _handle_heartbeat. by rewrite Hseen. Qed.

Lemma _on_message_keepalive msg text x :
  classify (core x) (msg_topic msg) = Some KEEPALIVE ->
  decode_utf8 (msg_payload msg) = Some text ->
  _on_message strptime decode_utf8 strip json_loads msg x
  = _handle_heartbeat strptime (strip text) x.
Proof.
  intros Hc Hd. unfold _on_message, mm_try_except. mmred. mred.
  rewrite Hc, Hd, with_core_core.
  destruct (strptime (strip text)) as [seen|] eqn:Hseen.
  - by rewrite (_handle_heartbeat_valid _ _ _ Hseen).
  - by rewrite (_handle_heartbeat_invalid _ _ Hseen).
Qed.

(** X14.  A keepalive message with a well-formed time brings the session online
    whatever it was before, also after [disconnect]: the session is marked
    connected, the heartbeat is the time written in the message (not the time
    of arrival) and its text is kept, one line is printed, and nothing else
    of the object changes: not its settings, not what the traffic handlers
    store, not the clock, and none of the six state snapshots.  From then on
    [send_command] takes a command: it registers it as pending under the next
    message index and hands the request to the client, returning the index
    when the client accepts it and raising what the client raises otherwise;
    and [check_connection_status] measures the age of the time in the
    message. *)
Theorem heartbeat_brings_session_online (msg : message) (text : string) (seen : Z)
    (command_type : CommandType) (params : json) (x : manager) :
  classify (core x) (msg_topic msg) = Some KEEPALIVE ->
  decode_utf8 (msg_payload msg) = Some text ->
  strptime (strip text) = Some seen ->
  let x' := mm_exec (_on_message strptime decode_utf8 strip json_loads msg) x in
  let index := message_index (core x) + 1 in
  let request :=
    JObj [("header", JObj [("index", JInt index);
                           ("version", JStr "1.0");
                           ("function", JStr (CommandType_value command_type));
                           ("timestamp", JStr (strftime (clock (ticks (core x)))))]);
          ("dataBody", params)] in
  mm_result (_on_message strptime decode_utf8 strip json_loads msg) x = Val tt /\
  connected (core x') = true /\
  last_heartbeat (core x') = Some seen /\
  last_heartbeat_str x' = Some (strip text) /\
  (exists line, notices x' = notices x ++ [line]) /\
  settings x' = settings x /\
  traffic (core x') = traffic (core x) /\
  ticks (core x') = ticks (core x) /\
  (pcs_info x', pcs_state x', bat_info x', bat_state x', em_state x', ess_state x')
  = (pcs_info x, pcs_state x, bat_info x, bat_state x, em_state x, ess_state x) /\
  pc_status <$> pending_commands (exec (send_command command_type params) (core x'))
                !! index
  = Some "pending" /\
  result (send_command command_type params) (core x')
  = match publish_error (publish_topic REQUEST (core x)) request with
    | None => Val index
    | Some e => Raise e
    end /\
  result check_connection_status (core x')
  = Val (total_seconds_le (clock (ticks (core x)) - seen)
           (connection_timeout (core x))).
Proof.
  intros Hc Hd Hseen x' index request. subst x'. unfold mm_exec, mm_result.
  rewrite (_on_message_keepalive _ _ _ Hc Hd), (_handle_heartbeat_valid _ _ _ Hseen).
  cbn -[Z.add]. do 4 (split; [done|]). split; [eauto|].
  do 4 (split; [done|]). split; [|split].
  - rewrite send_command_registers by done. cbn -[Z.add].
    by rewrite lookup_insert_eq.
  - unfold result. rewrite send_command_connected by done. cbn -[Z.add].
    fold index.
    change (command_payload index (CommandType_value command_type)
              (strftime (clock (ticks (core x)))) params) with request.
    change (publish_topic REQUEST _) with (publish_topic REQUEST (core x)).
    by destruct (publish_error _ _).
  - unfold result, check_connection_status. by mred.
Qed.

Lemma _handle_state_message_known payload header body name slot x :
  py_dict_get payload "header" (JObj []) = Some header ->
  py_dict_get payload "dataBody" (JObj []) = Some body ->
  py_dict_get header "function" JNull = Some (JStr name) ->
  state_slot name = Some slot ->
  _handle_state_message payload x
  = (Val tt,
     let y := slot body x in
     let t := clock (ticks (core y)) in
     with_notices (notices y ++ [NoticeStateUpdated (JStr name) (strftime t)])
       (with_last_heartbeat_str (Some (strftime t))
          (with_core (set_last_heartbeat (Some t)
                        (set_ticks (S (ticks (core y))) (core y)))
             y))).
Proof.
  intros Hh Hb Hf Hslot. unfold _handle_state_message. mmred. mred.
  rewrite Hh. mmred. rewrite Hb. mmred. rewrite Hf. unfold py_hash_key. mmred.
  by rewrite Hslot, !with_core_core.
Qed.

Lemma _handle_state_message_unknown payload header body name x :
  py_dict_get payload "header" (JObj []) = Some header ->
  py_dict_get payload "dataBody" (JObj []) = Some body ->
  py_dict_get header "function" JNull = Some (JStr name) ->
  state_slot name = None ->
  _handle_state_message payload x = (Val tt, x).
Proof.
  intros Hh Hb Hf Hslot. unfold _handle_state_message. mmred. mred.
  rewrite Hh. mmred. rewrite Hb. mmred. rewrite Hf. unfold py_hash_key. mmred.
  by rewrite Hslot, !with_core_core.
Qed.

Lemma snapshot_state_slot name :
  (exists slot, state_slot name = Some slot /\
     (forall x, is_Some (snapshot name x)) /\
     forall body x,
       snapshot name (slot body x) = Some body /\
       core (slot body x) = core x /\
       last_heartbeat_str (slot body x) = last_heartbeat_str x /\
       last_orderSn (slot body x) = last_orderSn x /\
       notices (slot body x) = notices x /\
       client_calls (slot body x) = client_calls x /\
       forall other, other <> name -> snapshot other (slot body x) = snapshot other x)
  \/ (state_slot name = None /\ forall x, snapshot name x = None).
Proof.
  unfold state_slot, snapshot.
  repeat lazymatch goal with
         | |- context [if String.eqb name ?key then _ else _] =>
             destruct (String.eqb_spec name key) as [->|?];
               [left; eexists; split; [reflexivity|]; split; [by eexists|];
                intros body x; repeat (split; [done|]);
                intros other Hne;
                repeat match goal with
                       | |- context [String.eqb other ?k] =>
                           destruct (String.eqb_spec other k) as [->|?]
                       end; done|]
         end.
  by right.
Qed.

(** X15.  A state message replaces one snapshot wholesale and touches nothing
    else: when the function named in its header is one of the six keys of
    [state_mappings], the snapshot of that name becomes the message body, the
    five others stay, and the heartbeat becomes the time of arrival; for any
    other name the object is left as it was.  Either way the handler returns
    and the session is not marked connected. *)
Theorem state_message_snapshot (payload header body : json) (name : string)
    (x : manager) :
  py_dict_get payload "header" (JObj []) = Some header ->
  py_dict_get payload "dataBody" (JObj []) = Some body ->
  py_dict_get header "function" JNull = Some (JStr name) ->
  let x' := mm_exec (_handle_state_message payload) x in
  mm_result (_handle_state_message payload) x = Val tt /\
  (is_Some (snapshot name x) ->
     snapshot name x' = Some body /\
     last_heartbeat (core x') = Some (clock (ticks (core x))) /\
     last_heartbeat_str x' = Some (strftime (clock (ticks (core x))))) /\
  (snapshot name x = None -> x' = x) /\
  (forall other, other <> name -> snapshot other x' = snapshot other x) /\
  connected (core x') = connected (core x) /\
  settings x' = settings x /\
  traffic (core x') = traffic (core x).
Proof.
  intros Hh Hb Hf x'. subst x'. unfold mm_exec, mm_result.
  destruct (snapshot_state_slot name) as [(slot & Hslot & Hsome & Hlens)|[Hslot Hnone]].
  - rewrite (_handle_state_message_known _ _ _ _ _ _ Hh Hb Hf Hslot).
    destruct (Hlens body x) as (Hset & Hcore & Hstr & Horder & Hnotices & Hcalls & Hothers).
    cbn. split; [done|]. rewrite !Hcore.
    split; [intros _; split; [|done]|].
    { unfold snapshot in Hset |- *. exact Hset. }
    split.
    { intros Hn. destruct (Hsome x) as [v Hv]. congruence. }
    split.
    { intros other Hne. specialize (Hothers other Hne).
      unfold snapshot in Hothers |- *. exact Hothers. }
    unfold settings, traffic. cbn. by rewrite ?Hcore, ?Horder, ?Hcalls.
  - rewrite (_handle_state_message_unknown _ _ _ _ _ Hh Hb Hf Hslot).
    cbn. split; [done|]. split; [|done].
    intros [v Hv]. by rewrite Hnone in Hv.
Qed.

Lemma _handle_state_message_cases payload x :
  (exists e, _handle_state_message payload x = (Raise e, x))
  \/ _handle_state_message payload x = (Val tt, x)
  \/ (exists name slot body,
        state_slot name = Some slot /\
        _handle_state_message payload x
        = (Val tt,
           let y := slot body x in
           let t := clock (ticks (core y)) in
           with_notices (notices y ++ [NoticeStateUpdated (JStr name) (strftime t)])
             (with_last_heartbeat_str (Some (strftime t))
                (with_core (set_last_heartbeat (Some t)
                              (set_ticks (S (ticks (core y))) (core y)))
                   y)))).
Proof.
  destruct (py_dict_get payload "header" (JObj [])) as [header|] eqn:Hh.
  2: { left. exists AttributeError. unfold _handle_state_message. mmred. mred.
       rewrite Hh. mmred. by rewrite with_core_core. }
  assert (exists body, py_dict_get payload "dataBody" (JObj []) = Some body)
    as [body Hb] by (destruct payload; try done; by eexists).
  destruct (py_dict_get header "function" JNull) as [function|] eqn:Hf.
  2: { left. exists AttributeError. unfold _handle_state_message. mmred. mred.
       rewrite Hh. mmred. rewrite Hb. mmred. rewrite Hf. mmred.
       by rewrite !with_core_core. }
  destruct function as [|b|z|name|l|l|fl].
  4: { destruct (state_slot name) as [slot|] eqn:Hslot.
       - right. right. exists name, slot, body. split; [done|].
         by apply (_handle_state_message_known _ header).
       - right. left. by apply (_handle_state_message_unknown _ header body name). }
  all: unfold _handle_state_message; mmred; mred; rewrite Hh; mmred; rewrite Hb;
    mmred; rewrite Hf; unfold py_hash_key; mmred; rewrite ?with_core_core.
  1-3: right; left; done.
  3: right; left; by destruct (float_as_int fl).
  all: left; by exists TypeError.
Qed.

Lemma _on_message_event_dispatch msg text payload x :
  classify (core x) (msg_topic msg) = Some EVENT ->
  decode_utf8 (msg_payload msg) = Some text ->
  json_loads text = Some payload ->
  _on_message strptime decode_utf8 strip json_loads msg x
  = lift (_on_message_event payload) x.
Proof.
  intros Hc Hd Hj. unfold _on_message_event. rewrite <- mm_try_except_lift.
  unfold _on_message, mm_try_except. mmred. mred.
  by rewrite Hc, Hd, Hj, with_core_core.
Qed.

Lemma _on_message_response_dispatch msg text payload x :
  classify (core x) (msg_topic msg) = Some RESPONSE ->
  decode_utf8 (msg_payload msg) = Some text ->
  json_loads text = Some payload ->
  _on_message strptime decode_utf8 strip json_loads msg x
  = lift (_on_message_response payload) x.
Proof.
  intros Hc Hd Hj. unfold _on_message_response. rewrite <- mm_try_except_lift.
  unfold _on_message, mm_try_except. mmred. mred.
  by rewrite Hc, Hd, Hj, with_core_core.
Qed.

Lemma _on_message_state_dispatch msg text payload x :
  classify (core x) (msg_topic msg) = Some STATE ->
  decode_utf8 (msg_payload msg) = Some text ->
  json_loads text = Some payload ->
  _on_message strptime decode_utf8 strip json_loads msg x
  = mm_try_except (_handle_state_message payload) x.
Proof.
  intros Hc Hd Hj. unfold _on_message, mm_try_except. mmred. mred.
  by rewrite Hc, Hd, Hj, with_core_core.
Qed.

(** X16.  From the topic to the handler: in automatic topic mode, when the
    product and device codes contain no value of a message type, a message
    that arrives on the subscribed event topic with a payload that decodes to
    a JSON value is processed by the event handler under the callback's
    [try]/[except], and one on the subscribed response topic by the response
    handler; nothing outside the attributes of those handlers is touched. *)
Theorem message_end_to_end (msg : message) (text : string) (payload : json)
    (x : manager) :
  use_auto_topic (core x) = true ->
  (forall mt, codes_mention mt (core x) = false) ->
  decode_utf8 (msg_payload msg) = Some text ->
  json_loads text = Some payload ->
  (msg_topic msg = subscribe_topic EVENT (core x) ->
     _on_message strptime decode_utf8 strip json_loads msg x
     = (result (_on_message_event payload) (core x),
        with_core (exec (_on_message_event payload) (core x)) x)) /\
  (msg_topic msg = subscribe_topic RESPONSE (core x) ->
     _on_message strptime decode_utf8 strip json_loads msg x
     = (result (_on_message_response payload) (core x),
        with_core (exec (_on_message_response payload) (core x)) x)).
Proof.
  intros Hauto Hclean Hd Hj.
  assert (forall mt, classify (core x) (subscribe_topic mt (core x)) = Some mt)
    as Hroute.
  { intros mt. unfold classify, subscribe_topic, classify_auto.
    rewrite Hauto. cbn [find]. rewrite !auto_topic_mentions_value, !Hclean.
    by destruct mt. }
  split; intros Htopic.
  - rewrite (_on_message_event_dispatch msg text payload) by
      (done || (rewrite Htopic; apply Hroute)).
    unfold lift, result, exec. by destruct (_on_message_event payload (core x)).
  - rewrite (_on_message_response_dispatch msg text payload) by
      (done || (rewrite Htopic; apply Hroute)).
    unfold lift, result, exec. by destruct (_on_message_response payload (core x)).
Qed.

(** X17.  No inbound message, whatever its topic and bytes, makes the callback
    raise, changes the codes, the topic settings, the timeout, the message
    index, the command history, the kept order number or the calls made on
    the client, adds or removes a pending command, or takes the session
    offline; the only message that can bring it online is a keepalive. *)
Theorem inbound_message_effects (msg : message) (x : manager) :
  let x' := mm_exec (_on_message strptime decode_utf8 strip json_loads msg) x in
  mm_result (_on_message strptime decode_utf8 strip json_loads msg) x = Val tt /\
  settings x' = settings x /\
  dom (pending_commands (core x')) = dom (pending_commands (core x)) /\
  (connected (core x') = connected (core x) \/
   connected (core x') = true /\
   classify (core x) (msg_topic msg) = Some KEEPALIVE).
Proof.
  intros x'. subst x'. unfold mm_exec, mm_result.
  set (view0 := fun s => (product_code s, device_code s, use_auto_topic s,
                          manual_topics_subscribe s, manual_topics_publish s,
                          connection_timeout s, message_index s, command_history s,
                          dom (pending_commands s))).
  set (view := fun s => (view0 s, connected s)).
  pose (P := fun y : manager =>
          settings y = settings x /\
          dom (pending_commands (core y)) = dom (pending_commands (core x)) /\
          (connected (core y) = connected (core x) \/
           connected (core y) = true /\
           classify (core x) (msg_topic msg) = Some KEEPALIVE)).
  assert (forall y : manager,
            view0 (core y) = view0 (core x) -> last_orderSn y = last_orderSn x ->
            client_calls y = client_calls x ->
            (connected (core y) = connected (core x) \/
             connected (core y) = true /\
             classify (core x) (msg_topic msg) = Some KEEPALIVE) ->
            P y) as Hview.
  { intros y [= H1 H2 H3 H4 H5 H6 H7 H8 H9] Ho Hc Hk. unfold P, settings.
    by rewrite H1, H2, H3, H4, H5, H6, H7, H8, Ho, Hc. }
  assert (P x) as Hsame by (apply Hview; auto).
  assert (forall n, P (with_notices n x)) as Hnotice by (intros n; apply Hview; auto).
  change ((_on_message strptime decode_utf8 strip json_loads msg x).1 = Val tt /\
          P (_on_message strptime decode_utf8 strip json_loads msg x).2).
  clearbody P.
  destruct (classify (core x) (msg_topic msg)) as [mt|] eqn:Hc.
  2: { unfold _on_message, mm_try_except. mmred. mred. rewrite Hc. mmred.
       rewrite with_core_core. split; [done | apply Hnotice]. }
  destruct (decode_utf8 (msg_payload msg)) as [text|] eqn:Hd.
  2: { unfold _on_message, mm_try_except. mmred. mred. rewrite Hc, Hd. mmred.
       rewrite with_core_core. split; [done | apply Hnotice]. }
  destruct (decide (mt = KEEPALIVE)) as [->|Hmt].
  { rewrite (_on_message_keepalive _ _ _ Hc Hd).
    destruct (strptime (strip text)) as [seen|] eqn:Hseen.
    - rewrite (_handle_heartbeat_valid _ _ _ Hseen). split; [done|].
      apply Hview; try done. by right.
    - rewrite (_handle_heartbeat_invalid _ _ Hseen).
      split; [done | apply Hnotice]. }
  destruct (json_loads text) as [payload|] eqn:Hj.
  2: { unfold _on_message, mm_try_except. mmred. mred. rewrite Hc, Hd, Hj.
       destruct mt; try done; mmred; rewrite with_core_core;
         (split; [done | apply Hnotice]). }
  destruct mt; try done.
  - rewrite (_on_message_state_dispatch _ _ _ _ Hc Hd Hj). unfold mm_try_except.
    destruct (_handle_state_message_cases payload x)
      as [[e ->]|[->|(name & slot & body & Hslot & ->)]].
    + mmred. mred. split; [done|]. apply Hview; auto.
    + split; [done | apply Hsame].
    + destruct (snapshot_state_slot name) as [(slot' & Hslot' & _ & Hlens)|[Hn _]];
        [|congruence].
      assert (slot' = slot) as -> by congruence.
      destruct (Hlens body x) as (_ & Hcore & _ & Horder & _ & Hcalls & _).
      split; [done|]. apply Hview; cbn; rewrite ?Hcore; auto.
  - rewrite (_on_message_event_dispatch _ _ _ _ Hc Hd Hj).
    pose proof (preserves__on_message_event view payload) as Hp.
    unfold preserves, exec in Hp. unfold lift.
    destruct (_on_message_event payload (core x)) as [r s'] eqn:Hrun.
    split.
    + unfold _on_message_event, try_except in Hrun.
      destruct (_handle_event_message payload (core x)) as [[[]|e] s0];
        cbv [print modify] in Hrun; by injection Hrun as <- _.
    + specialize (Hp ltac:(done) ltac:(done) ltac:(done) ltac:(done) ltac:(done)
                     ltac:(done) ltac:(done) ltac:(done) ltac:(done) ltac:(done)
                     (core x)).
      rewrite Hrun in Hp.
      apply Hview; [exact (f_equal fst Hp) | done | done |].
      left. exact (f_equal snd Hp).
  - unfold _on_message, mm_try_except. mmred. mred. rewrite Hc, Hd, Hj. mmred.
    rewrite with_core_core. split; [done | apply Hsame].
  - unfold _on_message, mm_try_except. mmred. mred. rewrite Hc, Hd, Hj. mmred.
    rewrite with_core_core. split; [done | apply Hsame].
  - rewrite (_on_message_response_dispatch _ _ _ _ Hc Hd Hj).
    unfold lift.
    destruct (_on_message_response payload (core x)) as [r s'] eqn:Hrun.
    split.
    + unfold _on_message_response, try_except in Hrun.
      destruct (_handle_response_message payload (core x)) as [[[]|e] s0];
        cbv [print modify] in Hrun; by injection Hrun as <- _.
    + assert (s' = exec (_on_message_response payload) (core x)) as ->
        by (unfold exec; by rewrite Hrun).
      pose proof (preserves__on_message_response
                 (fun s => (product_code s, device_code s, use_auto_topic s,
                            manual_topics_subscribe s, manual_topics_publish s,
                            connection_timeout s, message_index s,
                            command_history s, connected s)) payload
                 ltac:(done) ltac:(done) (core x)) as Hp.
      assert (dom (pending_commands (exec (_on_message_response payload) (core x)))
              = dom (pending_commands (core x))) as Hdom.
      { unfold _on_message_response.
        rewrite (try_except_frame (fun s => dom (pending_commands s))) by done.
        apply preserves_dom__handle_response_message. }
      cbn beta in Hp. injection Hp as H1 H2 H3 H4 H5 H6 H7 H8 H9.
      apply Hview; [|done|done|by left].
      cbn [snd core with_core]. unfold view0. congruence.
Qed.

(** *** The command wrappers *)

Lemma record_history_run label command_type x :
  record_history label command_type x
  = (Val tt,
     with_core
       (set_command_history
          (command_history (core x)
           ++ [history_entry (last_orderSn x) label (CommandType_value command_type)
                 (strftime (clock (ticks (core x))))])
          (set_ticks (S (ticks (core x))) (core x)))
       x).
Proof. unfold record_history. mmred. by mred. Qed.

Lemma _generate_order_sn_run x :
  _generate_order_sn order_stamp x
  = (Val (order_stamp (clock (ticks (core x)))),
     with_core (set_ticks (S (ticks (core x))) (core x)) x).
Proof. unfold _generate_order_sn. mmred. by mred. Qed.

Ltac wrapper_off Hc :=
  mmred; mred; rewrite Hc; mmred; by rewrite with_core_core.

(** X18.  While the session is not marked connected, every command wrapper
    returns -1 and leaves the object as it was but for the line it prints:
    nothing is published, no command becomes pending, the history and the
    kept order number stay. *)
Theorem commands_refused_offline (x : manager)
    (deviceCode deviceType param operType paramValue : json)
    (ctrl_value pcs_no ctrl_type ctrl_param effect : json) :
  connected (core x) = false ->
  let refused (label : string) :=
    (Val (-1), with_notices (notices x ++ [NoticeCannotSend label]) x) in
  send_charge_start order_stamp x = refused "充电开机" /\
  send_discharge_start order_stamp x = refused "放电开机" /\
  send_shutdown_command order_stamp x = refused "停机" /\
  send_chgSocSet deviceCode deviceType param operType paramValue x
  = refused "充电功率调节" /\
  send_dischgSocSet deviceCode deviceType param operType paramValue x
  = refused "充电功率调节" /\
  send_charge_power_adjust order_stamp ctrl_value pcs_no ctrl_type ctrl_param effect x
  = refused "充电功率调节" /\
  send_discharge_power_adjust order_stamp ctrl_value pcs_no ctrl_type ctrl_param effect x
  = refused "放电功率调节".
Proof.
  intros Hc refused. subst refused. cbv beta.
  repeat split.
  - unfold send_charge_start. wrapper_off Hc.
  - unfold send_discharge_start. wrapper_off Hc.
  - unfold send_shutdown_command. wrapper_off Hc.
  - unfold send_chgSocSet. wrapper_off Hc.
  - unfold send_dischgSocSet. wrapper_off Hc.
  - unfold send_charge_power_adjust. wrapper_off Hc.
  - unfold send_discharge_power_adjust. wrapper_off Hc.
Qed.

Ltac wrapper_on Hc :=
  unfold mm_result, mm_exec; mmred; mred; rewrite Hc; cbn -[Nat.ltb];
  rewrite ?with_core_core;
  repeat (first [rewrite _generate_order_sn_run | rewrite record_history_run];
          cbn -[Nat.ltb]);
  unfold lift; rewrite send_command_connected by exact Hc;
  unfold command_issued, history_entry, command_payload, publish_topic;
  cbn -[Nat.ltb Z.add];
  destruct (publish_error _ _); cbn -[Nat.ltb Z.add];
  repeat split; first [reflexivity | exact Hc].

(** X19.  On a session marked connected every command wrapper issues exactly one
    command: it takes the next message index, registers the command as
    pending under it and appends one history entry, whose id is the kept
    order number; it then hands the client one request on the request topic,
    with that index, the version "1.0", the function of the command type and
    the body listed below, and returns the index when the client accepts the
    request and raises what the client raises otherwise, with nothing
    published.  The two start commands send a fresh order number and keep it
    with the prefix "12345678"; the shutdown command sends the kept order
    number; the others leave it alone.  The times are the clock readings in
    the order the wrapper takes them. *)
Theorem commands_issued_online (x : manager)
    (deviceCode deviceType param operType paramValue : json)
    (ctrl_value pcs_no ctrl_type ctrl_param effect : json) :
  connected (core x) = true ->
  let stamp := order_stamp (clock (ticks (core x))) in
  let reading (n : nat) := clock (n + ticks (core x)) in
  let issued (label : string) (command_type : CommandType) (params : json)
        (kept : string) (recorded sent : nat) (call : MM Z) :=
    command_issued label command_type params
      (strftime (reading recorded)) (strftime (reading sent)) (reading (S sent))
      x (mm_result call x) (mm_exec call x) /\
    last_orderSn (mm_exec call x) = kept in
  issued "充电开机" POWER_CONTROL
    (JObj [("orderSn", JStr stamp); ("type", JInt 1)])
    ("12345678" +:+ stamp) 1%nat 2%nat (send_charge_start order_stamp) /\
  issued "放电开机" POWER_CONTROL
    (JObj [("orderSn", JStr stamp); ("type", JInt 2)])
    ("12345678" +:+ stamp) 1%nat 2%nat (send_discharge_start order_stamp) /\
  issued "停机" POWER_CONTROL
    (JObj [("orderSn", JStr (last_orderSn x)); ("type", JInt 3)])
    (last_orderSn x) 0%nat 2%nat (send_shutdown_command order_stamp) /\
  issued "充电SOC设定" CHARGE_SOC_SET
    (JObj [("deviceCode", deviceCode); ("deviceType", deviceType);
           ("param", param); ("operType", operType);
           ("paramValue", paramValue)])
    (last_orderSn x) 0%nat 1%nat
    (send_chgSocSet deviceCode deviceType param operType paramValue) /\
  issued "放电SOC设定" DISCHARGE_SOC_SET
    (JObj [("deviceCode", deviceCode); ("deviceType", deviceType);
           ("param", param); ("operType", operType);
           ("paramValue", paramValue)])
    (last_orderSn x) 0%nat 1%nat
    (send_dischgSocSet deviceCode deviceType param operType paramValue) /\
  issued "充电功率调节" CHARGE_POWER_ADJUST
    (JObj [("pcsNo", pcs_no); ("ctrlType", ctrl_type); ("ctrlParam", ctrl_param);
           ("effect", effect); ("ctrlValue", ctrl_value)])
    (last_orderSn x) 0%nat 2%nat
    (send_charge_power_adjust order_stamp ctrl_value pcs_no ctrl_type ctrl_param effect) /\
  issued "放电功率调节" DISCHARGE_POWER_ADJUST
    (JObj [("pcsNo", pcs_no); ("ctrlType", ctrl_type); ("ctrlParam", ctrl_param);
           ("effect", effect); ("ctrlValue", ctrl_value)])
    (last_orderSn x) 0%nat 2%nat
    (send_discharge_power_adjust order_stamp ctrl_value pcs_no ctrl_type ctrl_param effect).
Proof.
  intros Hc stamp reading issued. subst stamp reading issued. cbv beta.
  split; [|split; [|split; [|split; [|split; [|split]]]]].
  - unfold send_charge_start. wrapper_on Hc.
  - unfold send_discharge_start. wrapper_on Hc.
  - unfold send_shutdown_command. wrapper_on Hc.
  - unfold send_chgSocSet, soc_params. wrapper_on Hc.
  - unfold send_dischgSocSet, soc_params. wrapper_on Hc.
  - unfold send_charge_power_adjust, adjust_params. wrapper_on Hc.
  - unfold send_discharge_power_adjust, adjust_params. wrapper_on Hc.
Qed.

Ltac start_then_shutdown Hc :=
  unfold mm_exec, mm_result;
  mmred; mred; rewrite Hc; cbn -[Nat.ltb]; rewrite ?with_core_core;
  rewrite _generate_order_sn_run; cbn -[Nat.ltb];
  rewrite record_history_run; cbn -[Nat.ltb];
  unfold lift; rewrite send_command_connected by exact Hc;
  unfold command_payload, publish_topic; cbn -[Nat.ltb Z.add];
  destruct (publish_error _ _); cbn -[Nat.ltb Z.add];
  (split; [reflexivity|]); (split; [reflexivity|]);
  unfold send_shutdown_command; mmred; mred; cbn -[Nat.ltb Z.add];
  rewrite Hc; cbn -[Nat.ltb Z.add];
  rewrite record_history_run; cbn -[Nat.ltb Z.add];
  rewrite _generate_order_sn_run; cbn -[Nat.ltb Z.add];
  unfold lift;
  (rewrite send_command_connected by exact Hc);
  unfold command_payload, publish_topic; cbn -[Nat.ltb Z.add];
  rewrite <- !Z.add_assoc;
  destruct (publish_error _ _); cbn -[Nat.ltb Z.add];
  rewrite <- ?app_assoc, ?app_nil_r; split; reflexivity.

(** X20.  The order number of a shutdown is not the one its start command sent:
    a start command sends the fresh order number but keeps it with the prefix
    "12345678", and the shutdown sends what was kept.  So after a charge (or
    discharge) start and a shutdown on a connected session, the client has
    been handed two requests on the request topic with consecutive indices,
    the first with the order number [stamp] and the type of the start, the
    second with "12345678" followed by [stamp] and the type 3; each call
    returns its index when the client accepts its request and raises what the
    client raises otherwise, and the outbox has grown by the accepted
    requests, in this order. *)
Theorem shutdown_order_number (x : manager) :
  connected (core x) = true ->
  let stamp := order_stamp (clock (ticks (core x))) in
  let topic := publish_topic REQUEST (core x) in
  let request (index : Z) (sent : nat) (order_sn : string) (type : Z) :=
    JObj [("header", JObj [("index", JInt index);
                           ("version", JStr "1.0");
                           ("function", JStr "powerCtrlReq");
                           ("timestamp",
                            JStr (strftime (clock (sent + ticks (core x)))))]);
          ("dataBody", JObj [("orderSn", JStr order_sn); ("type", JInt type)])] in
  let outcome_of (r : json) (index : Z) : outcome Z :=
    match publish_error topic r with None => Val index | Some e => Raise e end in
  let accepted (r : json) : list (string * json) :=
    match publish_error topic r with None => [(topic, r)] | Some _ => [] end in
  let requests (start : MM Z) (type : Z) :=
    let started := mm_exec start x in
    let first := request (message_index (core x) + 1) 2%nat stamp type in
    let second :=
      request (message_index (core x) + 2) 6%nat ("12345678" +:+ stamp) 3 in
    mm_result start x = outcome_of first (message_index (core x) + 1) /\
    last_orderSn started = "12345678" +:+ stamp /\
    mm_result (send_shutdown_command order_stamp) started
    = outcome_of second (message_index (core x) + 2) /\
    published (core (mm_exec (send_shutdown_command order_stamp) started))
    = published (core x) ++ accepted first ++ accepted second in
  requests (send_charge_start order_stamp) 1 /\
  requests (send_discharge_start order_stamp) 2 /\
  "12345678" +:+ stamp <> stamp.
Proof.
  intros Hc stamp topic request outcome_of accepted requests.
  subst stamp topic request outcome_of accepted requests. cbv beta zeta.
  split; [|split].
  - unfold send_charge_start. start_then_shutdown Hc.
  - unfold send_discharge_start. start_then_shutdown Hc.
  - intros Heq. apply (f_equal String.length) in Heq.
    unfold String.append in Heq. cbn [String.length] in Heq. lia.
Qed.

(** *** Connection and subscriptions *)

Section Subscriptions.

Variable subscribe_error : string -> option exn.

Lemma _subscribe_topics_run x :
  exists x',
    _subscribe_topics subscribe_error x
    = ((subscriptions_until subscribe_error (core x)).2, x') /\
    core x' = core x /\
    client_calls x'
    = client_calls x ++ (subscriptions_until subscribe_error (core x)).1 /\
    last_orderSn x' = last_orderSn x.
Proof.
  unfold _subscribe_topics, subscribe_one, subscribe, subscriptions_until.
  mmred. mred.
  repeat (rewrite _get_topic_subscribe; cbn -[Nat.ltb]).
  destruct (subscribe_error (subscribe_topic KEEPALIVE (core x))) eqn:H1;
    cbn -[Nat.ltb]; rewrite ?H1; [by eexists|].
  mmred. repeat (rewrite _get_topic_subscribe; cbn -[Nat.ltb]).
  destruct (subscribe_error (subscribe_topic STATE (core x))) eqn:H2;
    cbn -[Nat.ltb]; rewrite ?H2;
    [eexists; repeat split; cbn; by rewrite <- ?app_assoc|].
  mmred. repeat (rewrite _get_topic_subscribe; cbn -[Nat.ltb]).
  destruct (subscribe_error (subscribe_topic EVENT (core x))) eqn:H3;
    cbn -[Nat.ltb]; rewrite ?H3;
    [eexists; repeat split; cbn; by rewrite <- ?app_assoc|].
  mmred. repeat (rewrite _get_topic_subscribe; cbn -[Nat.ltb]).
  destruct (subscribe_error (subscribe_topic RESPONSE (core x))) eqn:H4;
    cbn -[Nat.ltb]; rewrite ?H4;
    eexists; repeat split; cbn; by rewrite <- ?app_assoc.
Qed.

#[local] Arguments subscriptions_until : simpl never.


End Subscriptions.

(** *** The status summary *)

Lemma deliver_events_offline payloads s :
  (connected (deliver_events payloads s), device_code (deliver_events payloads s))
  = (connected s, device_code s).
Proof.
  revert s. induction payloads as [|p ps IH]; intros s; [done|].
  unfold deliver_events in *. cbn [foldl]. rewrite IH.
  by apply (preserves__on_message_event
              (fun s => (connected s, device_code s)) p).
Qed.

(** X22.  Events alone never show in the summary as a connection: on an object
    that has only received events since its construction, whatever their
    payloads, [get_status_summary] returns without raising or changing the
    object, reports the session as not connected and no heartbeat text,
    although every processed event refreshed the heartbeat time, and counts
    as many charge and discharge records as there are order numbers in the
    two index lists. *)
Theorem status_summary_of_event_session (product device : string)
    (payloads : list json) :
  let x := with_core (deliver_events payloads (__init__ product device))
             (CloudESSManager product device) in
  get_status_summary x
  = (Val (JObj [("device_code", JStr device);
                ("connected", JBool false);
                ("last_heartbeat", JNull);
                ("charge_records_count",
                 JInt (Z.of_nat (length (charge_order_sns (core x)))));
                ("discharge_records_count",
                 JInt (Z.of_nat (length (discharge_order_sns (core x)))))]),
     x).
Proof.
  intros x. subst x.
  set (s := deliver_events payloads (__init__ product device)).
  pose proof (deliver_events_offline payloads (__init__ product device)) as Hoff.
  fold s in Hoff. cbn in Hoff. injection Hoff as Hc Hd.
  assert (index_consistent s) as [[Hnc _] [Hnd _]]
    by apply deliver_events_consistent, index_consistent_init.
  assert (index_exact s) as [Hec Hed].
  { apply deliver_events_exact. split; cbn; by rewrite dom_empty_L. }
  assert (size (charge_records s) = length (charge_order_sns s)) as Hsc.
  { rewrite <- (size_dom (D:=gset pykey) (charge_records s)), Hec.
    by rewrite size_list_to_set. }
  assert (size (discharge_records s) = length (discharge_order_sns s)) as Hsd.
  { rewrite <- (size_dom (D:=gset pykey) (discharge_records s)), Hed.
    by rewrite size_list_to_set. }
  clearbody s.
  unfold get_status_summary, check_connection_status. mmred. mred.
  rewrite Hc. cbn. rewrite Hd, Hsc, Hsd. by destruct s.
Qed.

(** *** The status shown by the frontend *)

(** X23.  What the station reports is what the page shows: after a state message
    for "pcsState" whose body is a non-empty object, or a non-empty list
    whose first element is an object, with the state number [n] in that
    object, [_get_pcs_status] returns the text of [n] for 2, 3, 4 and 6 and
    the text for unknown for every other number, without raising or changing
    the object. *)
Theorem pcs_status_shows_state_message (payload header body entry : json)
    (n : Z) (x : manager) :
  py_dict_get payload "header" (JObj []) = Some header ->
  py_dict_get payload "dataBody" (JObj []) = Some body ->
  py_dict_get header "function" JNull = Some (JStr "pcsState") ->
  ((exists item items, body = JObj (item :: items) /\ entry = body) \/
   (exists rest, body = JArr (entry :: rest))) ->
  py_dict_get entry "state" (JInt (-1)) = Some (JInt n) ->
  let x' := mm_exec (_handle_state_message payload) x in
  _get_pcs_status x'
  = (Val (if n =? 2 then "待机"
          else if n =? 3 then "充电运行"
          else if n =? 4 then "放电运行"
          else if n =? 6 then "故障"
          else "未知"),
     x').
Proof.
  intros Hh Hb Hf Hshape Hstate x'. subst x'. unfold mm_exec.
  rewrite (_handle_state_message_known payload header body "pcsState"
             with_pcs_state x Hh Hb Hf eq_refl).
  cbn [snd]. unfold _get_pcs_status. mmred.
  assert (forall y,
            pcs_status_of entry y
            = (Val (if n =? 2 then "待机"
                    else if n =? 3 then "充电运行"
                    else if n =? 4 then "放电运行"
                    else if n =? 6 then "故障"
                    else "未知"), y)) as Hentry.
  { intros y. unfold pcs_status_of. mmred. mred. rewrite Hstate. mmred.
    rewrite !with_core_core. unfold py_hash_key, state_map. mmred.
    rewrite !with_core_core.
    by repeat match goal with
              | |- context [n =? ?k] => destruct (n =? k)
              end. }
  destruct Hshape as [(item & items & -> & ->)|(rest & ->)]; cbn;
    by apply Hentry.
Qed.

End WholeObject.

End Manager.

(** ** The statements on the sample traffic *)



Lemma record_upsert_witness :
  (occurrences (KStr "20250627140000")
     (charge_order_sns
        (deliver_events sample_clock sample_format sample_format sample_publish_error
           ([sample_charge_record] ++ [sample_charge_record_update])
           sample_session)) = 1%nat /\
   exists created_at,
     charge_records
       (deliver_events sample_clock sample_format sample_format sample_publish_error
          ([sample_charge_record] ++ [sample_charge_record_update])
          sample_session) !! KStr "20250627140000"
     = Some (JObj [("order_sn", JStr "20250627140000");
                   ("start_time", JNull);
                   ("stop_time", JNull);
                   ("electAmount", JInt 30);
                   ("total_money", JInt 9);
                   ("start_soc", JInt 0);
                   ("stop_soc", JInt 0);
                   ("chgTime", JInt 0);
                   ("rateModelID", JInt 0);
                   ("created_at", JStr created_at)])) /\
  (occurrences (KStr "20250627160000")
     (discharge_order_sns
        (deliver_events sample_clock sample_format sample_format sample_publish_error
           ([sample_discharge_record] ++ [sample_discharge_record_update])
           sample_session)) = 1%nat /\
   exists created_at,
     discharge_records
       (deliver_events sample_clock sample_format sample_format sample_publish_error
          ([sample_discharge_record] ++ [sample_discharge_record_update])
          sample_session) !! KStr "20250627160000"
     = Some (JObj [("order_sn", JStr "20250627160000");
                   ("start_time", JNull);
                   ("stop_time", JNull);
                   ("electAmount", JInt 9);
                   ("total_money", JInt 4);
                   ("start_soc", JInt 0);
                   ("stop_soc", JInt 0);
                   ("duration", JInt 0);
                   ("rateModelID", JInt 0);
                   ("created_at", JStr created_at)])).
Proof.
  split.
  - apply (proj1 (record_upsert sample_clock sample_format sample_format
                    sample_publish_error
                    (KStr "20250627140000") [sample_charge_record]
                    sample_charge_record_update sample_session));
      [reflexivity | vm_compute; lia].
  - apply (proj2 (record_upsert sample_clock sample_format sample_format
                    sample_publish_error
                    (KStr "20250627160000") [sample_discharge_record]
                    sample_discharge_record_update sample_session));
      [reflexivity | vm_compute; lia].
Defined.

(** C3 as stated fails.  A charge record whose order identifier is present
    and whose cost is text is stored, and the running total stays as it was:
    adding text to a number raises.  A charge record whose order identifier
    is a list, which is present but cannot be a key, raises before the cost
    is read.  And when the running total is a float, a cost that is an int
    beyond the range of the floats cannot be added: the total stays. *)
Lemma total_money_accumulates_counterexample :
  let handle payload :=
    _handle_event_message sample_clock sample_format sample_format
      sample_publish_error payload in
  (py_truthy (field (body_items sample_charge_record_text_cost) "orderSn" JNull) = true /\
   field (body_items sample_charge_record_text_cost) "totalMoney" (JInt 0)
   = JStr "12.50" /\
   result (handle sample_charge_record_text_cost) sample_session = Raise TypeError /\
   total_money (exec (handle sample_charge_record_text_cost) sample_session)
   = total_money sample_session) /\
  (py_truthy (field (body_items sample_charge_record_list_id) "orderSn" JNull) = true /\
   field (body_items sample_charge_record_list_id) "totalMoney" (JInt 0) = JInt 5 /\
   result (handle sample_charge_record_list_id) sample_session = Raise TypeError /\
   total_money (exec (handle sample_charge_record_list_id) sample_session)
   = total_money sample_session) /\
  (py_truthy (field (body_items sample_charge_record_huge_cost) "orderSn" JNull) = true /\
   field (body_items sample_charge_record_huge_cost) "totalMoney" (JInt 0)
   = JInt (10 ^ 400) /\
   result (handle sample_charge_record_huge_cost) sample_float_total
   = Raise OverflowError /\
   total_money (exec (handle sample_charge_record_huge_cost) sample_float_total)
   = PFloat sample_float_12_5).
Proof. repeat split; by vm_compute. Qed.

Lemma total_money_accumulates_witness :
  let handle payload :=
    _handle_event_message sample_clock sample_format sample_format
      sample_publish_error payload in
  total_money (exec (handle sample_charge_record) sample_session) = PInt 5 /\
  total_money (exec (handle sample_charge_record_float_cost) sample_float_total)
  = PFloat (S754_finite false 7036874417766400 (-48)) /\
  total_money (exec (handle sample_charge_record_small_cost) sample_float_total)
  = PFloat (S754_finite false 7093169413108531 (-49)) /\
  total_money (exec (handle sample_charge_record_float_cost) sample_session)
  = PFloat sample_float_12_5 /\
  total_money (exec (handle sample_charge_record) sample_float_total)
  = PFloat (S754_finite false 4925812092436480 (-48)) /\
  total_money (exec (handle sample_charge_record_huge_cost) sample_float_total)
  = PFloat sample_float_12_5 /\
  forall n,
    total_money (deliver_events sample_clock sample_format sample_format
                   sample_publish_error (replicate n sample_charge_record)
                   sample_session)
    = PInt (0 + Z.of_nat n * 5).
Proof.
  intros handle.
  pose proof (total_money_accumulates sample_clock sample_format sample_format
                sample_publish_error "chargeRecord" (KStr "20250627140000")
                sample_charge_record sample_session (or_introl eq_refl) eq_refl)
    as (Hint & _ & _ & _ & Hmany).
  pose proof (total_money_accumulates sample_clock sample_format sample_format
                sample_publish_error "chargeRecord" (KStr "20250627180000")
                sample_charge_record_float_cost sample_float_total
                (or_introl eq_refl) eq_refl)
    as (_ & Hfloat & _ & _ & _).
  pose proof (total_money_accumulates sample_clock sample_format sample_format
                sample_publish_error "chargeRecord" (KStr "20250627190000")
                sample_charge_record_small_cost sample_float_total
                (or_introl eq_refl) eq_refl)
    as (_ & Hrounded & _ & _ & _).
  pose proof (total_money_accumulates sample_clock sample_format sample_format
                sample_publish_error "chargeRecord" (KStr "20250627180000")
                sample_charge_record_float_cost sample_session
                (or_introl eq_refl) eq_refl)
    as (_ & _ & Hleft & _ & _).
  pose proof (total_money_accumulates sample_clock sample_format sample_format
                sample_publish_error "chargeRecord" (KStr "20250627140000")
                sample_charge_record sample_float_total
                (or_introl eq_refl) eq_refl)
    as (_ & _ & _ & Hright & _).
  pose proof (total_money_accumulates sample_clock sample_format sample_format
                sample_publish_error "chargeRecord" (KStr "20250627200000")
                sample_charge_record_huge_cost sample_float_total
                (or_introl eq_refl) eq_refl)
    as (_ & _ & _ & Hhuge & _).
  split; [exact (Hint 0 5 eq_refl eq_refl)|].
  split; [exact (Hfloat _ _ eq_refl eq_refl)|].
  split; [exact (Hrounded _ _ eq_refl eq_refl)|].
  split; [exact (Hleft 0 _ eq_refl eq_refl)|].
  split; [exact (Hright _ 5 eq_refl eq_refl)|].
  split; [exact (Hhuge _ (10 ^ 400) eq_refl eq_refl)|].
  intros n. exact (Hmany n 0 5 eq_refl eq_refl).
Defined.

Lemma event_ledger_bounded_fifo_witness :
  (length (event_logs (exec (_handle_event_message sample_clock sample_format sample_format sample_publish_error sample_charge_record) sample_session))
     <= 1000)%nat /\
  Forall2 logged sample_later_events
    (event_logs (deliver_events sample_clock sample_format sample_format sample_publish_error (sample_numbered_event 0 :: sample_later_events)
                   sample_session)).
Proof.
  destruct (event_ledger_bounded_fifo sample_clock sample_format sample_format sample_publish_error)
    as (Hbound & _ & Hfifo).
  split.
  - apply Hbound. vm_compute. lia.
  - apply Hfifo; [reflexivity | by vm_compute | by vm_compute].
Defined.

Lemma check_connection_status_spec_witness :
  result (check_connection_status sample_clock) sample_session = Val false /\
  result (check_connection_status sample_clock) sample_connected = Val true /\
  result (check_connection_status sample_clock) sample_stale = Val false /\
  result (check_connection_status sample_clock) sample_recent = Val true.
Proof.
  destruct (check_connection_status_spec sample_clock sample_session)
    as (Hoff & _ & _).
  destruct (check_connection_status_spec sample_clock sample_connected)
    as (_ & Hfresh & _).
  destruct (check_connection_status_spec sample_clock sample_stale)
    as (_ & _ & Hstale).
  destruct (check_connection_status_spec sample_clock sample_recent)
    as (_ & _ & Hrecent).
  destruct (Hstale (-100000000) eq_refl eq_refl) as [Hlate _].
  destruct (Hrecent 0 eq_refl eq_refl) as [_ Hearly].
  split; [apply Hoff; reflexivity|].
  split; [apply Hfresh; reflexivity|].
  split; [apply Hlate; vm_compute; reflexivity|].
  apply Hearly. vm_compute. discriminate.
Defined.

Lemma send_command_disconnected_witness :
  result (send_command sample_clock sample_format sample_publish_error POWER_CONTROL sample_params)
    sample_session = Val (-1) /\
  pending_commands
    (exec (send_command sample_clock sample_format sample_publish_error POWER_CONTROL sample_params)
       sample_session) = pending_commands sample_session /\
  published
    (exec (send_command sample_clock sample_format sample_publish_error POWER_CONTROL sample_params)
       sample_session) = published sample_session /\
  exec (send_command sample_clock sample_format sample_publish_error POWER_CONTROL sample_params)
    sample_session
    = set_console (console sample_session ++ [LogNotConnected]) sample_session.
Proof.
  apply (send_command_disconnected sample_clock sample_format sample_publish_error POWER_CONTROL
           sample_params sample_session).
  reflexivity.
Defined.

Lemma send_rate_model_set_validation_witness :
  let call details :=
    send_rate_model_set sample_clock sample_format sample_publish_error
      "1" 1 "2025-07-01" (sample_rates 5) details "rateModeSetReq" in
  (result (call (sample_rates 4)) sample_connected = Val (-1) /\
   published (exec (call (sample_rates 4)) sample_connected)
   = published sample_connected /\
   exists line,
     exec (call (sample_rates 4)) sample_connected
     = set_console (console sample_connected ++ [line]) sample_connected) /\
  (message_index (exec (call (sample_rates 5)) sample_connected) = 2 /\
   (exists entry,
      command_history (exec (call (sample_rates 5)) sample_connected)
      = command_history sample_connected ++ [entry]) /\
   exists payload body,
     py_dict_get payload "dataBody" (JObj []) = Some body /\
     py_dict_get body "rateList" JNull = Some (JArr (sample_rates 5)) /\
     py_dict_get body "rateDetailsList" JNull = Some (JArr (sample_rates 5)) /\
     result (call (sample_rates 5)) sample_connected = Val 2 /\
     published (exec (call (sample_rates 5)) sample_connected)
     = published sample_connected ++ [("100100003/0000014/M2S/request", payload)]) /\
  (message_index (exec (call (sample_rates 5)) sample_wildcard) = 2 /\
   result (call (sample_rates 5)) sample_wildcard = Raise ValueError /\
   published (exec (call (sample_rates 5)) sample_wildcard)
   = published sample_wildcard).
Proof.
  intros call.
  pose proof (send_rate_model_set_validation sample_clock sample_format
                sample_publish_error "1" 1 "2025-07-01" (sample_rates 5)
                (sample_rates 4) "rateModeSetReq" sample_connected)
    as [Hrejected _].
  pose proof (send_rate_model_set_validation sample_clock sample_format
                sample_publish_error "1" 1 "2025-07-01" (sample_rates 5)
                (sample_rates 5) "rateModeSetReq" sample_connected)
    as [_ Haccepted].
  pose proof (send_rate_model_set_validation sample_clock sample_format
                sample_publish_error "1" 1 "2025-07-01" (sample_rates 5)
                (sample_rates 5) "rateModeSetReq" sample_wildcard)
    as [_ Hraised].
  destruct (Haccepted eq_refl ltac:(vm_compute; lia) eq_refl)
    as (Hindex & Hhistory & payload & body & Hbody & Hrates & Hdetails & Hpublished).
  destruct (Hraised eq_refl ltac:(vm_compute; lia) eq_refl)
    as (Hindex' & _ & payload' & _ & _ & _ & _ & Hraise).
  split; [apply Hrejected; left; vm_compute; discriminate|].
  split.
  - split; [exact Hindex|]. split; [exact Hhistory|].
    exists payload, body.
    split; [exact Hbody|]. split; [exact Hrates|]. split; [exact Hdetails|].
    exact Hpublished.
  - split; [exact Hindex'|]. exact Hraise.
Defined.



(** C9 fails at count 0: with two charge records and one discharge record
    stored, the unfiltered queries asked for 0 records return them all. *)
Theorem get_records_count_zero :
  let s := deliver_events sample_clock sample_format sample_format sample_publish_error [sample_charge_record; sample_charge_record_next;
                           sample_discharge_record] sample_session in
  result (get_charge_records 0 JNull) s
    = Val [charge_record_of (body_items sample_charge_record_next) sample_stamp;
           charge_record_of (body_items sample_charge_record) sample_stamp] /\
  result (get_discharge_records 0 JNull) s
    = Val [discharge_record_of (body_items sample_discharge_record) sample_stamp].
Proof. by vm_compute. Qed.

(** C10 as stated fails in a connected session whose device code holds the
    wildcard "+": the request topic holds it too, so the client raises on a
    request that passed the checks.  The counter has moved by then, yet no
    value is returned to the caller and no request envelope is published. *)
Lemma send_rate_model_set_index_counterexample :
  let call :=
    send_rate_model_set sample_clock sample_format sample_publish_error
      "1" 1 "2025-07-01" (sample_rates 5) (sample_rates 5) "rateModeSetReq" in
  connected sample_wildcard = true /\
  rate_segments_invalid (sample_rates 5) (sample_rates 5) = false /\
  publish_topic REQUEST sample_wildcard = "100100003/0000+14/M2S/request" /\
  message_index (exec call sample_wildcard) = message_index sample_wildcard + 1 /\
  result call sample_wildcard = Raise ValueError /\
  result call sample_wildcard <> Val (message_index sample_wildcard + 1) /\
  published (exec call sample_wildcard) = [].
Proof. repeat split; by vm_compute. Qed.

Lemma send_rate_model_set_index_witness :
  let call :=
    send_rate_model_set sample_clock sample_format sample_publish_error
      "1" 1 "2025-07-01" (sample_rates 5) (sample_rates 5) "rateModeSetReq" in
  (message_index (exec call sample_connected) = message_index sample_connected + 1 /\
   pending_commands (exec call sample_connected) = pending_commands sample_connected /\
   (forall responses,
      dom (pending_commands (deliver_responses responses (exec call sample_connected)))
      = dom (pending_commands sample_connected)) /\
   exists payload header,
     py_dict_get payload "header" (JObj []) = Some header /\
     py_dict_get header "index" JNull = Some (JInt (message_index sample_connected)) /\
     py_dict_get header "function" JNull = Some (JStr "rateModeSetReq") /\
     result call sample_connected = Val (message_index sample_connected + 1) /\
     published (exec call sample_connected)
     = published sample_connected ++ [("100100003/0000014/M2S/request", payload)]) /\
  (message_index (exec call sample_wildcard) = message_index sample_wildcard + 1 /\
   pending_commands (exec call sample_wildcard) = pending_commands sample_wildcard /\
   result call sample_wildcard = Raise ValueError /\
   published (exec call sample_wildcard) = published sample_wildcard).
Proof.
  intros call.
  destruct (send_rate_model_set_index sample_clock sample_format
              sample_publish_error "1" 1 "2025-07-01" (sample_rates 5)
              (sample_rates 5) "rateModeSetReq" sample_connected
              eq_refl eq_refl ltac:(vm_compute; lia))
    as (Hindex & Hpending & Hresponses & payload & header & Hheader & Hvalue
        & Hfunction & Hpublished).
  destruct (send_rate_model_set_index sample_clock sample_format
              sample_publish_error "1" 1 "2025-07-01" (sample_rates 5)
              (sample_rates 5) "rateModeSetReq" sample_wildcard
              eq_refl eq_refl ltac:(vm_compute; lia))
    as (Hindex' & Hpending' & _ & payload' & _ & _ & _ & _ & Hraise).
  split.
  - split; [exact Hindex|]. split; [exact Hpending|]. split; [exact Hresponses|].
    exists payload, header.
    split; [exact Hheader|]. split; [exact Hvalue|]. split; [exact Hfunction|].
    exact Hpublished.
  - split; [exact Hindex'|]. split; [exact Hpending'|]. exact Hraise.
Defined.

(** ** Further statements on the sample traffic *)

Lemma command_response_round_trip_witness :
  let call := send_command sample_clock sample_format sample_publish_error
                POWER_CONTROL sample_params in
  (result call sample_connected = Val 2 /\
   pc_status <$> pending_commands (exec call sample_connected) !! 2
   = Some "pending" /\
   pc_status <$>
     pending_commands
       (exec (_on_message_response (sample_response 2)) (exec call sample_connected))
       !! 2
   = Some "completed") /\
  (result call sample_wildcard = Raise ValueError /\
   pc_status <$> pending_commands (exec call sample_wildcard) !! 2
   = Some "pending" /\
   pc_response <$>
     pending_commands
       (exec (_on_message_response (sample_response 2)) (exec call sample_wildcard))
       !! 2
   = Some (sample_response 2)).
Proof.
  intros call.
  destruct (command_response_round_trip sample_clock sample_format
              sample_publish_error POWER_CONTROL sample_params (sample_response 2)
              _ sample_connected eq_refl eq_refl eq_refl)
    as (Hindex & Hissued & Hanswered & _).
  destruct (command_response_round_trip sample_clock sample_format
              sample_publish_error POWER_CONTROL sample_params (sample_response 2)
              _ sample_wildcard eq_refl eq_refl eq_refl)
    as (Hraise & Hissued' & Hanswered' & _).
  cbv zeta in *.
  split.
  - split; [exact Hindex|].
    split; [exact (f_equal (fmap pc_status) Hissued)|].
    exact (f_equal (fmap pc_status) Hanswered).
  - split; [exact Hraise|].
    split; [exact (f_equal (fmap pc_status) Hissued')|].
    exact (f_equal (fmap pc_response) Hanswered').
Defined.

Lemma rate_model_index_collision_witness :
  let issued :=
    exec (send_command sample_clock sample_format sample_publish_error
            POWER_CONTROL sample_params) sample_connected in
  let rate_call :=
    send_rate_model_set sample_clock sample_format sample_publish_error
      "1" 1 "2025-07-01" (sample_rates 5) (sample_rates 5) "rateModeSetReq" in
  pc_status <$> pending_commands issued !! 2 = Some "pending" /\
  message_index issued = 2 /\
  message_index (exec rate_call issued) = 3 /\
  (exists request request_header,
     py_dict_get request "header" (JObj []) = Some request_header /\
     py_dict_get request_header "index" JNull = Some (JInt 2) /\
     result rate_call issued = Val 3 /\
     last (published (exec rate_call issued))
     = Some ("100100003/0000014/M2S/request", request)) /\
  pc_status <$>
    pending_commands
      (exec (_on_message_response (sample_response 2)) (exec rate_call issued)) !! 2
  = Some "completed".
Proof.
  intros issued rate_call.
  destruct (rate_model_index_collision sample_clock sample_format
              sample_publish_error POWER_CONTROL sample_params "1" 1 "2025-07-01"
              (sample_rates 5) (sample_rates 5) "rateModeSetReq"
              (sample_response 2) _ sample_connected
              eq_refl eq_refl eq_refl eq_refl)
    as (Hpending & Hindex & Hmoved & (request & header & Hheader & Hsame & _ & Hsent)
        & Hdone).
  cbv zeta in *.
  split; [exact (f_equal (fmap pc_status) Hpending)|].
  split; [exact Hindex|]. split; [exact Hmoved|].
  split.
  - exists request, header.
    split; [exact Hheader|]. split; [exact Hsame|]. exact Hsent.
  - exact (f_equal (fmap pc_status) Hdone).
Defined.

Lemma stale_session_accepts_commands_witness :
  let call := send_command sample_clock sample_format sample_publish_error
                POWER_CONTROL sample_params in
  result (check_connection_status sample_clock) sample_stale = Val false /\
  message_index (exec call sample_stale) = 2 /\
  pc_status <$> pending_commands (exec call sample_stale) !! 2 = Some "pending" /\
  result call sample_stale = Val 2 /\
  published (exec call sample_stale)
  = [("100100003/0000014/M2S/request",
      JObj [("header", JObj [("index", JInt 2);
                             ("version", JStr "1.0");
                             ("function", JStr "powerCtrlReq");
                             ("timestamp", JStr sample_stamp)]);
            ("dataBody", sample_params)])].
Proof.
  intros call.
  destruct (stale_session_accepts_commands sample_clock sample_format
              sample_publish_error POWER_CONTROL sample_params (-100000000)
              sample_stale eq_refl eq_refl)
    as (Hdead & Hindex & Hpending & Hsent).
  - vm_compute. reflexivity.
  - split; [exact Hdead|]. split; [exact Hindex|]. split; [exact Hpending|].
    exact Hsent.
Defined.

Lemma total_money_is_sum_of_costs_witness :
  total_money
    (deliver_events sample_clock sample_format sample_format sample_publish_error
       [sample_charge_record; sample_other_event; sample_charge_record_text_cost;
        sample_discharge_record] sample_session)
  = PInt (0 + (5 + (0 + (0 + (3 + 0))))).
Proof.
  apply (proj2 (total_money_is_sum_of_costs sample_clock sample_format
                  sample_format sample_publish_error
                  [sample_charge_record; sample_other_event;
                   sample_charge_record_text_cost; sample_discharge_record]
                  sample_session) 0);
    reflexivity.
Defined.

Lemma recent_records_of_session_witness :
  exists records,
    get_charge_records 1 JNull
      (deliver_events sample_clock sample_format sample_format sample_publish_error
         [sample_charge_record; sample_charge_record_next] sample_session)
    = (Val records,
       deliver_events sample_clock sample_format sample_format sample_publish_error
         [sample_charge_record; sample_charge_record_next] sample_session) /\
    length records = 1%nat.
Proof.
  destruct (recent_records_of_session sample_clock sample_format sample_format sample_publish_error
              "100100003" "0000014"
              [sample_charge_record; sample_charge_record_next] 1)
    as [(records & Hrun & Hlength & _) _]; [lia|].
  exists records. split; [exact Hrun | exact Hlength].
Defined.

Lemma record_read_back_witness :
  exists created_at,
    result (get_charge_records 10 (JStr "20250627140000"))
      (exec (_on_message_event sample_clock sample_format sample_format sample_publish_error
               sample_charge_record) sample_session)
    = Val [charge_record_of (body_items sample_charge_record) created_at].
Proof.
  exact (proj1 (proj1 (record_read_back sample_clock sample_format sample_format sample_publish_error
                         (KStr "20250627140000") sample_charge_record 10 10 JNull
                         sample_session) eq_refl)).
Defined.

Lemma auto_topic_routing_witness :
  classify sample_session "100100003/0000014/S2M/event" = Some EVENT.
Proof.
  apply (auto_topic_routing sample_session EVENT); [reflexivity|].
  intros []; reflexivity.
Defined.

Lemma auto_topic_misrouting_witness :
  exists other,
    classify sample_misnamed "100100003/state-01/S2M/event" = Some other /\
    (MessageType_position other <= 1)%nat /\
    other <> EVENT.
Proof.
  apply (auto_topic_misrouting sample_misnamed STATE EVENT);
    [reflexivity | reflexivity | simpl; lia].
Defined.

Lemma manual_topic_round_trip_witness :
  result (_get_topic EVENT "subscribe")
    (core (mm_exec (set_manual_topic EVENT "subscribe" "site/7/event")
             sample_manager_manual)) = Val "site/7/event" /\
  classify
    (core (mm_exec (set_manual_topic EVENT "subscribe" "site/7/event")
             sample_manager_manual)) "site/7/event" = Some EVENT /\
  client_calls (mm_exec (set_manual_topic EVENT "subscribe" "site/7/event")
                  sample_manager_manual) = [].
Proof.
  destruct (manual_topic_round_trip EVENT "site/7/event" sample_manager_manual)
    as (_ & Htopic & _ & Hclassify & Hcalls & _).
  - exists "100100003/9999998/S2M/event". reflexivity.
  - reflexivity.
  - split; [exact Htopic|]. split; [|exact Hcalls].
    apply Hclassify. intros [] Hne; vm_compute; congruence.
Defined.

Lemma heartbeat_brings_session_online_witness :
  let x' :=
    mm_exec (_on_message sample_clock sample_format sample_format
               sample_publish_error sample_strptime sample_decode_utf8
               sample_strip sample_json_loads sample_keepalive) sample_manager in
  connected (core sample_manager) = false /\
  connected (core x') = true /\
  last_heartbeat (core x') = Some 0 /\
  (pcs_info x', pcs_state x', bat_info x', bat_state x', em_state x', ess_state x')
  = (JObj [], JObj [], JObj [], JObj [], JObj [], JObj []) /\
  result (send_command sample_clock sample_format sample_publish_error
            POWER_CONTROL sample_params) (core x')
  = Val 2.
Proof.
  intros x'.
  destruct (heartbeat_brings_session_online sample_clock sample_format
              sample_format sample_publish_error
              sample_strptime sample_decode_utf8 sample_strip sample_json_loads
              sample_keepalive sample_stamp 0 POWER_CONTROL sample_params
              sample_manager eq_refl eq_refl eq_refl)
    as (_ & Honline & Hseen & _ & _ & _ & _ & _ & Hsnapshots & _ & Hsent & _).
  split; [reflexivity|]. split; [exact Honline|]. split; [exact Hseen|].
  split; [exact Hsnapshots | exact Hsent].
Defined.

Lemma state_message_snapshot_witness :
  snapshot "pcsState"
    (mm_exec (_handle_state_message sample_clock sample_format sample_pcs_state)
       sample_manager) = Some (JObj [("power", JInt 3)]) /\
  snapshot "pcsInfo"
    (mm_exec (_handle_state_message sample_clock sample_format sample_pcs_state)
       sample_manager) = Some (JObj []) /\
  connected
    (core (mm_exec (_handle_state_message sample_clock sample_format sample_pcs_state)
             sample_manager)) = false.
Proof.
  destruct (state_message_snapshot sample_clock sample_format sample_pcs_state
              _ _ "pcsState" sample_manager eq_refl eq_refl eq_refl)
    as (_ & Hknown & _ & Hothers & Hconnected & _).
  split; [apply Hknown; by eexists|].
  split; [|exact Hconnected].
  rewrite (Hothers "pcsInfo"); [reflexivity | discriminate].
Defined.

Lemma message_end_to_end_witness :
  _on_message sample_clock sample_format sample_format sample_publish_error sample_strptime
    sample_decode_utf8 sample_strip sample_json_loads sample_event_message
    sample_manager
  = (result (_on_message_event sample_clock sample_format sample_format sample_publish_error
               sample_charge_record) sample_session,
     with_core (exec (_on_message_event sample_clock sample_format sample_format sample_publish_error
                        sample_charge_record) sample_session) sample_manager).
Proof.
  apply (proj1 (message_end_to_end sample_clock sample_format sample_format sample_publish_error
                  sample_strptime sample_decode_utf8 sample_strip sample_json_loads
                  sample_event_message "chargeRecord" sample_charge_record
                  sample_manager eq_refl ltac:(intros []; reflexivity)
                  eq_refl eq_refl)).
  reflexivity.
Defined.

Lemma commands_refused_offline_witness :
  send_charge_start sample_clock sample_format sample_publish_error sample_order_stamp sample_manager
  = (Val (-1),
     with_notices (notices sample_manager ++ [NoticeCannotSend "充电开机"])
       sample_manager).
Proof.
  exact (proj1 (commands_refused_offline sample_clock sample_format sample_publish_error
                  sample_order_stamp sample_manager JNull JNull JNull JNull JNull
                  JNull JNull JNull JNull JNull eq_refl)).
Defined.

Lemma commands_issued_online_witness :
  let call := send_charge_start sample_clock sample_format sample_publish_error
                sample_order_stamp in
  (mm_result call sample_manager_connected = Val 2 /\
   published (core (mm_exec call sample_manager_connected))
   = [("100100003/0000014/M2S/request",
       JObj [("header", JObj [("index", JInt 2);
                              ("version", JStr "1.0");
                              ("function", JStr "powerCtrlReq");
                              ("timestamp", JStr sample_stamp)]);
             ("dataBody", JObj [("orderSn", JStr "20250627140100");
                                ("type", JInt 1)])])] /\
   last_orderSn (mm_exec call sample_manager_connected)
   = "1234567820250627140100") /\
  (mm_result call sample_manager_wildcard = Raise ValueError /\
   published (core (mm_exec call sample_manager_wildcard)) = [] /\
   message_index (core (mm_exec call sample_manager_wildcard)) = 2 /\
   last_orderSn (mm_exec call sample_manager_wildcard)
   = "1234567820250627140100").
Proof.
  intros call.
  destruct (commands_issued_online sample_clock sample_format
              sample_publish_error sample_order_stamp
              sample_manager_connected JNull JNull JNull JNull JNull
              JNull JNull JNull JNull JNull eq_refl)
    as [[(_ & _ & _ & _ & _ & Hsent) Hkept] _].
  destruct (commands_issued_online sample_clock sample_format
              sample_publish_error sample_order_stamp
              sample_manager_wildcard JNull JNull JNull JNull JNull
              JNull JNull JNull JNull JNull eq_refl)
    as [[(Hindex & _ & _ & _ & _ & Hraise) Hkept'] _].
  split.
  - split; [exact (proj1 Hsent)|]. split; [exact (proj2 Hsent) | exact Hkept].
  - split; [exact (proj1 Hraise)|]. split; [exact (proj2 Hraise)|].
    split; [exact Hindex | exact Hkept'].
Defined.

Lemma shutdown_order_number_witness :
  let start := send_charge_start sample_clock sample_format sample_publish_error
                 sample_order_stamp in
  let stop := send_shutdown_command sample_clock sample_format sample_publish_error
                sample_order_stamp in
  let request (index : Z) (order_sn : string) (type : Z) :=
    JObj [("header", JObj [("index", JInt index);
                           ("version", JStr "1.0");
                           ("function", JStr "powerCtrlReq");
                           ("timestamp", JStr sample_stamp)]);
          ("dataBody", JObj [("orderSn", JStr order_sn); ("type", JInt type)])] in
  (mm_result start sample_manager_connected = Val 2 /\
   mm_result stop (mm_exec start sample_manager_connected) = Val 3 /\
   published (core (mm_exec stop (mm_exec start sample_manager_connected)))
   = [("100100003/0000014/M2S/request", request 2 "20250627140100" 1);
      ("100100003/0000014/M2S/request", request 3 "1234567820250627140100" 3)]) /\
  (mm_result start sample_manager_wildcard = Raise ValueError /\
   mm_result stop (mm_exec start sample_manager_wildcard) = Raise ValueError /\
   published (core (mm_exec stop (mm_exec start sample_manager_wildcard))) = []).
Proof.
  intros start stop request.
  destruct (shutdown_order_number sample_clock sample_format sample_publish_error
              sample_order_stamp sample_manager_connected eq_refl)
    as ((Hstart & _ & Hstop & Houtbox) & _).
  destruct (shutdown_order_number sample_clock sample_format sample_publish_error
              sample_order_stamp sample_manager_wildcard eq_refl)
    as ((Hstart' & _ & Hstop' & Houtbox') & _).
  split.
  - split; [exact Hstart|]. split; [exact Hstop | exact Houtbox].
  - split; [exact Hstart'|]. split; [exact Hstop' | exact Houtbox'].
Defined.


Lemma pcs_status_shows_state_message_witness :
  mm_result _get_pcs_status
    (mm_exec (_handle_state_message sample_clock sample_format sample_pcs_charging)
       sample_manager) = Val "充电运行" /\
  mm_result _get_pcs_status
    (mm_exec (_handle_state_message sample_clock sample_format sample_pcs_idle)
       sample_manager) = Val "未知".
Proof.
  split.
  - exact (f_equal fst
             (pcs_status_shows_state_message sample_clock sample_format
                sample_pcs_charging _ _ _ 3 sample_manager eq_refl eq_refl eq_refl
                (or_introl (ex_intro _ _ (ex_intro _ _ (conj eq_refl eq_refl))))
                eq_refl)).
  - exact (f_equal fst
             (pcs_status_shows_state_message sample_clock sample_format
                sample_pcs_idle _ _ _ 5 sample_manager eq_refl eq_refl eq_refl
                (or_introl (ex_intro _ _ (ex_intro _ _ (conj eq_refl eq_refl))))
                eq_refl)).
Defined.
